(** * prune-state-vscdb: a shallow embedding of [scripts/prune-state-vscdb.ts]

    The script prunes the SQLite files [state.vscdb] of Cursor / VS Code.
    It parses its command line, discovers database files, and drives an
    external [sqlite3] command with a small fixed set of SQL statements.

    Layout of this development:
    - [Js]      the JavaScript primitives the script relies on
                ([trim], [parseInt], [replace(/'/g, "''")], number printing);
    - [Args]    [PruneOptions] and [parseArgs];
    - [Sql]     the SQL texts the script builds, and the fragment of SQLite
                that executes them (a reader for those texts, [LIKE], the
                effect of [SELECT COUNT], [DELETE], [VACUUM], [PRAGMA]);
    - [Script]  the world the script runs in (environment, file system,
                engine), its effects as a state-and-exception monad, and the
                functions of the script;
    - the notions the statements are written with, and a sample
      installation ([Demo]) on which the statements are tried;
    - [Menu]    the argument lists that the menu script
                [clear-cursor-cache.ps1] hands to the script;
    - the properties of the script, one section per topic.  The numbered
      statements C1 to C10 are those of the specification; the statements
      numbered from X1 on are further properties of the code (the search
      for databases, the kinds of run of [main], the edges of a prune, a
      prune whose statements reach the engine as they were built, runs
      without the engine or on a database held by another process, the
      menu).

    Modelling conventions.  JavaScript numbers are integers here ([Z]);
    [NaN] is [None].  The script only produces integers (results of
    [parseInt]), and integer arithmetic on doubles is exact below 2^53.
    File sizes in MB are rationals ([Q]): division of a byte count by 2^20 is
    exact on doubles.  Strings are sequences of bytes, the UTF-8 encoding of
    the script's strings; [trim] and [parseInt] know the white space of
    ECMAScript in that encoding, and [LIKE] reads characters as SQLite
    does.

    What is outside the repository.  The engine is SQLite's command-line
    shell, with its settings as they come (no init file that changes how
    results are printed).  [Sql] fixes, after SQLite's documentation and
    sources, what it does with the statements of the script; what it
    decides by itself (the verdict of a check, the size of a file, the
    rowids after [VACUUM], what it does with any other text) is a
    parameter, [Sql.Engine].  The script reaches the engine through the
    system shell, with the statement as a double-quoted word.  A word that
    holds nothing for a shell to act on reaches the engine as it is; what
    becomes of any other word is a parameter of the environment,
    [Script.shell].  The two words before it, the command and the file, are
    paths, and paths are taken to hold nothing for a shell to act on.  The
    limits on the length of a command line are not modelled.  [path.join]
    is a parameter of the environment too.  The queries of the analysis
    ([analyzeGlobalStateVscdb]) are recorded as one event and not run. *)

From Stdlib Require Import ZArith NArith QArith String Ascii List Bool Lia.
From Stdlib Require Import DecimalString DecimalZ DecimalN DecimalPos.
From stdpp Require Import base option gmap strings list sorting.

Local Open Scope string_scope.
Local Open Scope list_scope.

(* ===================================================================== *)
(** ** JavaScript primitives *)
(* ===================================================================== *)

Module Js.

(** Strings are sequences of bytes, the UTF-8 encoding of the script's
    strings.  [byte c] is the value of a byte. *)
Definition byte (c : ascii) : nat := nat_of_ascii c.

(** White space recognised by [String.prototype.trim] and skipped by
    [parseInt] is ECMAScript's WhiteSpace and LineTerminator.  Six of these
    characters are one byte long: TAB, LF, VT, FF, CR and SPACE. *)
Definition is_ws (c : ascii) : bool :=
  let n := byte c in
  Nat.eqb n 32 || (Nat.leb 9 n && Nat.leb n 13).

(** One is two bytes long: U+00A0 (no-break space), [C2 A0]. *)
Definition is_ws2 (c1 c2 : ascii) : bool :=
  Nat.eqb (byte c1) 194 && Nat.eqb (byte c2) 160.

(** The others are three bytes long:
    U+1680 [E1 9A 80]; U+2000 to U+200A [E2 80 80] to [E2 80 8A];
    U+2028 and U+2029 (line and paragraph separator) [E2 80 A8], [E2 80 A9];
    U+202F [E2 80 AF]; U+205F [E2 81 9F]; U+3000 [E3 80 80];
    U+FEFF (byte order mark) [EF BB BF]. *)
Definition is_ws3 (c1 c2 c3 : ascii) : bool :=
  let '(n1, n2, n3) := (byte c1, byte c2, byte c3) in
  (Nat.eqb n1 225 && Nat.eqb n2 154 && Nat.eqb n3 128)
  || (Nat.eqb n1 226 && Nat.eqb n2 128
      && ((Nat.leb 128 n3 && Nat.leb n3 138)
          || Nat.eqb n3 168 || Nat.eqb n3 169 || Nat.eqb n3 175))
  || (Nat.eqb n1 226 && Nat.eqb n2 129 && Nat.eqb n3 159)
  || (Nat.eqb n1 227 && Nat.eqb n2 128 && Nat.eqb n3 128)
  || (Nat.eqb n1 239 && Nat.eqb n2 187 && Nat.eqb n3 191).

(** The bytes that open a white-space character. *)
Definition ws_lead (c : ascii) : bool :=
  is_ws c || Nat.eqb (byte c) 194 || Nat.eqb (byte c) 225
  || Nat.eqb (byte c) 226 || Nat.eqb (byte c) 227 || Nat.eqb (byte c) 239.

Fixpoint trimStart (s : string) : string :=
  match s with
  | String c1 s1 =>
      if is_ws c1 then trimStart s1 else
      match s1 with
      | String c2 s2 =>
          if is_ws2 c1 c2 then trimStart s2 else
          match s2 with
          | String c3 s3 => if is_ws3 c1 c2 c3 then trimStart s3 else s
          | EmptyString => s
          end
      | EmptyString => s
      end
  | EmptyString => EmptyString
  end.

(** A string of white space only is trimmed to nothing; otherwise its first
    byte stays and the rest is trimmed at its end. *)
Fixpoint trimEnd (s : string) : string :=
  match s with
  | String c s' =>
      match trimStart s with
      | EmptyString => EmptyString
      | _ => String c (trimEnd s')
      end
  | EmptyString => EmptyString
  end.

(** [s.trim()] *)
Definition trim (s : string) : string := trimEnd (trimStart s).

(** Decimal digits, read into the Standard Library's [Decimal.uint]. *)
Definition digit_cons (c : ascii) : option (Decimal.uint -> Decimal.uint) :=
  match c with
  | "0"%char => Some Decimal.D0 | "1"%char => Some Decimal.D1
  | "2"%char => Some Decimal.D2 | "3"%char => Some Decimal.D3
  | "4"%char => Some Decimal.D4 | "5"%char => Some Decimal.D5
  | "6"%char => Some Decimal.D6 | "7"%char => Some Decimal.D7
  | "8"%char => Some Decimal.D8 | "9"%char => Some Decimal.D9
  | _ => None
  end.

Definition is_digit (c : ascii) : bool :=
  match digit_cons c with Some _ => true | None => false end.

(** The longest prefix of decimal digits of [s], and what follows it. *)
Fixpoint read_digits (s : string) : Decimal.uint * string :=
  match s with
  | String c s' =>
      match digit_cons c with
      | Some d => let (u, rest) := read_digits s' in (d u, rest)
      | None => (Decimal.Nil, s)
      end
  | EmptyString => (Decimal.Nil, EmptyString)
  end.

(** [parseInt(s, 10)]: leading white space is skipped, one sign is accepted,
    then the longest run of digits is read and whatever follows is ignored.
    No digit at all gives [NaN], which is [None]. *)
Definition parseInt (s : string) : option Z :=
  let s1 := trimStart s in
  let '(neg, s2) :=
    match s1 with
    | String "-"%char r => (true, r)
    | String "+"%char r => (false, r)
    | _ => (false, s1)
    end in
  match fst (read_digits s2) with
  | Decimal.Nil => None
  | u => Some (if neg : bool then (- Z.of_uint u)%Z else Z.of_uint u)
  end.

(** [x || 0] for a number [x]: [NaN] and [0] are falsy. *)
Definition or_zero (x : option Z) : Z :=
  match x with Some z => z | None => 0%Z end.

(** [n > 0] for a number [n]: false on [NaN]. *)
Definition gt_zero (x : option Z) : bool :=
  match x with Some z => (0 <? z)%Z | None => false end.

(** The text of an integer in a template literal, [`${n}`]. *)
Definition show_int (z : Z) : string := NilEmpty.string_of_int (Z.to_int z).

(** [s.replace(/'/g, "''")]: every single quote is doubled. *)
Fixpoint escape_quotes (s : string) : string :=
  match s with
  | String c s' =>
      if Ascii.eqb c "'"%char
      then String "'"%char (String "'"%char (escape_quotes s'))
      else String c (escape_quotes s')
  | EmptyString => EmptyString
  end.

(** The characters that string literals here do not hold. *)
Definition dquote : string := String (ascii_of_nat 34) EmptyString.
Definition backslash : string := String (ascii_of_nat 92) EmptyString.
Definition newline : string := String (ascii_of_nat 10) EmptyString.

Definition hex_digit (n : nat) : string :=
  String.substring n 1 "0123456789abcdef".

(** [JSON.stringify(s)] on a string: the text between double quotes, with a
    backslash before each double quote and each backslash, the short escapes
    for backspace, tab, line feed, form feed and carriage return, and
    [\u00xx] for the other characters below U+0020.  All other characters
    stand for themselves.  (A lone surrogate would be written as an escape
    too; a string decoded from UTF-8 has none.) *)
Definition json_char (c : ascii) : string :=
  let n := byte c in
  if Nat.eqb n 34 then backslash +:+ dquote
  else if Nat.eqb n 92 then backslash +:+ backslash
  else if Nat.eqb n 8 then backslash +:+ "b"
  else if Nat.eqb n 9 then backslash +:+ "t"
  else if Nat.eqb n 10 then backslash +:+ "n"
  else if Nat.eqb n 12 then backslash +:+ "f"
  else if Nat.eqb n 13 then backslash +:+ "r"
  else if Nat.ltb n 32
       then backslash +:+ "u00" +:+ hex_digit (n / 16) +:+ hex_digit (n mod 16)
  else String c EmptyString.

Fixpoint json_chars (s : string) : string :=
  match s with
  | String c s' => json_char c +:+ json_chars s'
  | EmptyString => EmptyString
  end.

Definition JSON_stringify (s : string) : string :=
  dquote +:+ json_chars s +:+ dquote.

(** [xs.includes(x)] on an array of strings. *)
Definition includes (xs : list string) (x : string) : bool :=
  existsb (String.eqb x) xs.

End Js.

(* ===================================================================== *)
(** ** Command line *)
(* ===================================================================== *)

Module Args.

Definition ALLOWED_TABLES : list string := ["ItemTable"; "cursorDiskKV"].

(** [TableName] is a string at run time; that the field [deleteTable] only
    ever holds a member of [ALLOWED_TABLES] is proved, not assumed. *)
Record PruneOptions := {
  workspace : bool;
  global : bool;
  thresholdMb : option Z;         (* a number; [None] is [NaN] *)
  analyze : bool;
  checkIntegrity : bool;
  globalOnlyIntegrity : bool;
  countCategories : bool;
  deleteKeysPattern : option string;
  deleteTable : string;
  keepLast : option Z;            (* [number | null]; [None] is [null] *)
}.

Definition default_options : PruneOptions := {|
  workspace := true;
  global := false;
  thresholdMb := Some 50%Z;
  analyze := false;
  checkIntegrity := false;
  globalOnlyIntegrity := false;
  countCategories := false;
  deleteKeysPattern := None;
  deleteTable := "ItemTable";
  keepLast := None;
|}.

Definition set_workspace (b : bool) (o : PruneOptions) :=
  {| workspace := b; global := global o; thresholdMb := thresholdMb o;
     analyze := analyze o; checkIntegrity := checkIntegrity o;
     globalOnlyIntegrity := globalOnlyIntegrity o;
     countCategories := countCategories o;
     deleteKeysPattern := deleteKeysPattern o; deleteTable := deleteTable o;
     keepLast := keepLast o |}.
Definition set_global (b : bool) (o : PruneOptions) :=
  {| workspace := workspace o; global := b; thresholdMb := thresholdMb o;
     analyze := analyze o; checkIntegrity := checkIntegrity o;
     globalOnlyIntegrity := globalOnlyIntegrity o;
     countCategories := countCategories o;
     deleteKeysPattern := deleteKeysPattern o; deleteTable := deleteTable o;
     keepLast := keepLast o |}.
Definition set_thresholdMb (x : option Z) (o : PruneOptions) :=
  {| workspace := workspace o; global := global o; thresholdMb := x;
     analyze := analyze o; checkIntegrity := checkIntegrity o;
     globalOnlyIntegrity := globalOnlyIntegrity o;
     countCategories := countCategories o;
     deleteKeysPattern := deleteKeysPattern o; deleteTable := deleteTable o;
     keepLast := keepLast o |}.
Definition set_analyze (b : bool) (o : PruneOptions) :=
  {| workspace := workspace o; global := global o; thresholdMb := thresholdMb o;
     analyze := b; checkIntegrity := checkIntegrity o;
     globalOnlyIntegrity := globalOnlyIntegrity o;
     countCategories := countCategories o;
     deleteKeysPattern := deleteKeysPattern o; deleteTable := deleteTable o;
     keepLast := keepLast o |}.
Definition set_checkIntegrity (b : bool) (o : PruneOptions) :=
  {| workspace := workspace o; global := global o; thresholdMb := thresholdMb o;
     analyze := analyze o; checkIntegrity := b;
     globalOnlyIntegrity := globalOnlyIntegrity o;
     countCategories := countCategories o;
     deleteKeysPattern := deleteKeysPattern o; deleteTable := deleteTable o;
     keepLast := keepLast o |}.
Definition set_globalOnlyIntegrity (b : bool) (o : PruneOptions) :=
  {| workspace := workspace o; global := global o; thresholdMb := thresholdMb o;
     analyze := analyze o; checkIntegrity := checkIntegrity o;
     globalOnlyIntegrity := b;
     countCategories := countCategories o;
     deleteKeysPattern := deleteKeysPattern o; deleteTable := deleteTable o;
     keepLast := keepLast o |}.
Definition set_countCategories (b : bool) (o : PruneOptions) :=
  {| workspace := workspace o; global := global o; thresholdMb := thresholdMb o;
     analyze := analyze o; checkIntegrity := checkIntegrity o;
     globalOnlyIntegrity := globalOnlyIntegrity o;
     countCategories := b;
     deleteKeysPattern := deleteKeysPattern o; deleteTable := deleteTable o;
     keepLast := keepLast o |}.
Definition set_deleteKeysPattern (p : option string) (o : PruneOptions) :=
  {| workspace := workspace o; global := global o; thresholdMb := thresholdMb o;
     analyze := analyze o; checkIntegrity := checkIntegrity o;
     globalOnlyIntegrity := globalOnlyIntegrity o;
     countCategories := countCategories o;
     deleteKeysPattern := p; deleteTable := deleteTable o;
     keepLast := keepLast o |}.
Definition set_deleteTable (t : string) (o : PruneOptions) :=
  {| workspace := workspace o; global := global o; thresholdMb := thresholdMb o;
     analyze := analyze o; checkIntegrity := checkIntegrity o;
     globalOnlyIntegrity := globalOnlyIntegrity o;
     countCategories := countCategories o;
     deleteKeysPattern := deleteKeysPattern o; deleteTable := t;
     keepLast := keepLast o |}.
Definition set_keepLast (k : option Z) (o : PruneOptions) :=
  {| workspace := workspace o; global := global o; thresholdMb := thresholdMb o;
     analyze := analyze o; checkIntegrity := checkIntegrity o;
     globalOnlyIntegrity := globalOnlyIntegrity o;
     countCategories := countCategories o;
     deleteKeysPattern := deleteKeysPattern o; deleteTable := deleteTable o;
     keepLast := k |}.

(** The body of the [for] loop of [parseArgs] for a flag that takes a value
    ([arg] is at index [i], [v] at index [i + 1], and the loop then skips
    [v]).  [None]: [arg] is not one of the four flags with a value. *)
Definition valued_flag (arg v : string) (o : PruneOptions)
  : option PruneOptions :=
  if String.eqb arg "--threshold" then
    Some (set_thresholdMb (Js.parseInt v) o)
  else if String.eqb arg "--table" then
    Some (if Js.includes ALLOWED_TABLES v then set_deleteTable v o else o)
  else if String.eqb arg "--delete-keys" then
    Some (set_deleteKeysPattern (Some v) o)
  else if String.eqb arg "--keep-last" then
    let n := Js.parseInt v in
    Some (if Js.gt_zero n then set_keepLast n o else o)
  else None.

(** The body of the loop for the flags without a value. *)
Definition plain_flag (arg : string) (o : PruneOptions) : option PruneOptions :=
  if String.eqb arg "--workspace" then Some (set_workspace true o)
  else if String.eqb arg "--global" then Some (set_global true o)
  else if String.eqb arg "--analyze" then Some (set_analyze true o)
  else if String.eqb arg "--check-integrity" then Some (set_checkIntegrity true o)
  else if String.eqb arg "--global-only" then Some (set_globalOnlyIntegrity true o)
  else if String.eqb arg "--count-categories" then Some (set_countCategories true o)
  else None.

(** The loop [for (let i = 0; i < args.length; i++)], on the arguments from
    index [i] on.  The [else if] chain tests the plain flags first; a flag
    with a value is taken only when [i + 1 < args.length]; any other
    argument is skipped. *)
Fixpoint parse_loop (args : list string) (o : PruneOptions) : PruneOptions :=
  match args with
  | [] => o
  | arg :: rest =>
      match plain_flag arg o with
      | Some o' => parse_loop rest o'
      | None =>
          match rest with
          | v :: rest' =>
              match valued_flag arg v o with
              | Some o' => parse_loop rest' o'
              | None => parse_loop rest o
              end
          | [] => o
          end
      end
  end.

(** [parseArgs()], as a function of [process.argv.slice(2)]. *)
Definition parseArgs (args : list string) : PruneOptions :=
  parse_loop args default_options.

End Args.

(* ===================================================================== *)
(** ** SQL: the texts the script builds and the engine that runs them *)
(* ===================================================================== *)

Module Sql.

(** *** Texts (the template literals of the script) *)

(** [`'${escaped}'`] with [escaped = pattern.replace(/'/g, "''")]. *)
Definition likeLiteral (pattern : string) : string :=
  "'" +:+ Js.escape_quotes pattern +:+ "'".

Definition count_sql (table likeLit : string) : string :=
  "SELECT COUNT(*) FROM " +:+ table +:+ " WHERE key LIKE " +:+ likeLit +:+ ";".

Definition sum_sql (table likeLit : string) : string :=
  "SELECT COALESCE(SUM(LENGTH(value)), 0) FROM " +:+ table
    +:+ " WHERE key LIKE " +:+ likeLit +:+ ";".

Definition delete_sql (table likeLit : string) : string :=
  "DELETE FROM " +:+ table +:+ " WHERE key LIKE " +:+ likeLit +:+ ";".

Definition delete_keep_sql (table likeLit : string) (keepLast : Z) : string :=
  "DELETE FROM " +:+ table +:+ " WHERE key LIKE " +:+ likeLit
    +:+ " AND rowid NOT IN (SELECT rowid FROM " +:+ table
    +:+ " WHERE key LIKE " +:+ likeLit
    +:+ " ORDER BY rowid DESC LIMIT " +:+ Js.show_int keepLast +:+ ");".

Definition quick_check_sql : string := "PRAGMA quick_check;".
Definition integrity_check_sql : string := "PRAGMA integrity_check;".
Definition vacuum_sql : string := "VACUUM;".

(** *** Statements, and reading them back from text

    The engine sees text.  [parse] reads the statement shapes above the way
    SQLite's tokenizer does where it matters: an identifier is a run of
    letters, digits and underscores; a string literal opens with a quote,
    holds two quotes for one, and closes at the first quote that is not
    doubled; an integer is an optional minus sign and digits. *)

Inductive Stmt :=
  | SCount (table pattern : string)
  | SSum (table pattern : string)
  | SDelete (table pattern : string)
  | SDeleteKeep (table pattern subTable subPattern : string) (limit : Z)
  | SQuickCheck
  | SIntegrityCheck
  | SVacuum.

Fixpoint strip_prefix (pre s : string) : option string :=
  match pre with
  | EmptyString => Some s
  | String a pre' =>
      match s with
      | String b s' => if Ascii.eqb a b then strip_prefix pre' s' else None
      | EmptyString => None
      end
  end.

Definition is_ident_char (c : ascii) : bool :=
  let n := nat_of_ascii c in
  (Nat.leb 48 n && Nat.leb n 57) || (Nat.leb 65 n && Nat.leb n 90)
  || (Nat.leb 97 n && Nat.leb n 122) || Nat.eqb n 95.

Fixpoint read_ident (s : string) : string * string :=
  match s with
  | String c s' =>
      if is_ident_char c
      then let (i, rest) := read_ident s' in (String c i, rest)
      else (EmptyString, s)
  | EmptyString => (EmptyString, EmptyString)
  end.

(** The body of a string literal, after its opening quote. *)
Fixpoint read_literal_body (s : string) : option (string * string) :=
  match s with
  | EmptyString => None
  | String c s' =>
      if Ascii.eqb c "'"%char then
        match s' with
        | String c2 s'' =>
            if Ascii.eqb c2 "'"%char then
              match read_literal_body s'' with
              | Some (body, rest) => Some (String "'"%char body, rest)
              | None => None
              end
            else Some (EmptyString, s')
        | EmptyString => Some (EmptyString, EmptyString)
        end
      else
        match read_literal_body s' with
        | Some (body, rest) => Some (String c body, rest)
        | None => None
        end
  end.

Definition read_literal (s : string) : option (string * string) :=
  match s with
  | String "'"%char s' => read_literal_body s'
  | _ => None
  end.

Definition read_digits_nonempty (s : string) : option (Decimal.uint * string) :=
  match Js.read_digits s with
  | (Decimal.Nil, _) => None
  | (u, rest) => Some (u, rest)
  end.

Definition read_int (s : string) : option (Z * string) :=
  match s with
  | String "-"%char r =>
      '(u, rest) ← read_digits_nonempty r; Some ((- Z.of_uint u)%Z, rest)
  | _ =>
      '(u, rest) ← read_digits_nonempty s; Some (Z.of_uint u, rest)
  end.

(** [<table> WHERE key LIKE <literal>], shared by the four statements. *)
Definition parse_where (s : string) : option (string * string * string) :=
  let '(t, s1) := read_ident s in
  if String.eqb t "" then None else
  s2 ← strip_prefix " WHERE key LIKE " s1;
  '(p, s3) ← read_literal s2;
  Some (t, p, s3).

Definition parse_count (s : string) : option Stmt :=
  s1 ← strip_prefix "SELECT COUNT(*) FROM " s;
  '(t, p, s2) ← parse_where s1;
  if String.eqb s2 ";" then Some (SCount t p) else None.

Definition parse_sum (s : string) : option Stmt :=
  s1 ← strip_prefix "SELECT COALESCE(SUM(LENGTH(value)), 0) FROM " s;
  '(t, p, s2) ← parse_where s1;
  if String.eqb s2 ";" then Some (SSum t p) else None.

Definition parse_delete (s : string) : option Stmt :=
  s1 ← strip_prefix "DELETE FROM " s;
  '(t, p, s2) ← parse_where s1;
  match strip_prefix " AND rowid NOT IN (SELECT rowid FROM " s2 with
  | Some s3 =>
      '(t', p', s4) ← parse_where s3;
      s5 ← strip_prefix " ORDER BY rowid DESC LIMIT " s4;
      '(n, s6) ← read_int s5;
      if String.eqb s6 ");" then Some (SDeleteKeep t p t' p' n) else None
  | None => if String.eqb s2 ";" then Some (SDelete t p) else None
  end.

Definition parse (sql : string) : option Stmt :=
  if String.eqb sql quick_check_sql then Some SQuickCheck
  else if String.eqb sql integrity_check_sql then Some SIntegrityCheck
  else if String.eqb sql vacuum_sql then Some SVacuum
  else match parse_count sql with
       | Some st => Some st
       | None =>
           match parse_sum sql with
           | Some st => Some st
           | None => parse_delete sql
           end
       end.

(** *** [LIKE]

    SQLite's default [LIKE] ([patternCompare] in [func.c]): [%] matches any
    run of characters, [_] any one character, and the letters A-Z of ASCII
    match without regard to case.

    Pattern and key are read one character at a time, as
    [sqlite3Utf8Read] does: a byte below 0xC0 is a character by itself; a
    byte from 0xC0 on opens a character, which takes in every byte of the
    form 10xxxxxx that follows; the text ends at a zero byte.  Characters
    are compared by their code points in 32 bits, and a code point that
    UTF-8 does not allow (below 0x80 in several bytes, a surrogate, 0xFFFE
    or 0xFFFF) is read as 0xFFFD. *)

(** The payload bits of a byte that opens a character
    ([sqlite3Utf8Trans1]). *)
Definition lead_bits (n : N) : N :=
  if (n <? 224)%N then (n mod 32)%N
  else if (n <? 240)%N then (n mod 16)%N
  else if (n <? 248)%N then (n mod 8)%N
  else if (n <? 252)%N then (n mod 4)%N
  else if (n <? 254)%N then (n mod 2)%N
  else 0%N.

Definition code_point (c : N) : N :=
  if (c <? 128)%N || N.eqb (N.land c 4294965248) 55296
     || N.eqb (N.land c 4294967294) 65534
  then 65533%N else c.

(** The character that is being read, if one is open. *)
Definition closed (cur : option N) : list N :=
  match cur with Some c => [code_point c] | None => [] end.

Fixpoint utf8_chars (cur : option N) (s : string) : list N :=
  match s with
  | EmptyString => closed cur
  | String b s' =>
      let n := N_of_ascii b in
      if N.eqb n 0 then closed cur
      else if (128 <=? n)%N && (n <? 192)%N then
        match cur with
        | Some c => utf8_chars (Some ((c * 64 + n mod 64) mod 4294967296)%N) s'
        | None => n :: utf8_chars None s'
        end
      else if (192 <=? n)%N
           then closed cur ++ utf8_chars (Some (lead_bits n)) s'
           else closed cur ++ n :: utf8_chars None s'
  end.

(** [sqlite3Tolower] on a character of ASCII. *)
Definition lower (c : N) : N :=
  if (65 <=? c)%N && (c <=? 90)%N then (c + 32)%N else c.

Definition same_char (c d : N) : bool :=
  N.eqb c d || ((c <? 128)%N && (d <? 128)%N && N.eqb (lower c) (lower d)).

Fixpoint like_chars (pattern s : list N) : bool :=
  match pattern with
  | [] => match s with [] => true | _ => false end
  | c :: p' =>
      if N.eqb c 37 then
        (fix any_run (s : list N) : bool :=
           like_chars p' s
           || match s with _ :: s' => any_run s' | [] => false end) s
      else
        match s with
        | d :: s' => (same_char c d || N.eqb c 95) && like_chars p' s'
        | [] => false
        end
  end.

Definition like (pattern s : string) : bool :=
  like_chars (utf8_chars None pattern) (utf8_chars None s).

(** A pattern of more than [SQLITE_MAX_LIKE_PATTERN_LENGTH] bytes is one the
    engine may refuse. *)
Definition short (pattern : string) : bool :=
  (N.of_nat (String.length pattern) <=? 50000)%N.

(** *** Database files and the effect of a statement *)

Record Row := { rowid : Z; key : string; value : string }.

(** A database file: its size in bytes, whether another process holds a
    lock on it, whether that lock is one that shuts readers out too (SQLite's
    PENDING and EXCLUSIVE; under SHARED and RESERVED others may still read),
    and its tables.  The rows of a table are in no particular order; the
    engine gives every row of a table its own [rowid]. *)
Record DbFile := {
  size : N;
  locked : bool;
  exclusive : bool;
  tables : gmap string (list Row);
}.

(** What one run of the engine gives back: the text on its standard output,
    or a failure (a non-zero exit status, which [execSync] turns into an
    exception). *)
Inductive outcome := Out (text : string) | Fail (msg : string).

(** What the script does not decide and the engine does: the verdicts of the
    two consistency checks on a file, the size of a file once a statement
    has written to it, the rowids after [VACUUM], which may give new
    rowids to the rows of a table without an [INTEGER PRIMARY KEY]
    ([vacuum_rowid f t i] is the new rowid of the row of table [t] that had
    rowid [i] in [f]), and all it does with a text that is not one of the
    statements above. *)
Record Engine := {
  quick_check : DbFile -> outcome;
  integrity_check : DbFile -> outcome;
  size_after : Stmt -> DbFile -> N;
  vacuum_rowid : DbFile -> string -> Z -> Z;
  other : string -> DbFile -> outcome * DbFile;
}.

Definition matching (pattern : string) (rows : list Row) : list Row :=
  List.filter (fun r => like pattern (key r)) rows.

(** The order of [ORDER BY rowid DESC]. *)
Definition desc (a b : Z) : Prop := (b ≤ a)%Z.

#[export] Instance desc_dec : RelDecision desc := fun a b => Z_le_dec b a.

(** [SELECT rowid FROM .. WHERE key LIKE .. ORDER BY rowid DESC LIMIT n]:
    a negative [LIMIT] is no limit. *)
Definition last_rowids (pattern : string) (rows : list Row) (limit : Z)
  : list Z :=
  let ids := merge_sort desc (map rowid (matching pattern rows)) in
  if (limit <? 0)%Z then ids else take (Z.to_nat limit) ids.

Definition mem_Z (x : Z) (l : list Z) : bool := existsb (Z.eqb x) l.

(** The rows left by [DELETE FROM .. WHERE key LIKE pattern]. *)
Definition delete_rows (pattern : string) (rows : list Row) : list Row :=
  List.filter (fun r => negb (like pattern (key r))) rows.

(** The rows left by
    [DELETE FROM .. WHERE key LIKE pattern AND rowid NOT IN (kept)]. *)
Definition delete_rows_except (pattern : string) (kept : list Z)
    (rows : list Row) : list Row :=
  List.filter
    (fun r => negb (like pattern (key r) && negb (mem_Z (rowid r) kept))) rows.

Definition with_table (f : DbFile) (st : Stmt) (eng : Engine)
    (t : string) (rows : list Row) : DbFile :=
  {| size := size_after eng st f; locked := locked f;
     exclusive := exclusive f;
     tables := <[t := rows]> (tables f) |}.

Definition renumber (g : Z -> Z) (r : Row) : Row :=
  {| rowid := g (rowid r); key := key r; value := value r |}.

(** The file after [VACUUM]: every table keeps its rows, with their keys and
    values, in their order. *)
Definition vacuumed (eng : Engine) (f : DbFile) : DbFile :=
  {| size := size_after eng SVacuum f; locked := locked f;
     exclusive := exclusive f;
     tables :=
       map_imap
         (fun t rows => Some (map (renumber (vacuum_rowid eng f t)) rows))
         (tables f) |}.

Definition no_such_table (t : string) : outcome :=
  Fail ("no such table: " +:+ t).

(** The statements that change the file. *)
Definition writing (st : Stmt) : bool :=
  match st with
  | SDelete _ _ | SDeleteKeep _ _ _ _ _ | SVacuum => true
  | SCount _ _ | SSum _ _ | SQuickCheck | SIntegrityCheck => false
  end.

(** A statement cannot run while another process holds a lock that bars it:
    any lock bars a statement that writes, since a write ends by taking the
    file for itself alone; a lock that shuts readers out bars every
    statement.  (The engine does not wait: the command-line shell sets no
    busy timeout.) *)
Definition refused (st : Stmt) (f : DbFile) : bool :=
  locked f && (writing st || exclusive f).

(** The patterns of a statement. *)
Definition patterns (st : Stmt) : list string :=
  match st with
  | SCount _ p | SSum _ p | SDelete _ p => [p]
  | SDeleteKeep _ p _ p' _ => [p; p']
  | SQuickCheck | SIntegrityCheck | SVacuum => []
  end.

Definition exec_stmt (eng : Engine) (st : Stmt) (f : DbFile)
  : outcome * DbFile :=
  if refused st f then (Fail "database is locked", f) else
  match st with
  | SCount t p =>
      match tables f !! t with
      | Some rows =>
          (Out (Js.show_int (Z.of_nat (length (matching p rows))) +:+ "
"), f)
      | None => (no_such_table t, f)
      end
  | SSum t p =>
      match tables f !! t with
      | Some rows =>
          let total := list_sum ((fun r => String.length (value r)) <$> matching p rows) in
          (Out (Js.show_int (Z.of_nat total) +:+ "
"), f)
      | None => (no_such_table t, f)
      end
  | SDelete t p =>
      match tables f !! t with
      | Some rows =>
          (Out "", with_table f st eng t (delete_rows p rows))
      | None => (no_such_table t, f)
      end
  | SDeleteKeep t p t' p' n =>
      match tables f !! t, tables f !! t' with
      | Some rows, Some rows' =>
          let kept := last_rowids p' rows' n in
          (Out "", with_table f st eng t (delete_rows_except p kept rows))
      | None, _ => (no_such_table t, f)
      | _, None => (no_such_table t', f)
      end
  | SQuickCheck => (quick_check eng f, f)
  | SIntegrityCheck => (integrity_check eng f, f)
  | SVacuum => (Out "", vacuumed eng f)
  end.

(** One run of the engine on a file with a text.  What the engine does with
    one of the statements above is [exec_stmt], as long as its patterns are
    short; everything else is the engine's own. *)
Definition exec (eng : Engine) (sql : string) (f : DbFile) : outcome * DbFile :=
  match parse sql with
  | Some st =>
      if forallb short (patterns st) then exec_stmt eng st f
      else other eng sql f
  | None => other eng sql f
  end.

End Sql.

(* ===================================================================== *)
(** ** The script *)
(* ===================================================================== *)

Module Script.
Import Args Sql.

(** *** The world: environment, file system, record of external commands *)

(** What a path of the file system holds.  A directory lists its entries as
    [readdirSync(.., { withFileTypes: true })] gives them: a name and
    whether the entry is a directory; a directory that cannot be read makes
    [readdirSync] throw. *)
Inductive Node :=
  | NDb (f : DbFile)
  | NProgram (bytes : N)
  | NDir (bytes : N) (readable : bool) (entries : list (string * bool)).

Definition node_size (n : Node) : N :=
  match n with
  | NDb f => size f
  | NProgram b => b
  | NDir b _ _ => b
  end.

Record Env := {
  APPDATA : option string;        (* [process.env.APPDATA] *)
  LOCALAPPDATA : option string;   (* [process.env.LOCALAPPDATA] *)
  homedir : string;               (* [os.homedir()] *)
  cwd : string;                   (* [process.cwd()] *)
  path_join : list string -> string;  (* [path.join] *)
  sqlite3_on_path : bool;         (* does the shell find [sqlite3]? *)
  shell : string -> string;       (* what the system shell, and the engine's
                                     reading of its command line, make of a
                                     double-quoted word *)
}.

(** The commands handed to [execSync], and the points where the script
    announces work on a database, in the order they happen. *)
Inductive Event :=
  | EvProbe                              (* [sqlite3 --version] *)
  | EvExec (cmd filePath sql : string)   (* ["cmd" "filePath" "sql"] *)
  | EvReport (cmd filePath : string)     (* the queries of the analysis *)
  | EvPrune (filePath label : string).   (* [pruneDatabase] entered *)

Record World := {
  env : Env;
  fs : gmap string Node;
  trace : list Event;
}.

Definition log_event (e : Event) (w : World) : World :=
  {| env := env w; fs := fs w; trace := trace w ++ [e] |}.

Definition write_db (filePath : string) (f : DbFile) (w : World) : World :=
  {| env := env w; fs := <[filePath := NDb f]> (fs w); trace := trace w |}.

(** *** Effects: state and exceptions *)

(** The errors thrown, each with what tells it from the others: the
    message for those made by [execSync] and by [vacuumDatabase]. *)
Inductive Error :=
  | EngineNotFound                  (* [sqlite3 command not found. ...] *)
  | ExecError (message : string)    (* [execSync] threw *)
  | VacuumError (message : string)  (* [Failed to run VACUUM: ...] *)
  | StatError (filePath : string).  (* [statSync] threw *)

Inductive Result (A : Type) :=
  | Ok (a : A)
  | Throw (e : Error).
Arguments Ok {A} a.
Arguments Throw {A} e.

Definition M (A : Type) : Type := World -> Result A * World.

Definition ret {A} (a : A) : M A := fun w => (Ok a, w).

Definition throw {A} (e : Error) : M A := fun w => (Throw e, w).

Definition bind {A B} (m : M A) (k : A -> M B) : M B :=
  fun w =>
    match m w with
    | (Ok a, w') => k a w'
    | (Throw e, w') => (Throw e, w')
    end.

(** [try { m } catch (e) { h e }] *)
Definition try_catch {A} (m : M A) (h : Error -> M A) : M A :=
  fun w =>
    match m w with
    | (Ok a, w') => (Ok a, w')
    | (Throw e, w') => h e w'
    end.

Definition log (e : Event) : M unit := fun w => (Ok tt, log_event e w).

(** Reading the world without changing it. *)
Definition ask {A} (f : World -> A) : M A := fun w => (Ok (f w), w).

Notation "'let*' x := m 'in' k" := (bind m (fun x => k))
  (at level 10, x name, m at level 100, k at level 200, only parsing).
Notation "'run' m 'in' k" := (bind m (fun _ => k))
  (at level 10, m at level 100, k at level 200, only parsing).

(** [for (const x of xs) { body x }] *)
Fixpoint for_each {A} (xs : list A) (body : A -> M unit) : M unit :=
  match xs with
  | [] => ret tt
  | x :: xs' => run body x in for_each xs' body
  end.

(** *** Paths *)

(** [path.join(...parts)], which is the platform's.  (It never gives the
    empty string, so that a path, in a condition, is tested for [null].) *)
Definition join (w : World) (parts : list string) : string :=
  path_join (env w) parts.

Definition existsSync (w : World) (p : string) : bool :=
  match fs w !! p with Some _ => true | None => false end.

(** A string in a condition: [undefined] and the empty string are falsy. *)
Definition truthy (o : option string) : option string :=
  match o with
  | Some s => if String.eqb s "" then None else Some s
  | None => None
  end.

Definition getWorkspaceStatePath (w : World) : option string :=
  let workspacePath := cwd (env w) in
  let possiblePaths :=
    [ join w [workspacePath; ".vscode"; "state.vscdb"];
      join w [workspacePath; ".cursor"; "state.vscdb"] ] in
  List.find (existsSync w) possiblePaths.

Definition globalStorage (w : World) (root : list string) (app : string) : string :=
  join w (root ++ [app; "User"; "globalStorage"; "state.vscdb"]).

Definition getGlobalStatePath (w : World) : option string :=
  let home := homedir (env w) in
  let possiblePaths :=
    match truthy (APPDATA (env w)) with
    | Some appData =>
        [ globalStorage w [appData] "Cursor"; globalStorage w [appData] "Code" ]
    | None => []
    end ++
    [ globalStorage w [home; "AppData"; "Roaming"] "Cursor";
      globalStorage w [home; "AppData"; "Roaming"] "Code";
      globalStorage w [home; ".config"] "Cursor";
      globalStorage w [home; ".config"] "Code";
      globalStorage w [home; "Library"; "Application Support"] "Cursor";
      globalStorage w [home; "Library"; "Application Support"] "Code" ] in
  List.find (existsSync w) possiblePaths.

Definition workspaceStorage (w : World) (root : list string) (app : string) : string :=
  join w (root ++ [app; "User"; "workspaceStorage"]).

Definition readdirSync (w : World) (p : string) : option (list (string * bool)) :=
  match fs w !! p with
  | Some (NDir _ true entries) => Some entries
  | _ => None
  end.

(** The local [add] of [getAllStateVscdbPaths], on the pair of [seen] and
    [out]. *)
Definition add (w : World) (filePath label : string)
    (acc : gset string * list (string * string))
  : gset string * list (string * string) :=
  let '(seen, out) := acc in
  if negb (existsSync w filePath) || bool_decide (filePath ∈ seen) then acc
  else ({[filePath]} ∪ seen, out ++ [(filePath, label)]).

Definition add_workspace_dir (w : World) (wsDir : string)
    (acc : gset string * list (string * string))
  : gset string * list (string * string) :=
  if negb (existsSync w wsDir) then acc else
  match readdirSync w wsDir with
  | Some entries =>
      let ids := List.filter snd entries in
      fold_left
        (fun acc id =>
           let statePath := join w [wsDir; fst id; "state.vscdb"] in
           if existsSync w statePath
           then add w statePath ("WorkspaceStorage/" +:+ fst id +:+ " state.vscdb") acc
           else acc)
        ids acc
  | None => acc
  end.

(** All [state.vscdb] paths: project, workspaceStorage (each workspace),
    and global. *)
Definition getAllStateVscdbPaths (w : World) : list (string * string) :=
  let acc0 : gset string * list (string * string) := (∅, []) in
  let acc1 :=
    match getWorkspaceStatePath w with
    | Some workspacePath => add w workspacePath "Workspace (project) state.vscdb" acc0
    | None => acc0
    end in
  let home := homedir (env w) in
  let wsDirs :=
    match truthy (APPDATA (env w)) with
    | Some appData =>
        [ workspaceStorage w [appData] "Cursor";
          workspaceStorage w [appData] "Code" ]
    | None =>
        [ workspaceStorage w [home; "AppData"; "Roaming"] "Cursor";
          workspaceStorage w [home; "AppData"; "Roaming"] "Code";
          workspaceStorage w [home; ".config"] "Cursor";
          workspaceStorage w [home; ".config"] "Code";
          workspaceStorage w [home; "Library"; "Application Support"] "Cursor";
          workspaceStorage w [home; "Library"; "Application Support"] "Code" ]
    end in
  let acc2 := fold_left (fun acc wsDir => add_workspace_dir w wsDir acc) wsDirs acc1 in
  let acc3 :=
    match getGlobalStatePath w with
    | Some globalPath => add w globalPath "Global state.vscdb" acc2
    | None => acc2
    end in
  snd acc3.

(** *** Sizes *)

(** [stats.size / (1024 * 1024)] *)
Definition mb_of_bytes (bytes : N) : Q := Z.of_N bytes # (2 ^ 20).

Definition getFileSizeMb (filePath : string) : M Q :=
  fun w =>
    match fs w !! filePath with
    | Some n => (Ok (mb_of_bytes (node_size n)), w)
    | None => (Throw (StatError filePath), w)
    end.

(** [x < y] on numbers, [y] possibly [NaN]. *)
Definition lt_num (x : Q) (y : option Z) : bool :=
  match y with
  | Some z => negb (Qle_bool (inject_Z z) x)
  | None => false
  end.

(** *** The operations of the script, over an engine *)

Section Operations.

Variable eng : Engine.

Definition winPaths (w : World) : list string :=
  [ "C:\Program Files\SQLite\sqlite3.exe";
    "C:\Program Files (x86)\SQLite\sqlite3.exe";
    join w [ match truthy (LOCALAPPDATA (env w)) with Some d => d | None => "" end;
             "Programs"; "sqlite3"; "sqlite3.exe" ] ].

Definition getSqlite3Command : M string :=
  run log EvProbe in
  fun w =>
    if sqlite3_on_path (env w) then (Ok "sqlite3", w)
    else
      match List.find (existsSync w) (winPaths w) with
      | Some winPath => (Ok winPath, w)
      | None => (Throw EngineNotFound, w)
      end.

(** Does the shell start the engine when given [cmd]? *)
Definition command_runs (w : World) (cmd : string) : bool :=
  if String.eqb cmd "sqlite3" then sqlite3_on_path (env w)
  else match fs w !! cmd with Some (NProgram _) => true | _ => false end.

(** **** The command line

    [execSync] hands its command line to the system shell ([/bin/sh -c], or
    [cmd.exe /d /s /c] on Windows).  The statement is the third word, between
    double quotes.  Inside double quotes [sh] still expands [$] and the
    backquote and reads the backslash as an escape; [cmd.exe] expands
    [%name%] (and [!name!] when delayed expansion is on); the double quote
    closes the word; and what becomes of a character outside ASCII depends
    on the encoding of the command line (the code page, on Windows).  A word
    without any of these is handed on as it is.  For any other word, what
    reaches the engine is the platform's affair, [shell]. *)

(** The control characters (which [JSON.stringify] writes with a
    backslash), [!], the double quote, [$], the backslash, the backquote,
    and the bytes outside ASCII. *)
Definition shell_char (c : ascii) : bool :=
  let n := Js.byte c in
  Nat.ltb n 32 || Nat.eqb n 33 || Nat.eqb n 34 || Nat.eqb n 36
  || Nat.eqb n 92 || Nat.eqb n 96 || Nat.leb 128 n.

Fixpoint percents (s : string) : nat :=
  match s with
  | String c s' => (if Nat.eqb (Js.byte c) 37 then 1 else 0) + percents s'
  | EmptyString => 0
  end.

(** The text of a word after its opening quote, when it runs up to a
    closing quote at the very end and holds no character that a shell acts
    on. *)
Fixpoint quoted_body (s : string) : option string :=
  match s with
  | EmptyString => None
  | String c s' =>
      match s' with
      | EmptyString => if Nat.eqb (Js.byte c) 34 then Some EmptyString else None
      | _ =>
          if shell_char c then None
          else match quoted_body s' with
               | Some body => Some (String c body)
               | None => None
               end
      end
  end.

Definition plain_word (word : string) : option string :=
  match word with
  | String c s =>
      if Nat.eqb (Js.byte c) 34 then
        match quoted_body s with
        | Some body => if Nat.leb (percents body) 1 then Some body else None
        | None => None
        end
      else None
  | EmptyString => None
  end.


(** What the engine receives for a word of the command line. *)
Definition received (e : Env) (word : string) : string :=
  match plain_word word with
  | Some body => body
  | None => shell e word
  end.

(** [`"${cmd}" "${filePath}" ${word}`].  The first two words are paths;
    paths are taken to hold no character that a shell acts on. *)
Definition command_line (cmd filePath word : string) : string :=
  Js.dquote +:+ cmd +:+ Js.dquote +:+ " "
  +:+ Js.dquote +:+ filePath +:+ Js.dquote +:+ " " +:+ word.

(** Where the standard error of the command goes: to the script, through a
    pipe (the default), or to the terminal ([stdio: 'inherit']). *)
Inductive Stdio := Pipe | Inherit.

(** The message of the error that [execSync] throws when the command ends
    with a status other than zero: [Command failed: ] and the command line,
    then, on a line of its own, what the command wrote on its standard
    error, when that went to the script and was not empty. *)
Definition command_failed (stdio : Stdio) (command stderr : string) : string :=
  "Command failed: " +:+ command +:+
  match stdio with
  | Pipe => if String.eqb stderr "" then "" else Js.newline +:+ stderr
  | Inherit => ""
  end.

(** The command is started on the file with the word for the statement: the
    output of the engine comes back, or its failure as an exception.
    ([Fail msg] holds the gist of what the engine writes on its standard
    error.)  At a path that holds no database the command fails; the script
    hands the engine only paths that it has found to exist. *)
Definition spawn (stdio : Stdio) (cmd filePath word : string) : M string :=
  fun w =>
    let failed := command_failed stdio (command_line cmd filePath word) in
    if command_runs w cmd then
      match fs w !! filePath with
      | Some (NDb f) =>
          match exec eng (received (env w) word) f with
          | (Out text, f') => (Ok text, write_db filePath f' w)
          | (Fail msg, f') =>
              (Throw (ExecError (failed msg)), write_db filePath f' w)
          end
      | _ => (Throw (ExecError (failed "unable to open database file")), w)
      end
    else (Throw (ExecError (failed "command not found")), w).

(** [execSync(`"${cmd}" "${filePath}" ${word}`, { stdio })], where [word]
    is how the script writes the statement [sql] on the command line.  The
    command is recorded with the statement as the script built it. *)
Definition execSync (stdio : Stdio) (cmd filePath sql word : string)
  : M string :=
  run log (EvExec cmd filePath sql) in spawn stdio cmd filePath word.

(** [execSync(`"${sqlite3Cmd}" "${filePath}" ${JSON.stringify(sql)}`,
    { encoding: 'utf-8' })] *)
Definition runSqliteQuery (filePath sql sqlite3Cmd : string) : M string :=
  execSync Pipe sqlite3Cmd filePath sql (Js.JSON_stringify sql).

(** [error.message] *)
Definition error_message (e : Error) : string :=
  match e with
  | EngineNotFound =>
      "sqlite3 command not found. Install SQLite: Windows choco install sqlite, macOS brew install sqlite, Linux apt-get install sqlite3"
  | ExecError message => message
  | VacuumError message => message
  | StatError p => "ENOENT: no such file or directory, stat '" +:+ p +:+ "'"
  end.

Definition vacuumDatabase (filePath : string) (sqlite3Cmd : option string)
  : M (Q * Q) :=
  let* cmd := match sqlite3Cmd with
              | Some c => ret c
              | None => getSqlite3Command
              end in
  let* beforeMb := getFileSizeMb filePath in
  run try_catch
        (run execSync Inherit cmd filePath vacuum_sql
               (Js.dquote +:+ "VACUUM;" +:+ Js.dquote) in ret tt)
        (fun error =>
           throw (VacuumError
                    ("Failed to run VACUUM: " +:+ error_message error
                     +:+ Js.newline
                     +:+ "Make sure Cursor/VS Code is closed before running this script."))) in
  let* afterMb := getFileSizeMb filePath in
  ret (beforeMb, afterMb).

Definition pruneDatabase (filePath label : string) (thresholdMb : option Z)
  : M bool :=
  run log (EvPrune filePath label) in
  let* sizeMb := getFileSizeMb filePath in
  if lt_num sizeMb thresholdMb then ret false
  else
    try_catch
      (run vacuumDatabase filePath None in ret true)
      (fun _ => ret false).

(** [analyzeGlobalStateVscdb].  The engine is located and the file size read
    first; either can throw.  The queries that follow (list of tables,
    [PRAGMA table_info], [SUM(LENGTH(..))], the 50 largest values) are
    [SELECT]s and a [PRAGMA] inside one [try]/[catch], written with the
    names that the database gives for its columns; their only use is
    console output.  They are recorded as the one event [EvReport] and are
    not run here: no statement below is about what they print or do. *)
Definition analyzeGlobalStateVscdb (filePath : string) : M unit :=
  let* sqlite3 := getSqlite3Command in
  let* fileMb := getFileSizeMb filePath in
  log (EvReport sqlite3 filePath).

(** Delete rows where key LIKE pattern in the given table, then VACUUM.  If
    [keepLast] is set, only the oldest (by rowid) are deleted so the last
    [keepLast] items remain. *)
Definition deleteKeysAndVacuum (filePath pattern table : string)
    (keepLast : option Z) : M unit :=
  let* sqlite3 := getSqlite3Command in
  let likeLit := likeLiteral pattern in
  let* countOut := runSqliteQuery filePath (count_sql table likeLit) sqlite3 in
  let count := Js.or_zero (Js.parseInt (Js.trim countOut)) in
  if (count =? 0)%Z then ret tt
  else
    let* beforeMb := getFileSizeMb filePath in
    let toDelete :=
      match keepLast with
      | Some k => Z.max 0 (count - k)
      | None => count
      end in
    if (toDelete =? 0)%Z then ret tt
    else
      run match keepLast with
          | Some k =>
              runSqliteQuery filePath (delete_keep_sql table likeLit k) sqlite3
          | None =>
              runSqliteQuery filePath (delete_sql table likeLit) sqlite3
          end in
      run vacuumDatabase filePath (Some sqlite3) in
      let* afterMb := getFileSizeMb filePath in
      ret tt.

(** Run SQLite PRAGMA quick_check and integrity_check; report ok or first
    error. *)
Definition checkIntegrity (filePath label : string) : M bool :=
  let* sqlite3 := getSqlite3Command in
  let* sizeMb := getFileSizeMb filePath in
  try_catch
    (let* quick := runSqliteQuery filePath quick_check_sql sqlite3 in
     let quick := Js.trim quick in
     let ok := String.eqb quick "ok" in
     if negb ok then ret false
     else
       let* integrity := runSqliteQuery filePath integrity_check_sql sqlite3 in
       let integrity := Js.trim integrity in
       let integrityOk := String.eqb integrity "ok" in
       if negb integrityOk then ret false
       else ret true)
    (fun _ => ret false).

Record Category := { cat_table : string; cat_pattern : string; cat_label : string }.

Definition CATEGORIES : list Category :=
  [ {| cat_table := "cursorDiskKV"; cat_pattern := "bubbleId:%";
       cat_label := "bubbleId:% (cursorDiskKV) - chat bubbles" |};
    {| cat_table := "cursorDiskKV"; cat_pattern := "checkpointId:%";
       cat_label := "checkpointId:% (cursorDiskKV) - Composer checkpoints" |};
    {| cat_table := "cursorDiskKV"; cat_pattern := "composerData:%";
       cat_label := "composerData:% (cursorDiskKV) - Composer session metadata" |};
    {| cat_table := "cursorDiskKV"; cat_pattern := "agentKv:blob:%";
       cat_label := "agentKv:blob:% (cursorDiskKV) - agent/blob cache" |};
    {| cat_table := "ItemTable"; cat_pattern := "cursor.composer%";
       cat_label := "cursor.composer% (ItemTable) - small UI state" |} ].

(** Run SELECT COUNT and SUM(LENGTH(value)) for each category.  Read-only. *)
Definition countCategories (filePath : string) : M unit :=
  let* sqlite3 := getSqlite3Command in
  let* sizeMb := getFileSizeMb filePath in
  for_each CATEGORIES (fun c =>
    try_catch
      (let likeLit := likeLiteral (cat_pattern c) in
       let* countOut :=
         runSqliteQuery filePath (count_sql (cat_table c) likeLit) sqlite3 in
       let count := Js.or_zero (Js.parseInt (Js.trim countOut)) in
       let* sumOut :=
         runSqliteQuery filePath (sum_sql (cat_table c) likeLit) sqlite3 in
       let totalBytes := Js.or_zero (Js.parseInt (Js.trim sumOut)) in
       ret tt)
      (fun _ => ret tt)).

Definition main (args : list string) : M unit :=
  let options := parseArgs args in
  if Args.countCategories options then
    let* globalPath := ask getGlobalStatePath in
    match globalPath with
    | None => ret tt
    | Some globalPath => countCategories globalPath
    end
  else if Args.checkIntegrity options then
    if globalOnlyIntegrity options then
      let* globalPath := ask getGlobalStatePath in
      match globalPath with
      | None => ret tt
      | Some globalPath =>
          run checkIntegrity globalPath "Global state.vscdb" in ret tt
      end
    else
      let* all := ask getAllStateVscdbPaths in
      for_each all (fun '(filePath, label) =>
        run checkIntegrity filePath label in ret tt)
  else if analyze options then
    let* globalPath := ask getGlobalStatePath in
    match globalPath with
    | None => ret tt
    | Some globalPath =>
        run analyzeGlobalStateVscdb globalPath in
        match truthy (deleteKeysPattern options) with
        | Some pattern =>
            deleteKeysAndVacuum globalPath pattern
              (deleteTable options) (keepLast options)
        | None => ret tt
        end
    end
  else
    run (if workspace options then
           let* all := ask getAllStateVscdbPaths in
           for_each all (fun '(filePath, label) =>
             let* beforeMb := getFileSizeMb filePath in
             let* pruned := pruneDatabase filePath label (thresholdMb options) in
             if pruned : bool
             then run getFileSizeMb filePath in ret tt
             else ret tt)
         else ret tt) in
    if global options && negb (workspace options) then
      let* globalPath := ask getGlobalStatePath in
      match globalPath with
      | Some globalPath =>
          run pruneDatabase globalPath "Global state.vscdb" (thresholdMb options)
          in ret tt
      | None => ret tt
      end
    else ret tt.

End Operations.

End Script.

(* ===================================================================== *)
(** ** Notions used in the statements *)
(* ===================================================================== *)

Section Notions.
Import Js Sql Script.

(** *** SQL texts *)

(** What a text starts with, as a test on its first character. *)
Definition starts_with (P : ascii -> bool) (s : string) : bool :=
  match s with String c _ => P c | EmptyString => false end.

Definition is_quote (c : ascii) : bool := Ascii.eqb c "'"%char.

Fixpoint all_ident (s : string) : bool :=
  match s with
  | String c s' => is_ident_char c && all_ident s'
  | EmptyString => true
  end.

(** A table name the engine reads as one identifier. *)
Definition is_ident (t : string) : bool :=
  negb (String.eqb t "") && all_ident t.

Definition stmt_tables (st : Stmt) : list string :=
  match st with
  | SCount t _ | SSum t _ | SDelete t _ => [t]
  | SDeleteKeep t _ t' _ _ => [t; t']
  | SQuickCheck | SIntegrityCheck | SVacuum => []
  end.

Definition stmt_literals (st : Stmt) : list string :=
  match st with
  | SCount _ p | SSum _ p | SDelete _ p => [p]
  | SDeleteKeep _ p _ p' _ => [p; p']
  | SQuickCheck | SIntegrityCheck | SVacuum => []
  end.

(** The text [sql] reads as one statement whose tables are all [table]. *)
Definition reads_on_table (table sql : string) : Prop :=
  exists st, parse sql = Some st /\ Forall (eq table) (stmt_tables st).

(** The text [sql] reads as one statement on [table] whose string literals
    are all the pattern, character for character. *)
Definition reads_with_literal (table pattern sql : string) : Prop :=
  exists st, parse sql = Some st
             /\ Forall (eq table) (stmt_tables st)
             /\ Forall (eq pattern) (stmt_literals st).

(** The texts one call of [deleteKeysAndVacuum] can hand to the engine. *)
Definition prune_texts (table pattern : string) (keepLast : option Z)
  : list string :=
  [ Sql.count_sql table (Sql.likeLiteral pattern);
    match keepLast with
    | Some k => Sql.delete_keep_sql table (Sql.likeLiteral pattern) k
    | None => Sql.delete_sql table (Sql.likeLiteral pattern)
    end;
    Sql.vacuum_sql ].

(** The texts [countCategories] can hand to the engine. *)
Definition category_texts : list string :=
  flat_map
    (fun c => [ Sql.count_sql (Script.cat_table c) (Sql.likeLiteral (Script.cat_pattern c));
                Sql.sum_sql (Script.cat_table c) (Sql.likeLiteral (Script.cat_pattern c)) ])
    Script.CATEGORIES.

(** *** Command line *)


(** *** Effects and the record of commands *)

(** [m] takes every world to a world related to it by [R], whether it
    returns or throws. *)
Variant preserves {A} (R : relation World) (m : M A) : Prop :=
  Preserves (H : forall w, R w (m w).2).

(** From [w] to [w'] only events satisfying [P] were recorded. *)
Definition emits_only (P : Event -> Prop) : relation World :=
  fun w w' => exists evs, trace w' = trace w ++ evs /\ Forall P evs.

(** The engine is located, or the script has built a text for it that
    reads as one statement on [table]. *)
Definition event_on_table (table : string) (e : Event) : Prop :=
  match e with
  | EvProbe => True
  | EvExec _ _ sql => reads_on_table table sql
  | EvReport _ _ | EvPrune _ _ => False
  end.

(** The engine is located, or the script has built a text for it that
    reads as one statement on [table] with the pattern as its literals. *)
Definition event_reads_with_literal (table pattern : string) (e : Event) : Prop :=
  match e with
  | EvProbe => True
  | EvExec _ _ sql => reads_with_literal table pattern sql
  | EvReport _ _ | EvPrune _ _ => False
  end.

(** The same for the table and the pattern of one of the categories. *)
Definition event_reads_category (e : Event) : Prop :=
  match e with
  | EvProbe => True
  | EvExec _ _ sql =>
      exists c, In c CATEGORIES
                /\ reads_with_literal (cat_table c) (cat_pattern c) sql
  | EvReport _ _ | EvPrune _ _ => False
  end.

Definition not_probe (e : Event) : Prop := e <> EvProbe.

(** [m] runs the discovery of the engine once, first thing, whatever was
    recorded before. *)
Definition probes_once {A} (m : M A) (w : World) : Prop :=
  exists evs, trace (m w).2 = trace w ++ EvProbe :: evs /\ Forall not_probe evs.

(** The databases [pruneDatabase] was entered for, in order. *)
Definition prune_events (tr : list Event) : list (string * string) :=
  flat_map (fun e => match e with EvPrune fp label => [(fp, label)] | _ => [] end) tr.

Definition not_prune (e : Event) : Prop :=
  match e with EvPrune _ _ => False | _ => True end.

(** From [w] to [w']: the same environment, the same paths exist, and
    [pruneDatabase] was not entered. *)
Definition quiet (w w' : World) : Prop :=
  env w' = env w
  /\ (forall p, existsSync w' p = existsSync w p)
  /\ prune_events (trace w') = prune_events (trace w).

(** *** Runs *)

(** The command [getSqlite3Command] settles on: [sqlite3] when the shell
    finds it, else the first of the known paths that exists. *)
Definition located (w : World) : option string :=
  if sqlite3_on_path (env w) then Some "sqlite3"
  else List.find (existsSync w) (winPaths w).

(** The engine starts with [cmd], and [filePath] holds the database [f]. *)
Definition ready (w : World) (cmd filePath : string) (f : Sql.DbFile) : Prop :=
  command_runs w cmd = true /\ fs w !! filePath = Some (NDb f).

(** What [execSync] makes of the outcome of the command [command]. *)
Definition result_of (stdio : Stdio) (command : string) (o : Sql.outcome)
  : Result string :=
  match o with
  | Sql.Out text => Ok text
  | Sql.Fail msg => Throw (ExecError (command_failed stdio command msg))
  end.

(** The statement [sql], written by [runSqliteQuery] as the word
    [JSON.stringify(sql)], reaches the engine as the script built it. *)
Definition delivered (w : World) (sql : string) : Prop :=
  received (env w) (Js.JSON_stringify sql) = sql.

(** The command line of [runSqliteQuery]. *)
Definition query_line (cmd filePath sql : string) : string :=
  command_line cmd filePath (Js.JSON_stringify sql).


(** The rows of the table once [deleteKeysAndVacuum] is through, following
    its tests on [count] and [toDelete]. *)
Definition pruned_rows (pattern : string) (keepLast : option Z)
    (rows : list Row) : list Row :=
  let count := Z.of_nat (length (matching pattern rows)) in
  if (count =? 0)%Z then rows
  else
    let toDelete :=
      match keepLast with
      | Some k => Z.max 0 (count - k)
      | None => count
      end in
    if (toDelete =? 0)%Z then rows
    else
      match keepLast with
      | Some k => delete_rows_except pattern (last_rowids pattern rows k) rows
      | None => delete_rows pattern rows
      end.

(** What a row holds: its key and its value.  The rowid is the engine's. *)
Definition content (r : Row) : string * string := (key r, value r).



Section WithEngine.

Variable eng : Engine.

(** What follows the discovery of the engine in [deleteKeysAndVacuum]. *)
Definition delete_with (filePath pattern table : string) (keepLast : option Z)
    (sqlite3 : string) : M unit :=
  let likeLit := Sql.likeLiteral pattern in
  let* countOut := runSqliteQuery eng filePath (Sql.count_sql table likeLit) sqlite3 in
  let count := Js.or_zero (Js.parseInt (Js.trim countOut)) in
  if (count =? 0)%Z then ret tt
  else
    let* beforeMb := getFileSizeMb filePath in
    let toDelete :=
      match keepLast with
      | Some k => Z.max 0 (count - k)
      | None => count
      end in
    if (toDelete =? 0)%Z then ret tt
    else
      run match keepLast with
          | Some k =>
              runSqliteQuery eng filePath (Sql.delete_keep_sql table likeLit k) sqlite3
          | None =>
              runSqliteQuery eng filePath (Sql.delete_sql table likeLit) sqlite3
          end in
      run vacuumDatabase eng filePath (Some sqlite3) in
      let* afterMb := getFileSizeMb filePath in
      ret tt.

(** What follows the discovery of the engine in [checkIntegrity]. *)
Definition check_with (filePath : string) (sqlite3 : string) : M bool :=
  let* sizeMb := getFileSizeMb filePath in
  try_catch
    (let* quick := runSqliteQuery eng filePath Sql.quick_check_sql sqlite3 in
     let quick := Js.trim quick in
     let ok := String.eqb quick "ok" in
     if negb ok then ret false
     else
       let* integrity := runSqliteQuery eng filePath Sql.integrity_check_sql sqlite3 in
       let integrity := Js.trim integrity in
       let integrityOk := String.eqb integrity "ok" in
       if negb integrityOk then ret false
       else ret true)
    (fun _ => ret false).

(** What follows the discovery of the engine in [countCategories]. *)
Definition count_with (filePath : string) (sqlite3 : string) : M unit :=
  let* sizeMb := getFileSizeMb filePath in
  for_each CATEGORIES (fun c =>
    try_catch
      (let likeLit := Sql.likeLiteral (cat_pattern c) in
       let* countOut :=
         runSqliteQuery eng filePath (Sql.count_sql (cat_table c) likeLit) sqlite3 in
       let count := Js.or_zero (Js.parseInt (Js.trim countOut)) in
       let* sumOut :=
         runSqliteQuery eng filePath (Sql.sum_sql (cat_table c) likeLit) sqlite3 in
       let totalBytes := Js.or_zero (Js.parseInt (Js.trim sumOut)) in
       ret tt)
      (fun _ => ret tt)).

(** What [PRAGMA quick_check] prints for the file at [filePath], trimmed as
    [checkIntegrity] trims it; [None] when the path holds no database or the
    engine fails on it. *)
Definition quick_verdict (w : World) (filePath : string) : option string :=
  match fs w !! filePath with
  | Some (NDb f) =>
      match (exec eng quick_check_sql f).1 with
      | Out text => Some (Js.trim text)
      | Fail _ => None
      end
  | _ => None
  end.

(** The body of the loop of [main] over the databases to prune. *)
Definition prune_one (thresholdMb : option Z) (entry : string * string) : M unit :=
  let '(filePath, label) := entry in
  let* beforeMb := getFileSizeMb filePath in
  let* pruned := pruneDatabase eng filePath label thresholdMb in
  if pruned : bool
  then run getFileSizeMb filePath in ret tt
  else ret tt.

End WithEngine.

(** *** What a prune may change *)

Section Frame.

Variables filePath table pattern : string.
Variable keepLast : option Z.

(** The rows of a table that do not match the pattern, in their order. *)
Definition untouched (rows : list Row) : list Row :=
  List.filter (fun r => negb (like pattern (key r))) rows.

(** From [f] to [f']: the other tables hold the same keys and values in the
    same order, and so does the table outside the pattern. *)
Definition db_frame (f f' : DbFile) : Prop :=
  (forall t, t <> table ->
     map content <$> (tables f' !! t) = map content <$> (tables f !! t))
  /\ (fun rows => map content (untouched rows)) <$> (tables f' !! table)
     = (fun rows => map content (untouched rows)) <$> (tables f !! table).

Definition node_frame (o o' : option Node) : Prop :=
  match o, o' with
  | Some (NDb f), Some (NDb f') => db_frame f f'
  | _, _ => o' = o
  end.

(** From [w] to [w']: every other path holds what it held, and a database
    at [filePath] is changed within [db_frame] only. *)
Definition frame (w w' : World) : Prop :=
  (forall p, p <> filePath -> fs w' !! p = fs w !! p)
  /\ node_frame (fs w !! filePath) (fs w' !! filePath).


(** [frame] from a world with the environment [e], which stays. *)
Definition frame_in (e : Env) (w w' : World) : Prop :=
  env w = e -> env w' = e /\ frame w w'.

End Frame.

End Notions.

(* ===================================================================== *)
(** ** A sample installation *)
(* ===================================================================== *)

Module Demo.
Import Script Sql.

Definition bubble (n : Z) : Row :=
  {| rowid := n; key := "bubbleId:" +:+ Js.show_int n; value := "{}" |}.

Definition disk_rows : list Row :=
  [ bubble 1; bubble 2; bubble 3; bubble 4; bubble 5;
    {| rowid := 11; key := "composerData:a"; value := "{}" |};
    bubble 6; bubble 7; bubble 8; bubble 9; bubble 10 ].

Definition item_rows : list Row :=
  [ {| rowid := 1; key := "cursor.composer.panel"; value := "1" |};
    {| rowid := 2; key := "workbench.view"; value := "2" |} ].

Definition global_db : DbFile :=
  {| size := 838860800; locked := false; exclusive := false;
     tables := <["ItemTable" := item_rows]> (<["cursorDiskKV" := disk_rows]> ∅) |}.

Definition project_db : DbFile :=
  {| size := 1048576; locked := false; exclusive := false;
     tables := <["ItemTable" := item_rows]> ∅ |}.

Definition global_path : string :=
  "/home/dev/.config/Cursor/User/globalStorage/state.vscdb".

Definition project_path : string := "/work/app/.vscode/state.vscdb".

(** What [sh] makes of a double-quoted word, on a machine where no
    variable is set and [printf] is installed.  Inside double quotes a
    backslash escapes a dollar sign, a backquote, a double quote or a
    backslash, joins lines before a line feed, and is an ordinary character
    anywhere else; [$name] stands for the value of a variable, which is
    empty here; [$(command)] stands for what the command prints.  (The
    other expansions, by backquotes, braces and the special parameters, do
    not occur in the words tried here.) *)
Inductive Reading :=
  | Text                    (* between the quotes *)
  | Escape                  (* after a backslash *)
  | Dollar                  (* after a dollar sign *)
  | Name                    (* in the name of a variable *)
  | Command (text : string) (* in [$(], with the text of the command so far *)
  | After.                  (* after the closing quote *)

Definition is_name_start (c : ascii) : bool :=
  let n := Js.byte c in
  (Nat.leb 65 n && Nat.leb n 90) || (Nat.leb 97 n && Nat.leb n 122)
  || Nat.eqb n 95.

Definition is_name_char (c : ascii) : bool :=
  is_name_start c || (Nat.leb 48 (Js.byte c) && Nat.leb (Js.byte c) 57).

(** What a command prints.  The one command known here is [printf] with
    the argument [\047], which prints the character with octal code 047, a
    single quote; in the text of the command the backslash is written
    twice, and the shell reads the two as one. *)
Definition printed (command : string) : string :=
  if String.eqb command ("printf " +:+ Js.backslash +:+ Js.backslash +:+ "047")
  then "'" else "".

Definition read_text (c : ascii) : Reading * string :=
  let n := Js.byte c in
  if Nat.eqb n 34 then (After, "")
  else if Nat.eqb n 92 then (Escape, "")
  else if Nat.eqb n 36 then (Dollar, "")
  else (Text, String c "").

Definition read_char (st : Reading) (c : ascii) : Reading * string :=
  let n := Js.byte c in
  match st with
  | Text => read_text c
  | Escape =>
      if Nat.eqb n 36 || Nat.eqb n 96 || Nat.eqb n 34 || Nat.eqb n 92
      then (Text, String c "")
      else if Nat.eqb n 10 then (Text, "")
      else (Text, Js.backslash +:+ String c "")
  | Dollar =>
      if is_name_start c then (Name, "")
      else if Nat.eqb n 40 then (Command "", "")
      else let '(st', out) := read_text c in (st', "$" +:+ out)
  | Name => if is_name_char c then (Name, "") else read_text c
  | Command text =>
      if Nat.eqb n 41 then (Text, printed text)
      else (Command (text +:+ String c ""), "")
  | After => (After, "")
  end.

Fixpoint read_word (st : Reading) (s : string) : string :=
  match s with
  | String c s' => let '(st', out) := read_char st c in out +:+ read_word st' s'
  | EmptyString =>
      match st with
      | Escape => Js.backslash
      | Dollar => "$"
      | _ => ""
      end
  end.

Definition sh (word : string) : string :=
  match word with
  | String c s => if Nat.eqb (Js.byte c) 34 then read_word Text s else word
  | EmptyString => ""
  end.

(** [path.join] on segments that need no normalisation: the segments that
    are not empty, with the separator between them. *)
Definition join_with (sep : string) (parts : list string) : string :=
  String.concat sep (List.filter (fun p => negb (String.eqb p "")) parts).

(** A Linux machine with [sqlite3] installed, a project database and the
    global database. *)
Definition world : World :=
  {| env := {| APPDATA := None; LOCALAPPDATA := None;
               homedir := "/home/dev"; cwd := "/work/app";
               path_join := join_with "/";
               sqlite3_on_path := true; shell := sh |};
     fs := <[global_path := NDb global_db]> (<[project_path := NDb project_db]> ∅);
     trace := [] |}.

(** An engine that finds every file sound, and on [VACUUM] halves the file
    and numbers the rows of each table from 1 in the order of their
    rowids. *)
Definition engine : Engine :=
  {| quick_check := fun _ => Out "ok
";
     integrity_check := fun _ => Out "ok
";
     size_after := fun st f =>
       match st with SVacuum => (size f / 2)%N | _ => size f end;
     vacuum_rowid := fun f t i =>
       match tables f !! t with
       | Some rows =>
           Z.of_nat (length (List.filter (fun r => (rowid r <=? i)%Z) rows))
       | None => i
       end;
     other := fun _ f => (Fail "near: syntax error", f) |}.

(** An engine whose [VACUUM] leaves the file one page larger. *)
Definition growing_engine : Engine :=
  {| quick_check := quick_check engine;
     integrity_check := integrity_check engine;
     size_after := fun st f =>
       match st with SVacuum => (size f + 4096)%N | _ => size f end;
     vacuum_rowid := vacuum_rowid engine;
     other := other engine |}.

(** An engine whose quick check finds a damaged page. *)
Definition alarmed_engine : Engine :=
  {| quick_check := fun _ => Out "*** in database main ***
Page 7 is never used
";
     integrity_check := integrity_check engine;
     size_after := size_after engine;
     vacuum_rowid := vacuum_rowid engine;
     other := other engine |}.

Definition is_probe (e : Event) : bool :=
  match e with EvProbe => true | _ => false end.

End Demo.

(* ===================================================================== *)
(** ** Notions for the rest of the script *)
(* ===================================================================== *)

Section FurtherNotions.
Import Js Sql Script.

(** *** The command line *)

(** The ten flags that [parseArgs] compares its arguments with. *)
Definition FLAGS : list string :=
  [ "--workspace"; "--global"; "--analyze"; "--check-integrity";
    "--global-only"; "--count-categories"; "--threshold"; "--table";
    "--delete-keys"; "--keep-last" ].

(** *** The search for databases, step by step *)

(** The directories [getAllStateVscdbPaths] reads for workspaces
    ([wsDirs]). *)
Definition wsDirs (w : World) : list string :=
  let home := homedir (env w) in
  match truthy (APPDATA (env w)) with
  | Some appData =>
      [ workspaceStorage w [appData] "Cursor";
        workspaceStorage w [appData] "Code" ]
  | None =>
      [ workspaceStorage w [home; "AppData"; "Roaming"] "Cursor";
        workspaceStorage w [home; "AppData"; "Roaming"] "Code";
        workspaceStorage w [home; ".config"] "Cursor";
        workspaceStorage w [home; ".config"] "Code";
        workspaceStorage w [home; "Library"; "Application Support"] "Cursor";
        workspaceStorage w [home; "Library"; "Application Support"] "Code" ]
  end.

(** The three parts of [getAllStateVscdbPaths], on the pair of [seen] and
    [out]. *)
Definition add_project (w : World) (acc : gset string * list (string * string))
  : gset string * list (string * string) :=
  match getWorkspaceStatePath w with
  | Some workspacePath => add w workspacePath "Workspace (project) state.vscdb" acc
  | None => acc
  end.

Definition scan_workspaces (w : World) (acc : gset string * list (string * string))
  : gset string * list (string * string) :=
  fold_left (fun acc wsDir => add_workspace_dir w wsDir acc) (wsDirs w) acc.

Definition add_global (w : World) (acc : gset string * list (string * string))
  : gset string * list (string * string) :=
  match getGlobalStatePath w with
  | Some globalPath => add w globalPath "Global state.vscdb" acc
  | None => acc
  end.

(** The candidates of the search, in the order in which they are tried,
    each with its label: the project database, the databases of the
    workspaces, the global database. *)
Definition workspace_candidates (w : World) (wsDir : string)
  : list (string * string) :=
  if negb (existsSync w wsDir) then [] else
  match readdirSync w wsDir with
  | Some entries =>
      map (fun id => (join w [wsDir; fst id; "state.vscdb"],
                      "WorkspaceStorage/" +:+ fst id +:+ " state.vscdb"))
          (List.filter snd entries)
  | None => []
  end.

Definition candidates (w : World) : list (string * string) :=
  match getWorkspaceStatePath w with
  | Some workspacePath => [(workspacePath, "Workspace (project) state.vscdb")]
  | None => []
  end
  ++ flat_map (workspace_candidates w) (wsDirs w)
  ++ match getGlobalStatePath w with
     | Some globalPath => [(globalPath, "Global state.vscdb")]
     | None => []
     end.

(** The entries of a list whose path exists, each path at its first
    occurrence only; [seen] holds the paths that came before. *)
Fixpoint first_found (w : World) (seen : gset string)
    (l : list (string * string)) : list (string * string) :=
  match l with
  | [] => []
  | (filePath, label) :: l' =>
      if negb (existsSync w filePath) || bool_decide (filePath ∈ seen)
      then first_found w seen l'
      else (filePath, label) :: first_found w ({[filePath]} ∪ seen) l'
  end.

(** [add] for each entry of a list, in order. *)
Definition add_all (w : World) (l : list (string * string))
    (acc : gset string * list (string * string))
  : gset string * list (string * string) :=
  fold_left (fun acc c => add w (fst c) (snd c) acc) l acc.

(** The paths of [out]. *)
Definition listed (acc : gset string * list (string * string)) : list string :=
  map fst acc.2.

(** [seen] holds the paths of [out], each of them once. *)
Definition seen_listed (acc : gset string * list (string * string)) : Prop :=
  NoDup (listed acc) /\ forall p, p ∈ acc.1 <-> In p (listed acc).

(** *** The four kinds of run *)

Section KindsOfRun.

Variable eng : Engine.

(** [--count-categories] *)
Definition count_run : M unit :=
  let* globalPath := ask getGlobalStatePath in
  match globalPath with
  | None => ret tt
  | Some globalPath => countCategories eng globalPath
  end.

(** [--check-integrity], with [--global-only] or without *)
Definition check_run (globalOnly : bool) : M unit :=
  if globalOnly then
    let* globalPath := ask getGlobalStatePath in
    match globalPath with
    | None => ret tt
    | Some globalPath =>
        run checkIntegrity eng globalPath "Global state.vscdb" in ret tt
    end
  else
    let* all := ask getAllStateVscdbPaths in
    for_each all (fun '(filePath, label) =>
      run checkIntegrity eng filePath label in ret tt).

(** [--analyze], with [--delete-keys] or without *)
Definition analyze_run (options : Args.PruneOptions) : M unit :=
  let* globalPath := ask getGlobalStatePath in
  match globalPath with
  | None => ret tt
  | Some globalPath =>
      run analyzeGlobalStateVscdb globalPath in
      match truthy (Args.deleteKeysPattern options) with
      | Some pattern =>
          deleteKeysAndVacuum eng globalPath pattern
            (Args.deleteTable options) (Args.keepLast options)
      | None => ret tt
      end
  end.

(** None of the three: the databases are vacuumed. *)
Definition vacuum_run (options : Args.PruneOptions) : M unit :=
  run (if Args.workspace options then
         let* all := ask getAllStateVscdbPaths in
         for_each all (fun '(filePath, label) =>
           let* beforeMb := getFileSizeMb filePath in
           let* pruned := pruneDatabase eng filePath label (Args.thresholdMb options) in
           if pruned : bool
           then run getFileSizeMb filePath in ret tt
           else ret tt)
       else ret tt) in
  if Args.global options && negb (Args.workspace options) then
    let* globalPath := ask getGlobalStatePath in
    match globalPath with
    | Some globalPath =>
        run pruneDatabase eng globalPath "Global state.vscdb" (Args.thresholdMb options)
        in ret tt
    | None => ret tt
    end
  else ret tt.

End KindsOfRun.

(** *** What a run writes *)


(** From [w] to [w']: the same environment and the same files. *)
Definition unchanged (w w' : World) : Prop :=
  env w' = env w /\ fs w' = fs w.


(** From [f] to [f']: every table holds the same keys and values in the
    same order, no table has come or gone, and the lock is as it was. *)
Definition same_rows (f f' : DbFile) : Prop :=
  locked f' = locked f
  /\ forall t, map content <$> (tables f' !! t) = map content <$> (tables f !! t).

Definition same_node (o o' : option Node) : Prop :=
  match o, o' with
  | Some (NDb f), Some (NDb f') => same_rows f f'
  | _, _ => o' = o
  end.

(** From [w] to [w']: the same environment, and every database holds the
    same rows; what is no database is as it was. *)
Definition same_data (w w' : World) : Prop :=
  env w' = env w /\ forall p, same_node (fs w !! p) (fs w' !! p).


(** *** Verdicts and thresholds *)


(** The message of the error that [vacuumDatabase] throws when its command
    fails. *)
Definition vacuum_failure (cmd filePath : string) : string :=
  "Failed to run VACUUM: " +:+ "Command failed: "
  +:+ command_line cmd filePath (Js.dquote +:+ "VACUUM;" +:+ Js.dquote)
  +:+ Js.newline
  +:+ "Make sure Cursor/VS Code is closed before running this script.".

(** No command was handed to a shell but the search for the engine. *)
Definition no_command (e : Event) : Prop :=
  match e with
  | EvProbe | EvPrune _ _ => True
  | EvExec _ _ _ | EvReport _ _ => False
  end.

(** The file is smaller than [thresholdMb] megabytes; never so when the
    threshold is [NaN]. *)
Definition below_threshold (f : DbFile) (thresholdMb : option Z) : bool :=
  match thresholdMb with
  | Some t => (Z.of_N (size f) <? t * 1048576)%Z
  | None => false
  end.



(** What a run records when it vacuums each of the databases [all]: the
    entry into [pruneDatabase], the search for the engine, and the
    [VACUUM;]. *)
Definition vacuum_commands (cmd : string) (all : list (string * string))
  : list Event :=
  flat_map
    (fun entry => [ EvPrune entry.1 entry.2; EvProbe;
                    EvExec cmd entry.1 vacuum_sql ])
    all.

End FurtherNotions.

(* ===================================================================== *)
(** ** The menu, [clear-cursor-cache.ps1] *)
(* ===================================================================== *)

Module Menu.
Import Script.

(** [Invoke-PruneStateVscdb]: the argument list built from the two
    switches, *)
Definition argList (Workspace Global : bool) : list string :=
  (if Workspace then ["--workspace"] else [])
  ++ (if Global then ["--global"] else [])
  ++ ["--threshold"; "0"].

(** and the run of the script on it
    ([npx tsx prune-state-vscdb.ts @argList]). *)
Definition Invoke_PruneStateVscdb (eng : Sql.Engine) (Workspace Global : bool)
  : M unit :=
  main eng (argList Workspace Global).

(** Choice 5, the delete.  The table and the pattern of a sub-option: *)
Definition sub_table (sub : string) : string :=
  if String.eqb sub "5" then "ItemTable" else "cursorDiskKV".

Definition sub_pattern (sub : string) : option string :=
  if String.eqb sub "1" then Some "bubbleId:%"
  else if String.eqb sub "2" then Some "checkpointId:%"
  else if String.eqb sub "3" then Some "composerData:%"
  else if String.eqb sub "4" then Some "agentKv:blob:%"
  else if String.eqb sub "5" then Some "cursor.composer%"
  else None.

(** [$keepLast], from the answer to [A/K] and from what [TryParse] made of
    the number typed ([None]: no integer). *)
Definition keepLast_choice (keep : bool) (parsed : option Z) : option Z :=
  if keep then
    match parsed with
    | Some n => if (0 <? n)%Z then Some n else None
    | None => None
    end
  else None.

(** The argument list of the delete. *)
Definition delete_argList (table pattern : string) (keepLast : option Z)
  : list string :=
  [ "--analyze"; "--table"; table; "--delete-keys"; pattern ]
  ++ match keepLast with
     | Some n => [ "--keep-last"; Js.show_int n ]
     | None => []
     end.

End Menu.

(* ===================================================================== *)
(** ** Further sample installations *)
(* ===================================================================== *)

Module Cases.
Import Script Sql.

(** The sample machine without [sqlite3]. *)
Definition bare_world : World :=
  {| env := {| APPDATA := None; LOCALAPPDATA := None;
               homedir := "/home/dev"; cwd := "/work/app";
               path_join := Demo.join_with "/";
               sqlite3_on_path := false; shell := Demo.sh |};
     fs := fs Demo.world;
     trace := [] |}.

(** The sample machine while another process holds the global database. *)
Definition held_db : DbFile :=
  {| size := size Demo.global_db; locked := true; exclusive := true;
     tables := tables Demo.global_db |}.

Definition held_world : World :=
  {| env := env Demo.world;
     fs := <[Demo.global_path := NDb held_db]> (fs Demo.world);
     trace := [] |}.

(** The sample machine while another process reads the global database:
    a lock that lets other readers in. *)
Definition read_db : DbFile :=
  {| size := size Demo.global_db; locked := true; exclusive := false;
     tables := tables Demo.global_db |}.

Definition read_world : World :=
  {| env := env Demo.world;
     fs := <[Demo.global_path := NDb read_db]> (fs Demo.world);
     trace := [] |}.

(** The sample machine with keys that hold a dollar sign. *)
Definition dollar_rows : list Row :=
  [ {| rowid := 1; key := "a$x1"; value := "{}" |};
    {| rowid := 2; key := "a$x2"; value := "{}" |};
    {| rowid := 3; key := "a$x"; value := "{}" |};
    {| rowid := 4; key := "a9"; value := "{}" |} ].

Definition dollar_db : DbFile :=
  {| size := 1048576; locked := false; exclusive := false;
     tables := <["cursorDiskKV" := dollar_rows]> ∅ |}.

Definition dollar_world : World :=
  {| env := env Demo.world;
     fs := <[Demo.global_path := NDb dollar_db]> (fs Demo.world);
     trace := [] |}.

(** A pattern with a command for the shell in it:
    [zzz$(printf \047) OR 1=1 --]. *)
Definition command_pattern : string :=
  "zzz$(printf " +:+ Js.backslash +:+ "047) OR 1=1 --".

(** A Windows machine: the engine at one of the known installation paths,
    a project database under [.cursor], two workspaces under
    [workspaceStorage], one of them with a database, and the global
    database. *)
Definition backslash : string := Js.backslash.

(** What reaches a program on Windows for a double-quoted word, with no
    variable set: [cmd.exe] hands the word on as it is, and the C runtime of
    the program takes the quotes away; before a double quote, two
    backslashes are read as one, and a backslash that is left over makes the
    quote an ordinary character. *)
Fixpoint cmd_word (pending : nat) (s : string) : string :=
  let backslashes (n : nat) := String.concat "" (repeat Js.backslash n) in
  match s with
  | String c s' =>
      let n := Js.byte c in
      if Nat.eqb n 92 then cmd_word (S pending) s'
      else if Nat.eqb n 34
           then backslashes (pending / 2)
                +:+ (if Nat.odd pending then Js.dquote else "")
                +:+ cmd_word 0 s'
           else backslashes pending +:+ String c (cmd_word 0 s')
  | EmptyString => backslashes pending
  end.

Definition roaming : string := "C:\Users\dev\AppData\Roaming".

Definition storage : string :=
  "C:\Users\dev\AppData\Roaming\Cursor\User\workspaceStorage".

Definition engine_path : string := "C:\Program Files\SQLite\sqlite3.exe".

Definition windows_project_path : string := "C:\work\app\.cursor\state.vscdb".

Definition windows_workspace_path : string :=
  "C:\Users\dev\AppData\Roaming\Cursor\User\workspaceStorage\1a2b\state.vscdb".

Definition windows_global_path : string :=
  "C:\Users\dev\AppData\Roaming\Cursor\User\globalStorage\state.vscdb".

Definition storage_entries : list (string * bool) :=
  [ ("1a2b", true); ("3c4d", true); ("workspaces.json", false) ].

Definition windows_world : World :=
  {| env := {| APPDATA := Some roaming;
               LOCALAPPDATA := Some "C:\Users\dev\AppData\Local";
               homedir := "C:\Users\dev"; cwd := "C:\work\app";
               path_join := Demo.join_with backslash;
               sqlite3_on_path := false;
               shell := cmd_word 0 |};
     fs := <[windows_project_path := NDb Demo.project_db]>
             (<[storage := NDir 4096 true storage_entries]>
                (<[windows_workspace_path := NDb Demo.project_db]>
                   (<[windows_global_path := NDb Demo.global_db]>
                      (<[engine_path := NProgram 1500000]> ∅))));
     trace := [] |}.

End Cases.

(* ===================================================================== *)
(** * Properties *)
(* ===================================================================== *)

(** ** Strings, numbers and their texts *)

(** stdpp keeps [String.append] folded; the texts here are computed. *)
#[local] Arguments String.append !_ _ / : simpl nomatch.
#[local] Arguments Sql.is_ident_char : simpl never.
#[local] Arguments Js.is_digit : simpl never.
#[local] Arguments Ascii.eqb : simpl never.
#[local] Arguments Sql.likeLiteral : simpl never.
#[local] Arguments Js.show_int : simpl never.

Section TextFacts.
Import Js.

Lemma append_assoc (a b c : string) : (a +:+ b) +:+ c = a +:+ (b +:+ c).
Proof. induction a as [|x a IH]; simpl; [reflexivity | now rewrite IH]. Qed.

Lemma append_nil_r (a : string) : a +:+ "" = a.
Proof. induction a as [|x a IH]; simpl; [reflexivity | now rewrite IH]. Qed.

Lemma digit_cons_string_of_uint (u : Decimal.uint) :
  match NilEmpty.string_of_uint u with
  | String c s => exists d u',
      digit_cons c = Some d /\ u = d u' /\ s = NilEmpty.string_of_uint u'
  | EmptyString => u = Decimal.Nil
  end.
Proof. destruct u; simpl; eauto 6. Qed.

(** Reading back printed digits, up to the first character that is not a
    digit. *)
Lemma read_digits_string_of_uint (u : Decimal.uint) (rest : string) :
  starts_with is_digit rest = false ->
  read_digits (NilEmpty.string_of_uint u +:+ rest) = (u, rest).
Proof.
  intros Hrest. induction u; simpl; try (rewrite IHu; reflexivity).
  destruct rest as [|c rest]; [reflexivity|].
  simpl in *. unfold is_digit in Hrest.
  destruct (digit_cons c); [discriminate | reflexivity].
Qed.

Lemma trimStart_keeps (c : ascii) (s : string) :
  ws_lead c = false -> trimStart (String c s) = String c s.
Proof.
  unfold ws_lead. intros H.
  apply orb_false_elim in H as [H H239]. apply orb_false_elim in H as [H H227].
  apply orb_false_elim in H as [H H226]. apply orb_false_elim in H as [H H225].
  apply orb_false_elim in H as [Hws H194].
  cbn [trimStart]. rewrite Hws.
  destruct s as [|c2 s2]; [reflexivity|].
  unfold is_ws2. rewrite H194. cbn [andb].
  destruct s2 as [|c3 s3]; [reflexivity|].
  unfold is_ws3. rewrite H225, H226, H227, H239. reflexivity.
Qed.


Lemma trimStart_digits (u : Decimal.uint) (rest : string) :
  u <> Decimal.Nil ->
  trimStart (NilEmpty.string_of_uint u +:+ rest)
  = NilEmpty.string_of_uint u +:+ rest.
Proof.
  destruct u; [contradiction | ..]; intros _;
    cbn [NilEmpty.string_of_uint String.append];
    now apply trimStart_keeps.
Qed.


Lemma to_int_of_nat (n : nat) : Z.to_int (Z.of_nat n) = Decimal.Pos (N.to_uint (N.of_nat n)).
Proof. destruct n; reflexivity. Qed.

Lemma show_int_of_nat (n : nat) :
  show_int (Z.of_nat n) = NilEmpty.string_of_uint (N.to_uint (N.of_nat n)).
Proof. unfold show_int. now rewrite to_int_of_nat. Qed.

Lemma N_to_uint_not_nil (n : N) : N.to_uint n <> Decimal.Nil.
Proof.
  destruct n as [|p]; simpl; [discriminate|].
  intros H. pose proof (DecimalPos.Unsigned.to_uint_nonnil p) as Hp. contradiction.
Qed.


End TextFacts.

(** ** Reading the script's SQL texts back *)

Section ReadingFacts.
Import Js Sql.

Lemma allowed_is_ident (t : string) :
  In t Args.ALLOWED_TABLES -> is_ident t = true.
Proof. intros [<-|[<-|[]]]; reflexivity. Qed.

Lemma strip_prefix_app (pre s : string) : strip_prefix pre (pre +:+ s) = Some s.
Proof.
  induction pre as [|c pre IH]; simpl; [reflexivity|].
  now rewrite Ascii.eqb_refl.
Qed.

Lemma read_ident_app (t rest : string) :
  all_ident t = true ->
  starts_with is_ident_char rest = false ->
  read_ident (t +:+ rest) = (t, rest).
Proof.
  intros Ht Hrest. induction t as [|c t IH]; simpl in *.
  - destruct rest as [|c rest]; [reflexivity|]. simpl in *. now rewrite Hrest.
  - apply andb_prop in Ht as [Hc Ht]. now rewrite Hc, IH.
Qed.

(** The literal built by the script reads back as the pattern itself, and
    the reader stops right after the closing quote. *)
Lemma read_literal_body_escape (p rest : string) :
  starts_with is_quote rest = false ->
  read_literal_body (escape_quotes p +:+ String "'" rest) = Some (p, rest).
Proof.
  intros Hrest. induction p as [|c p IH]; simpl.
  - destruct rest as [|c rest]; [reflexivity|].
    simpl in Hrest. unfold is_quote in Hrest. now rewrite Hrest.
  - destruct (Ascii.eqb c "'") eqn:Hc; simpl.
    + apply Ascii.eqb_eq in Hc as ->. now rewrite IH.
    + now rewrite Hc, IH.
Qed.

Lemma read_literal_likeLiteral (p rest : string) :
  starts_with is_quote rest = false ->
  read_literal (likeLiteral p +:+ rest) = Some (p, rest).
Proof.
  intros Hrest. unfold likeLiteral. rewrite !append_assoc. simpl.
  now apply read_literal_body_escape.
Qed.

Lemma read_int_show_int (k : Z) (rest : string) :
  starts_with is_digit rest = false ->
  read_int (show_int k +:+ rest) = Some (k, rest).
Proof.
  intros Hrest. unfold show_int.
  pose proof (DecimalZ.of_to k) as Hk.
  destruct (Z.to_int k) as [u|u] eqn:Hu; simpl in Hk |- *.
  - assert (Hnil : u <> Decimal.Nil).
    { destruct k; simpl in Hu; inversion Hu; subst; try discriminate;
        apply DecimalPos.Unsigned.to_uint_nonnil. }
    pose proof (read_digits_string_of_uint u rest Hrest) as Hrd.
    unfold read_int, read_digits_nonempty.
    destruct u; try contradiction; simpl NilEmpty.string_of_uint in *;
      simpl String.append in *; cbv iota beta; rewrite Hrd; simpl; now rewrite Hk.
  - assert (Hnil : u <> Decimal.Nil).
    { destruct k; simpl in Hu; inversion Hu; subst;
        apply DecimalPos.Unsigned.to_uint_nonnil. }
    pose proof (read_digits_string_of_uint u rest Hrest) as Hrd.
    unfold read_int, read_digits_nonempty. rewrite Hrd.
    destruct u; try contradiction; simpl; now rewrite Hk.
Qed.

Lemma parse_where_text (t p rest : string) :
  is_ident t = true ->
  starts_with is_quote rest = false ->
  parse_where (t +:+ " WHERE key LIKE " +:+ likeLiteral p +:+ rest)
  = Some (t, p, rest).
Proof.
  intros Ht Hrest. unfold is_ident in Ht. apply andb_prop in Ht as [Hne Ht].
  unfold parse_where. rewrite read_ident_app by (assumption || reflexivity).
  rewrite (negb_true_iff _) in Hne. rewrite Hne.
  rewrite strip_prefix_app. cbn [mbind option_bind].
  now rewrite read_literal_likeLiteral.
Qed.

Lemma parse_count_sql (t p : string) :
  is_ident t = true ->
  parse (count_sql t (likeLiteral p)) = Some (SCount t p).
Proof.
  intros Ht. unfold parse, parse_count, count_sql. simpl String.eqb.
  rewrite strip_prefix_app. cbn [mbind option_bind].
  now rewrite parse_where_text.
Qed.

Lemma parse_sum_sql (t p : string) :
  is_ident t = true ->
  parse (sum_sql t (likeLiteral p)) = Some (SSum t p).
Proof.
  intros Ht. unfold parse, sum_sql. simpl String.eqb.
  assert (Hc : forall s, parse_count
     ("SELECT COALESCE(SUM(LENGTH(value)), 0) FROM " +:+ s) = None) by reflexivity.
  rewrite Hc. unfold parse_sum. rewrite strip_prefix_app. cbn [mbind option_bind].
  now rewrite parse_where_text.
Qed.

Lemma parse_not_select (s : string) :
  parse ("DELETE FROM " +:+ s) = parse_delete ("DELETE FROM " +:+ s).
Proof. reflexivity. Qed.

Lemma parse_delete_sql (t p : string) :
  is_ident t = true ->
  parse (delete_sql t (likeLiteral p)) = Some (SDelete t p).
Proof.
  intros Ht. unfold delete_sql. rewrite parse_not_select.
  unfold parse_delete. rewrite strip_prefix_app. cbn [mbind option_bind].
  now rewrite parse_where_text.
Qed.

Lemma parse_delete_keep_sql (t p : string) (k : Z) :
  is_ident t = true ->
  parse (delete_keep_sql t (likeLiteral p) k) = Some (SDeleteKeep t p t p k).
Proof.
  intros Ht. unfold delete_keep_sql. rewrite parse_not_select.
  unfold parse_delete. rewrite strip_prefix_app. cbn [mbind option_bind].
  rewrite parse_where_text by (assumption || reflexivity). cbn [mbind option_bind].
  rewrite strip_prefix_app.
  rewrite parse_where_text by (assumption || reflexivity). cbn [mbind option_bind].
  rewrite strip_prefix_app. cbn [mbind option_bind].
  now rewrite read_int_show_int.
Qed.

End ReadingFacts.

(** ** Reasoning about the effects of the script *)

Section Effects.
Import Script.

Lemma preserves_at {A} (R : relation World) (m : M A) (w : World) :
  preserves R m -> R w (m w).2.
Proof. intros [H]. apply H. Qed.

Context (R : relation World) `{!PreOrder R}.

Lemma preserves_pure {A} (m : M A) :
  (forall w, (m w).2 = w) -> preserves R m.
Proof. intros H. constructor. intros w. rewrite H. reflexivity. Qed.

Lemma preserves_ret {A} (a : A) : preserves R (ret a).
Proof. now apply preserves_pure. Qed.

Lemma preserves_throw {A} (e : Error) : preserves R (@throw A e).
Proof. now apply preserves_pure. Qed.

Lemma preserves_ask {A} (f : World -> A) : preserves R (ask f).
Proof. now apply preserves_pure. Qed.

Lemma preserves_getFileSizeMb (filePath : string) :
  preserves R (getFileSizeMb filePath).
Proof.
  apply preserves_pure. intros w. unfold getFileSizeMb.
  now destruct (fs w !! filePath).
Qed.

Lemma preserves_bind {A B} (m : M A) (k : A -> M B) :
  preserves R m -> (forall a, preserves R (k a)) -> preserves R (bind m k).
Proof.
  intros [Hm] Hk. constructor. intros w. unfold bind. specialize (Hm w).
  destruct (m w) as [[a|e] w1]; simpl in *; [|assumption].
  etransitivity; [eassumption | now apply preserves_at].
Qed.

Lemma preserves_try_catch {A} (m : M A) (h : Error -> M A) :
  preserves R m -> (forall e, preserves R (h e)) -> preserves R (try_catch m h).
Proof.
  intros [Hm] Hh. constructor. intros w. unfold try_catch. specialize (Hm w).
  destruct (m w) as [[a|e] w1]; simpl in *; [assumption|].
  etransitivity; [eassumption | now apply preserves_at].
Qed.

Lemma preserves_for_each {A} (xs : list A) (body : A -> M unit) :
  (forall x, In x xs -> preserves R (body x)) -> preserves R (for_each xs body).
Proof.
  induction xs as [|x xs IH]; intros Hb; simpl.
  - apply preserves_ret.
  - apply preserves_bind; [apply Hb; now left | intros _].
    apply IH. intros y Hy. apply Hb. now right.
Qed.

End Effects.

(** One step of decomposition of a [preserves] goal along the script. *)
Ltac preserves_step R :=
  first
    [ apply (preserves_ret R) | apply (preserves_throw R) | apply (preserves_ask R)
    | apply (preserves_getFileSizeMb R)
    | apply (preserves_bind R); [|intros ?]
    | apply (preserves_try_catch R); [|intros ?]
    | assumption ].

(** A relation kept by recording the events [ok] and by running the engine
    on the commands [ok] is kept by the operations that only record and run
    such events. *)
Section OperationsPreserve.
Import Script.

Context (R : relation World) `{!PreOrder R}.
Variable eng : Sql.Engine.
Variable ok : Event -> Prop.
Hypothesis R_log : forall e, ok e -> preserves R (log e).
Hypothesis R_spawn :
  forall stdio cmd filePath sql,
    ok (EvExec cmd filePath sql) ->
    preserves R (spawn eng stdio cmd filePath (Js.JSON_stringify sql)).

Lemma preserves_getSqlite3Command :
  ok EvProbe -> preserves R getSqlite3Command.
Proof.
  intros Hp. unfold getSqlite3Command.
  apply (preserves_bind R); [now apply R_log | intros _].
  apply (preserves_pure R). intros w.
  destruct (sqlite3_on_path (env w)); [reflexivity|].
  now destruct (find (existsSync w) (winPaths w)).
Qed.

Lemma preserves_execSync (stdio : Stdio) (cmd filePath sql : string) :
  ok (EvExec cmd filePath sql) ->
  preserves R (execSync eng stdio cmd filePath sql (Js.JSON_stringify sql)).
Proof.
  intros H. unfold execSync.
  apply (preserves_bind R); [now apply R_log | intros _; now apply R_spawn].
Qed.

Lemma preserves_vacuumDatabase (filePath : string) (sqlite3Cmd : option string) :
  (sqlite3Cmd = None -> ok EvProbe) ->
  (forall cmd, ok (EvExec cmd filePath Sql.vacuum_sql)) ->
  preserves R (vacuumDatabase eng filePath sqlite3Cmd).
Proof.
  intros Hp Hv. unfold vacuumDatabase.
  apply (preserves_bind R).
  { destruct sqlite3Cmd; [apply (preserves_ret R) | now apply preserves_getSqlite3Command; auto]. }
  intros cmd.
  apply (preserves_bind R); [apply (preserves_getFileSizeMb R) | intros beforeMb].
  apply (preserves_bind R).
  { apply (preserves_try_catch R); [|intros e; apply (preserves_throw R)].
    apply (preserves_bind R); [|intros _; apply (preserves_ret R)].
    apply (preserves_execSync Inherit cmd filePath Sql.vacuum_sql), Hv. }
  intros _. repeat preserves_step R.
Qed.


Lemma deleteKeysAndVacuum_unfold filePath pattern table keepLast :
  deleteKeysAndVacuum eng filePath pattern table keepLast
  = bind getSqlite3Command (delete_with eng filePath pattern table keepLast).
Proof. reflexivity. Qed.

Lemma preserves_delete_with filePath pattern table keepLast sqlite3 :
  (forall cmd sql, In sql (prune_texts table pattern keepLast) ->
                   ok (EvExec cmd filePath sql)) ->
  preserves R (delete_with eng filePath pattern table keepLast sqlite3).
Proof.
  intros Hs. unfold delete_with, runSqliteQuery.
  apply (preserves_bind R).
  { apply preserves_execSync, Hs. now left. }
  intros countOut.
  destruct (Js.or_zero _ =? 0)%Z; [apply (preserves_ret R)|].
  apply (preserves_bind R); [apply (preserves_getFileSizeMb R) | intros _].
  destruct (_ =? 0)%Z; [apply (preserves_ret R)|].
  apply (preserves_bind R).
  { destruct keepLast; apply preserves_execSync, Hs; right; now left. }
  intros _. apply (preserves_bind R).
  { apply preserves_vacuumDatabase; [discriminate|].
    intros cmd. apply Hs. right; right; now left. }
  intros _. repeat preserves_step R.
Qed.

Lemma preserves_deleteKeysAndVacuum filePath pattern table keepLast :
  ok EvProbe ->
  (forall cmd sql, In sql (prune_texts table pattern keepLast) ->
                   ok (EvExec cmd filePath sql)) ->
  preserves R (deleteKeysAndVacuum eng filePath pattern table keepLast).
Proof.
  intros Hp Hs. rewrite deleteKeysAndVacuum_unfold.
  apply (preserves_bind R); [now apply preserves_getSqlite3Command | intros sqlite3].
  now apply preserves_delete_with.
Qed.

Lemma checkIntegrity_unfold filePath label :
  checkIntegrity eng filePath label = bind getSqlite3Command (check_with eng filePath).
Proof. reflexivity. Qed.

Lemma preserves_check_with filePath sqlite3 :
  (forall cmd, ok (EvExec cmd filePath Sql.quick_check_sql)) ->
  (forall cmd, ok (EvExec cmd filePath Sql.integrity_check_sql)) ->
  preserves R (check_with eng filePath sqlite3).
Proof.
  intros Hq Hi. unfold check_with, runSqliteQuery.
  apply (preserves_bind R); [apply (preserves_getFileSizeMb R) | intros _].
  apply (preserves_try_catch R); [|intros _; apply (preserves_ret R)].
  apply (preserves_bind R); [now apply preserves_execSync | intros quick].
  destruct (negb _); [apply (preserves_ret R)|].
  apply (preserves_bind R); [now apply preserves_execSync | intros integrity].
  destruct (negb _); apply (preserves_ret R).
Qed.


Lemma countCategories_unfold filePath :
  countCategories eng filePath = bind getSqlite3Command (count_with eng filePath).
Proof. reflexivity. Qed.

Lemma preserves_count_with filePath sqlite3 :
  (forall cmd sql, In sql category_texts -> ok (EvExec cmd filePath sql)) ->
  preserves R (count_with eng filePath sqlite3).
Proof.
  intros Hs. unfold count_with, runSqliteQuery.
  apply (preserves_bind R); [apply (preserves_getFileSizeMb R) | intros _].
  apply (preserves_for_each R). intros c Hc.
  assert (Hin : forall sql,
    In sql [ Sql.count_sql (cat_table c) (Sql.likeLiteral (cat_pattern c));
             Sql.sum_sql (cat_table c) (Sql.likeLiteral (cat_pattern c)) ] ->
    In sql category_texts).
  { intros sql Hsql. unfold category_texts. apply in_flat_map. eauto. }
  apply (preserves_try_catch R); [|intros _; apply (preserves_ret R)].
  apply (preserves_bind R).
  { apply preserves_execSync, Hs, Hin. now left. }
  intros _. apply (preserves_bind R).
  { apply preserves_execSync, Hs, Hin. right; now left. }
  intros _. apply (preserves_ret R).
Qed.

Lemma preserves_countCategories filePath :
  ok EvProbe ->
  (forall cmd sql, In sql category_texts -> ok (EvExec cmd filePath sql)) ->
  preserves R (countCategories eng filePath).
Proof.
  intros Hp Hs. rewrite countCategories_unfold.
  apply (preserves_bind R); [now apply preserves_getSqlite3Command | intros sqlite3].
  now apply preserves_count_with.
Qed.

End OperationsPreserve.

(** ** The record of external commands *)

Section Traces.
Import Script.

#[export] Instance emits_only_preorder (P : Event -> Prop) : PreOrder (emits_only P).
Proof.
  split.
  - intros w. exists []. split; [now rewrite app_nil_r | constructor].
  - intros w1 w2 w3 (e1 & H1 & F1) (e2 & H2 & F2). exists (e1 ++ e2). split.
    + rewrite H2, H1. now rewrite <- app_assoc.
    + apply Forall_app. now split.
Qed.

Lemma emits_only_log (P : Event -> Prop) (e : Event) :
  P e -> preserves (emits_only P) (log e).
Proof.
  intros He. constructor. intros w. exists [e]. split; [reflexivity|].
  now repeat constructor.
Qed.

Lemma spawn_trace (eng : Sql.Engine) stdio (cmd filePath word : string)
    (w : World) :
  trace (spawn eng stdio cmd filePath word w).2 = trace w.
Proof.
  unfold spawn. destruct (command_runs w cmd); [|reflexivity].
  destruct (fs w !! filePath) as [[f| |]|]; try reflexivity.
  now destruct (Sql.exec eng _ f) as [[text|msg] f'].
Qed.

Lemma emits_only_spawn (P : Event -> Prop) eng stdio cmd filePath word :
  preserves (emits_only P) (spawn eng stdio cmd filePath word).
Proof.
  constructor. intros w. exists []. rewrite spawn_trace, app_nil_r.
  split; [reflexivity | constructor].
Qed.

End Traces.

(** ** The command line *)

Section ArgsFacts.
Import Args.

(** A property of the options kept by every flag is kept by the loop. *)
Lemma parse_loop_invariant (P : PruneOptions -> Prop) :
  (forall arg o o', P o -> plain_flag arg o = Some o' -> P o') ->
  (forall arg v o o', P o -> valued_flag arg v o = Some o' -> P o') ->
  forall args o, P o -> P (parse_loop args o).
Proof.
  intros Hplain Hvalued args.
  induction args as [args IH] using (induction_ltof1 _ (@length string)).
  unfold ltof in IH. intros o Ho.
  destruct args as [|arg rest]; [assumption|]. simpl.
  destruct (plain_flag arg o) as [o'|] eqn:Ep.
  - apply IH; [simpl; lia | eauto].
  - destruct rest as [|v rest']; [assumption|].
    destruct (valued_flag arg v o) as [o'|] eqn:Ev.
    + apply IH; [simpl; lia | eauto].
    + apply IH; [simpl; lia | assumption].
Qed.

Ltac flag_cases H :=
  repeat match type of H with
         | (if ?b then _ else _) = _ => destruct b
         end;
  inversion H; subst; clear H;
  repeat match goal with
         | |- context [if ?b then _ else _] => destruct b
         end.

Lemma plain_flag_workspace arg o o' :
  plain_flag arg o = Some o' -> workspace o = true -> workspace o' = true.
Proof. unfold plain_flag. intros H Hw. flag_cases H; simpl; auto. Qed.

Lemma valued_flag_workspace arg v o o' :
  valued_flag arg v o = Some o' -> workspace o' = workspace o.
Proof. unfold valued_flag. intros H. flag_cases H; reflexivity. Qed.

Lemma parseArgs_workspace (args : list string) :
  workspace (parseArgs args) = true.
Proof.
  unfold parseArgs.
  apply (parse_loop_invariant (fun o => workspace o = true)); [| |reflexivity].
  - intros arg o o' Ho H. eapply plain_flag_workspace; eauto.
  - intros arg v o o' Ho H. now rewrite (valued_flag_workspace _ _ _ _ H).
Qed.

Lemma includes_In (xs : list string) (x : string) :
  Js.includes xs x = true <-> In x xs.
Proof.
  unfold Js.includes. rewrite existsb_exists. split.
  - intros (y & Hy & E). apply String.eqb_eq in E. now subst.
  - intros H. exists x. split; [assumption | apply String.eqb_refl].
Qed.

Lemma plain_flag_deleteTable arg o o' :
  plain_flag arg o = Some o' -> deleteTable o' = deleteTable o.
Proof. unfold plain_flag. intros H. flag_cases H; reflexivity. Qed.

Lemma valued_flag_deleteTable arg v o o' :
  valued_flag arg v o = Some o' ->
  In (deleteTable o) ALLOWED_TABLES -> In (deleteTable o') ALLOWED_TABLES.
Proof.
  unfold valued_flag. intros H Ho.
  destruct (Js.includes ALLOWED_TABLES v) eqn:Hin;
    flag_cases H; auto.
  now apply includes_In in Hin.
Qed.

(** Whatever the command line, the table of a delete is one of the two
    allowed tables. *)
Lemma parseArgs_deleteTable (args : list string) :
  In (deleteTable (parseArgs args)) ALLOWED_TABLES.
Proof.
  unfold parseArgs.
  apply (parse_loop_invariant (fun o => In (deleteTable o) ALLOWED_TABLES)).
  - intros arg o o' Ho H. now rewrite (plain_flag_deleteTable _ _ _ H).
  - intros arg v o o' Ho H. eapply valued_flag_deleteTable; eauto.
  - simpl. now left.
Qed.

(** A [--table] value outside the allow-list changes nothing. *)
Lemma table_flag_rejected (v : string) (o : PruneOptions) :
  ~ In v ALLOWED_TABLES -> valued_flag "--table" v o = Some o.
Proof.
  intros Hv. unfold valued_flag.
  destruct (Js.includes ALLOWED_TABLES v) eqn:Hin; [|reflexivity].
  apply includes_In in Hin. contradiction.
Qed.





End ArgsFacts.

(** ** Running the operations step by step *)

Section Runs.
Import Script.

Variable eng : Sql.Engine.

Lemma run_bind {A B} (m : M A) (k : A -> M B) (w w' : World) (a : A) :
  m w = (Ok a, w') -> bind m k w = k a w'.
Proof. intros H. unfold bind. now rewrite H. Qed.

Lemma run_bind_throw {A B} (m : M A) (k : A -> M B) (w w' : World) (e : Error) :
  m w = (Throw e, w') -> bind m k w = (Throw e, w').
Proof. intros H. unfold bind. now rewrite H. Qed.

Lemma getSqlite3Command_run (w : World) :
  getSqlite3Command w
  = (match located w with
     | Some cmd => Ok cmd
     | None => Throw EngineNotFound
     end, log_event EvProbe w).
Proof.
  unfold getSqlite3Command, located, bind, log. cbv beta iota.
  change (env (log_event EvProbe w)) with (env w).
  destruct (sqlite3_on_path (env w)); [reflexivity|].
  change (winPaths (log_event EvProbe w)) with (winPaths w).
  change (existsSync (log_event EvProbe w)) with (existsSync w).
  now destruct (find (existsSync w) (winPaths w)).
Qed.

Lemma ready_log w cmd filePath f e :
  ready w cmd filePath f -> ready (log_event e w) cmd filePath f.
Proof. intros H. exact H. Qed.

Lemma ready_write_db w cmd filePath f f' :
  ready w cmd filePath f -> ready (write_db filePath f' w) cmd filePath f'.
Proof.
  intros [Hc Hf]. split; [|apply lookup_insert_eq].
  unfold command_runs in *. simpl.
  destruct (String.eqb cmd "sqlite3"); [assumption|].
  destruct (decide (filePath = cmd)) as [->|Hne].
  - now rewrite Hf in Hc.
  - now rewrite lookup_insert_ne.
Qed.

Lemma spawn_run w stdio cmd filePath f word :
  ready w cmd filePath f ->
  let o := Sql.exec eng (received (env w) word) f in
  spawn eng stdio cmd filePath word w
  = (result_of stdio (command_line cmd filePath word) o.1,
     write_db filePath o.2 w).
Proof.
  intros [Hc Hf]. unfold spawn. rewrite Hc, Hf. cbv zeta.
  now destruct (Sql.exec eng _ f) as [[text|msg] f'].
Qed.




Lemma execSync_run w stdio cmd filePath f sql word :
  ready w cmd filePath f ->
  let o := Sql.exec eng (received (env w) word) f in
  execSync eng stdio cmd filePath sql word w
  = (result_of stdio (command_line cmd filePath word) o.1,
     write_db filePath o.2 (log_event (EvExec cmd filePath sql) w)).
Proof.
  intros H. unfold execSync, bind, log. cbv zeta.
  now rewrite (spawn_run _ stdio cmd filePath f) by now apply ready_log.
Qed.

Lemma runSqliteQuery_run w cmd filePath f sql :
  ready w cmd filePath f ->
  delivered w sql ->
  runSqliteQuery eng filePath sql cmd w
  = (result_of Pipe (query_line cmd filePath sql) (Sql.exec eng sql f).1,
     write_db filePath (Sql.exec eng sql f).2
       (log_event (EvExec cmd filePath sql) w)).
Proof.
  intros Hr Hd. unfold runSqliteQuery.
  rewrite (execSync_run _ _ cmd filePath f) by assumption. cbv zeta.
  unfold delivered in Hd. now rewrite Hd.
Qed.

Lemma getFileSizeMb_run w cmd filePath f :
  ready w cmd filePath f ->
  getFileSizeMb filePath w = (Ok (mb_of_bytes (Sql.size f)), w).
Proof. intros [_ Hf]. unfold getFileSizeMb. now rewrite Hf. Qed.

Lemma exec_vacuum (f : Sql.DbFile) :
  Sql.locked f = false ->
  Sql.exec eng Sql.vacuum_sql f = (Sql.Out "", Sql.vacuumed eng f).
Proof.
  intros Hl. unfold Sql.exec.
  change (Sql.parse Sql.vacuum_sql) with (Some Sql.SVacuum).
  unfold Sql.exec_stmt, Sql.refused. cbn [Sql.patterns forallb].
  now rewrite Hl.
Qed.

(** The word that [vacuumDatabase] writes is what [JSON.stringify] would
    write, and reaches the engine as [VACUUM;]. *)
Lemma vacuum_word :
  Js.dquote +:+ "VACUUM;" +:+ Js.dquote = Js.JSON_stringify Sql.vacuum_sql.
Proof. reflexivity. Qed.

Lemma vacuum_received (e : Env) :
  received e (Js.JSON_stringify Sql.vacuum_sql) = Sql.vacuum_sql.
Proof. reflexivity. Qed.

Lemma execSync_vacuum_run w cmd filePath f :
  ready w cmd filePath f ->
  execSync eng Inherit cmd filePath Sql.vacuum_sql
    (Js.dquote +:+ "VACUUM;" +:+ Js.dquote) w
  = (result_of Inherit (query_line cmd filePath Sql.vacuum_sql)
       (Sql.exec eng Sql.vacuum_sql f).1,
     write_db filePath (Sql.exec eng Sql.vacuum_sql f).2
       (log_event (EvExec cmd filePath Sql.vacuum_sql) w)).
Proof.
  intros Hr. rewrite vacuum_word.
  rewrite (execSync_run _ _ cmd filePath f) by assumption. cbv zeta.
  now rewrite vacuum_received.
Qed.

(** With the engine at hand and the file free, [vacuumDatabase] returns the
    two sizes, whatever they are. *)
Lemma vacuumDatabase_run w cmd filePath f :
  ready w cmd filePath f ->
  Sql.locked f = false ->
  vacuumDatabase eng filePath (Some cmd) w
  = (Ok (mb_of_bytes (Sql.size f), mb_of_bytes (Sql.size (Sql.vacuumed eng f))),
     write_db filePath (Sql.vacuumed eng f)
       (log_event (EvExec cmd filePath Sql.vacuum_sql) w)).
Proof.
  intros Hr Hl. unfold vacuumDatabase.
  rewrite (run_bind _ _ w w cmd) by reflexivity.
  rewrite (run_bind _ _ _ _ _ (getFileSizeMb_run _ _ _ _ Hr)).
  pose proof (execSync_vacuum_run w cmd filePath f Hr) as He.
  rewrite exec_vacuum in He by assumption. cbn [fst snd result_of] in He.
  assert (Hr' : ready (write_db filePath (Sql.vacuumed eng f)
                  (log_event (EvExec cmd filePath Sql.vacuum_sql) w))
                  cmd filePath (Sql.vacuumed eng f))
    by (apply ready_write_db with (f := f); now apply ready_log).
  erewrite run_bind; cycle 1.
  { unfold try_catch. erewrite run_bind by exact He. reflexivity. }
  now rewrite (run_bind _ _ _ _ _ (getFileSizeMb_run _ _ _ _ Hr')).
Qed.

End Runs.

(** ** Rows: what a delete removes and what it leaves *)

Section Rows.
Import Sql.

#[local] Instance desc_transitive : Transitive desc.
Proof. intros a b c. unfold desc. lia. Qed.

#[local] Instance desc_total : Total desc.
Proof. intros a b. unfold desc. lia. Qed.




Lemma mem_Z_In (x : Z) (l : list Z) : mem_Z x l = true <-> In x l.
Proof.
  unfold mem_Z. rewrite existsb_exists. split.
  - intros (y & Hy & E). apply Z.eqb_eq in E. now subst.
  - intros H. exists x. split; [assumption | apply Z.eqb_refl].
Qed.


Lemma filter_filter_comm {A} (q g : A -> bool) (l : list A) :
  List.filter q (List.filter g l) = List.filter g (List.filter q l).
Proof.
  induction l as [|x l IH]; simpl; [reflexivity|].
  destruct (g x) eqn:Hg, (q x) eqn:Hq; simpl; rewrite ?Hg, ?Hq, IH; reflexivity.
Qed.


(** *** Delete all matches *)



Lemma delete_rows_none (p : string) (rows : list Row) :
  length (matching p rows) = 0%nat -> delete_rows p rows = rows.
Proof.
  unfold matching, delete_rows. induction rows as [|r rows IH]; [reflexivity|].
  simpl. destruct (like p (key r)); simpl; [discriminate|].
  intros H. now rewrite IH.
Qed.

(** *** Delete all matches but the last [n] *)





End Rows.

(** ** One run of [deleteKeysAndVacuum] *)

Section PruneRun.
Import Script Sql.

Variable eng : Engine.










End PruneRun.

(** ** What is left in the table *)

Section PrunedRows.
Import Sql.










(** A negative [keepLast], which [parseArgs] never produces, makes the
    [LIMIT] of the subquery no limit at all: every match is kept. *)
Lemma pruned_rows_negative (p : string) (rows : list Row) (N : Z) :
  (N < 0)%Z -> pruned_rows p (Some N) rows = rows.
Proof.
  intros HN. unfold pruned_rows. cbv zeta.
  destruct (_ =? 0)%Z; [reflexivity|].
  destruct (_ =? 0)%Z; [reflexivity|].
  unfold delete_rows_except, last_rowids.
  apply Z.ltb_lt in HN. rewrite HN.
  apply forallb_filter_id. apply forallb_forall. intros x Hx.
  destruct (like p (key x)) eqn:Hlike; [|reflexivity].
  apply negb_true_iff, andb_false_iff. right. apply negb_false_iff.
  apply mem_Z_In.
  apply (Permutation_in _ (Permutation_sym (merge_sort_Permutation desc _))).
  apply in_map. apply filter_In. now split.
Qed.

End PrunedRows.

(** ** Pruning by pattern *)

Section PruneClaims.
Import Script Sql.

Variable eng : Engine.



End PruneClaims.

(** ** Vacuum *)

Section VacuumClaims.
Import Script Sql.

Variable eng : Engine.

(** C3, as the code has it.  [vacuumDatabase] reads the size of the file
    before and after [VACUUM] and returns the two; it does not compare them.
    Whenever the engine runs [VACUUM] on the file, the operation succeeds
    with the size the file had and the size the engine left, whichever is
    larger. *)
Theorem vacuum_returns_both_sizes_unchecked
    (w : World) (cmd filePath : string) (f : DbFile)
    (sqlite3Cmd : option string) :
  sqlite3Cmd = Some cmd \/ (sqlite3Cmd = None /\ located w = Some cmd) ->
  ready w cmd filePath f ->
  locked f = false ->
  exists w',
    vacuumDatabase eng filePath sqlite3Cmd w
    = (Ok (mb_of_bytes (size f), mb_of_bytes (size_after eng SVacuum f)), w')
    /\ fs w' !! filePath = Some (NDb (vacuumed eng f)).
Proof.
  intros [->|[-> Hloc]] Hr Hl.
  - rewrite (vacuumDatabase_run eng w cmd filePath f Hr Hl).
    eexists. split; [reflexivity | apply lookup_insert_eq].
  - assert (Hstep : vacuumDatabase eng filePath None w
                    = vacuumDatabase eng filePath (Some cmd) (log_event EvProbe w)).
    { unfold vacuumDatabase. unfold bind at 1. rewrite getSqlite3Command_run, Hloc.
      reflexivity. }
    rewrite Hstep.
    rewrite (vacuumDatabase_run eng _ cmd filePath f (ready_log _ _ _ _ _ Hr) Hl).
    eexists. split; [reflexivity | apply lookup_insert_eq].
Qed.

End VacuumClaims.

(** ** Integrity check *)

Section IntegrityClaims.
Import Script Sql.

Variable eng : Engine.

Lemma spawn_ok stdio cmd filePath word w text w' :
  spawn eng stdio cmd filePath word w = (Ok text, w') ->
  exists f, fs w !! filePath = Some (NDb f)
            /\ (exec eng (received (env w) word) f).1 = Out text.
Proof.
  unfold spawn. destruct (command_runs w cmd); [|discriminate].
  destruct (fs w !! filePath) as [[f| |]|]; try discriminate.
  destruct (exec eng _ f) as [[t|m] f'] eqn:E; intros H; inversion H; subst.
  exists f. split; [reflexivity|]. now rewrite E.
Qed.

Lemma runSqliteQuery_ok cmd filePath sql w text w' :
  delivered w sql ->
  runSqliteQuery eng filePath sql cmd w = (Ok text, w') ->
  exists f, fs w !! filePath = Some (NDb f) /\ (exec eng sql f).1 = Out text.
Proof.
  unfold runSqliteQuery, execSync, bind, log. intros Hd H.
  apply spawn_ok in H as (f & Hf & Ho). exists f. split; [exact Hf|].
  unfold delivered in Hd. cbn [env log_event] in Ho. now rewrite Hd in Ho.
Qed.

Lemma execSync_trace stdio cmd filePath sql word w :
  trace (execSync eng stdio cmd filePath sql word w).2
  = trace w ++ [EvExec cmd filePath sql].
Proof. unfold execSync, bind, log. now rewrite spawn_trace. Qed.

Lemma runSqliteQuery_trace cmd filePath sql w :
  trace (runSqliteQuery eng filePath sql cmd w).2
  = trace w ++ [EvExec cmd filePath sql].
Proof. apply execSync_trace. Qed.

(** The two checks are fixed texts, which reach the engine as they are. *)
Lemma quick_check_delivered w : delivered w quick_check_sql.
Proof. reflexivity. Qed.


Lemma run_try_ok {A} (m : M A) (h : Error -> M A) (w w' : World) (a : A) :
  m w = (Ok a, w') -> try_catch m h w = (Ok a, w').
Proof. intros H. unfold try_catch. now rewrite H. Qed.

Lemma run_try_throw {A} (m : M A) (h : Error -> M A) (w w' : World) (e : Error) :
  m w = (Throw e, w') -> try_catch m h w = h e w'.
Proof. intros H. unfold try_catch. now rewrite H. Qed.

(** The three ways a call of [checkIntegrity] can go. *)
Lemma checkIntegrity_cases (w : World) (filePath label : string) :
  let r := (checkIntegrity eng filePath label w).1 in
  exists evs, trace (checkIntegrity eng filePath label w).2 = trace w ++ evs
  /\ ( (evs = [EvProbe]
        /\ (r = Throw EngineNotFound \/ r = Throw (StatError filePath)))
     \/ (exists cmd, evs = [EvProbe; EvExec cmd filePath quick_check_sql]
                     /\ r = Ok false)
     \/ (exists cmd, evs = [EvProbe; EvExec cmd filePath quick_check_sql;
                            EvExec cmd filePath integrity_check_sql]
                     /\ quick_verdict eng w filePath = Some "ok") ).
Proof.
  intros r. unfold r. clear r. rewrite checkIntegrity_unfold.
  pose proof (getSqlite3Command_run w) as Hg.
  destruct (located w) as [cmd|]; cycle 1.
  { rewrite (run_bind_throw _ _ _ _ _ Hg).
    exists [EvProbe]. split; [reflexivity|]. left. auto. }
  rewrite (run_bind _ _ _ _ _ Hg). clear Hg. unfold check_with.
  set (w1 := log_event EvProbe w).
  assert (Hsz : getFileSizeMb filePath w1
                = (match fs w !! filePath with
                   | Some n => Ok (mb_of_bytes (node_size n))
                   | None => Throw (StatError filePath)
                   end, w1)).
  { unfold getFileSizeMb. change (fs w1) with (fs w).
    now destruct (fs w !! filePath). }
  destruct (fs w !! filePath) as [n|] eqn:Hf; cycle 1.
  { rewrite (run_bind_throw _ _ _ _ _ Hsz).
    exists [EvProbe]. split; [reflexivity|]. left. auto. }
  rewrite (run_bind _ _ _ _ _ Hsz). clear Hsz.
  pose proof (runSqliteQuery_trace cmd filePath quick_check_sql w1) as Ht1.
  destruct (runSqliteQuery eng filePath quick_check_sql cmd w1)
    as [[text|e] w2] eqn:He1; simpl in Ht1; cycle 1.
  { rewrite (run_try_throw _ _ _ w2 e) by (now apply run_bind_throw).
    exists [EvProbe; EvExec cmd filePath quick_check_sql].
    split; [simpl; rewrite Ht1; simpl; now rewrite <- app_assoc|].
    right; left. now exists cmd. }
  destruct (String.eqb (Js.trim text) "ok") eqn:Hok.
  - (* the quick check said ok: the thorough check runs *)
    exists [EvProbe; EvExec cmd filePath quick_check_sql;
            EvExec cmd filePath integrity_check_sql].
    split; cycle 1.
    { right; right. exists cmd. split; [reflexivity|].
      apply runSqliteQuery_ok in He1 as (f & Hf1 & Hout);
        [|apply quick_check_delivered].
      change (fs w1) with (fs w) in Hf1. unfold quick_verdict.
      rewrite Hf1, Hout. f_equal. now apply String.eqb_eq. }
    pose proof (runSqliteQuery_trace cmd filePath integrity_check_sql w2) as Ht2.
    assert (Hfinal : forall (res : Result bool) w3, trace w3 =
              trace w2 ++ [EvExec cmd filePath integrity_check_sql] ->
              trace (res, w3).2
              = trace w ++ [EvProbe; EvExec cmd filePath quick_check_sql;
                            EvExec cmd filePath integrity_check_sql]).
    { intros res w3 H3. simpl. rewrite H3, Ht1. simpl.
      now rewrite <- !app_assoc. }
    destruct (runSqliteQuery eng filePath integrity_check_sql cmd w2)
      as [[text2|e2] w3] eqn:He2; simpl in Ht2.
    + rewrite (run_try_ok _ _ w1 w3 (String.eqb (Js.trim text2) "ok"));
        [apply Hfinal; exact Ht2|].
      rewrite (run_bind _ _ _ _ _ He1). cbv zeta. rewrite Hok. cbn [negb].
      rewrite (run_bind _ _ _ _ _ He2).
      destruct (String.eqb (Js.trim text2) "ok"); reflexivity.
    + rewrite (run_try_throw _ _ w1 w3 e2); [apply Hfinal; exact Ht2|].
      rewrite (run_bind _ _ _ _ _ He1). cbv zeta. rewrite Hok. cbn [negb].
      apply run_bind_throw. exact He2.
  - (* the quick check said something else: nothing more is run *)
    erewrite run_try_ok; cycle 1.
    { rewrite (run_bind _ _ _ _ _ He1). cbv zeta. rewrite Hok. cbn [negb].
      reflexivity. }
    exists [EvProbe; EvExec cmd filePath quick_check_sql].
    split; [simpl; rewrite Ht1; simpl; now rewrite <- app_assoc|].
    right; left. now exists cmd.
Qed.

(** C4.  When the text that [PRAGMA quick_check] gives for the file, trimmed,
    is not exactly [ok], [checkIntegrity] reports failure (it returns
    [false], or throws because the engine or the file is missing) and hands
    no [PRAGMA integrity_check] to the engine.  In every run, an
    [integrity_check] is preceded by the [quick_check] of the same file with
    the same command, and that one said [ok]. *)
Theorem quick_check_gates_integrity_check
    (w : World) (filePath label : string) :
  exists evs,
    trace (checkIntegrity eng filePath label w).2 = trace w ++ evs
    /\ (quick_verdict eng w filePath <> Some "ok" ->
        (checkIntegrity eng filePath label w).1 <> Ok true
        /\ forall cmd fp, ~ In (EvExec cmd fp integrity_check_sql) evs)
    /\ (forall cmd fp, In (EvExec cmd fp integrity_check_sql) evs ->
        quick_verdict eng w filePath = Some "ok"
        /\ evs = [EvProbe; EvExec cmd filePath quick_check_sql;
                  EvExec cmd filePath integrity_check_sql]).
Proof.
  destruct (checkIntegrity_cases w filePath label) as (evs & Ht & Hcases).
  exists evs. split; [exact Ht|].
  destruct Hcases as [[-> Hr] | [(cmd & -> & Hr) | (cmd & -> & Hv)]].
  - split.
    + intros _. split; [destruct Hr as [-> | ->]; discriminate|].
      intros c fp [H|[]]; discriminate.
    + intros c fp [H|[]]; discriminate.
  - split.
    + intros _. split; [rewrite Hr; discriminate|].
      intros c fp [H|[H|[]]]; discriminate.
    + intros c fp [H|[H|[]]]; discriminate.
  - split; [intros Hne; contradiction|].
    intros c fp [H|[H|[H|[]]]]; try discriminate.
    inversion H; subst. now split.
Qed.

End IntegrityClaims.

(** ** Locating the engine *)

Section LocateClaims.
Import Script Sql.

Variable eng : Engine.

Lemma probes_once_bind {A} (k : string -> M A) (w : World) :
  (forall cmd, preserves (emits_only not_probe) (k cmd)) ->
  probes_once (bind getSqlite3Command k) w.
Proof.
  intros Hk. unfold probes_once.
  pose proof (getSqlite3Command_run w) as Hg.
  destruct (located w) as [cmd|].
  - rewrite (run_bind _ _ _ _ _ Hg).
    destruct (preserves_at _ _ (log_event EvProbe w) (Hk cmd)) as (evs & Ht & Hevs).
    exists evs. split; [|assumption]. rewrite Ht. simpl.
    now rewrite <- app_assoc.
  - rewrite (run_bind_throw _ _ _ _ _ Hg). exists []. split; [reflexivity | constructor].
Qed.

Lemma not_probe_log (e : Event) :
  not_probe e -> preserves (emits_only not_probe) (log e).
Proof. apply emits_only_log. Qed.

Lemma not_probe_spawn stdio cmd filePath sql :
  not_probe (EvExec cmd filePath sql) ->
  preserves (emits_only not_probe)
    (spawn eng stdio cmd filePath (Js.JSON_stringify sql)).
Proof. intros _. apply emits_only_spawn. Qed.

(** C7, as the code has it.  [getSqlite3Command] asks the shell for
    [sqlite3] first, then takes the first known installation path that
    exists, and fails only when there is none.  Its result is not kept:
    each operation that needs the engine runs this discovery again, once,
    at its start, whatever ran before in the same process. *)
Theorem engine_is_located_anew_by_each_operation
    (w : World) (filePath label pattern table : string) (keepLast : option Z) :
  getSqlite3Command w
  = (if sqlite3_on_path (env w) then Ok "sqlite3"
     else match List.find (existsSync w) (winPaths w) with
          | Some winPath => Ok winPath
          | None => Throw EngineNotFound
          end,
     log_event EvProbe w)
  /\ probes_once (checkIntegrity eng filePath label) w
  /\ probes_once (deleteKeysAndVacuum eng filePath pattern table keepLast) w
  /\ probes_once (countCategories eng filePath) w
  /\ probes_once (analyzeGlobalStateVscdb filePath) w
  /\ probes_once (vacuumDatabase eng filePath None) w.
Proof.
  split.
  { rewrite getSqlite3Command_run. unfold located.
    destruct (sqlite3_on_path (env w)); [reflexivity|].
    now destruct (find (existsSync w) (winPaths w)). }
  split.
  { rewrite checkIntegrity_unfold. apply probes_once_bind. intros cmd.
    apply (preserves_check_with _ eng not_probe not_probe_log not_probe_spawn);
      discriminate. }
  split.
  { rewrite deleteKeysAndVacuum_unfold. apply probes_once_bind. intros cmd.
    apply (preserves_delete_with _ eng not_probe not_probe_log not_probe_spawn);
      discriminate. }
  split.
  { rewrite countCategories_unfold. apply probes_once_bind. intros cmd.
    apply (preserves_count_with _ eng not_probe not_probe_log not_probe_spawn);
      discriminate. }
  split.
  { apply probes_once_bind. intros cmd.
    apply (preserves_bind _); [apply (preserves_getFileSizeMb _) | intros _].
    now apply not_probe_log. }
  change (vacuumDatabase eng filePath None)
    with (bind getSqlite3Command (fun cmd => vacuumDatabase eng filePath (Some cmd))).
  apply probes_once_bind. intros cmd.
  apply (preserves_vacuumDatabase _ eng not_probe not_probe_log not_probe_spawn);
    discriminate.
Qed.

End LocateClaims.

(** ** The SQL texts: tables and literals *)

Section TextClaims.
Import Script Sql.

Variable eng : Engine.

Lemma prune_texts_read (table pattern : string) (keepLast : option Z) (sql : string) :
  is_ident table = true ->
  In sql (prune_texts table pattern keepLast) ->
  reads_with_literal table pattern sql.
Proof.
  intros Ht [<-|[<-|[<-|[]]]].
  - exists (SCount table pattern). rewrite parse_count_sql by assumption.
    repeat constructor.
  - destruct keepLast as [k|].
    + exists (SDeleteKeep table pattern table pattern k).
      rewrite parse_delete_keep_sql by assumption. repeat constructor.
    + exists (SDelete table pattern). rewrite parse_delete_sql by assumption.
      repeat constructor.
  - exists SVacuum. repeat constructor.
Qed.

Lemma category_texts_read (sql : string) :
  In sql category_texts ->
  exists c, In c CATEGORIES
            /\ In (cat_table c) Args.ALLOWED_TABLES
            /\ reads_with_literal (cat_table c) (cat_pattern c) sql.
Proof.
  unfold category_texts. rewrite in_flat_map. intros (c & Hc & Hsql).
  assert (Ht : In (cat_table c) Args.ALLOWED_TABLES).
  { simpl in Hc. decompose [or] Hc; subst; simpl; auto. }
  exists c. split; [assumption|]. split; [assumption|].
  pose proof (allowed_is_ident _ Ht) as Hid.
  destruct Hsql as [<-|[<-|[]]].
  - exists (SCount (cat_table c) (cat_pattern c)).
    rewrite parse_count_sql by assumption. repeat constructor.
  - exists (SSum (cat_table c) (cat_pattern c)).
    rewrite parse_sum_sql by assumption. repeat constructor.
Qed.

Lemma deleteKeysAndVacuum_reads filePath pattern table keepLast :
  is_ident table = true ->
  preserves (emits_only (event_reads_with_literal table pattern))
    (deleteKeysAndVacuum eng filePath pattern table keepLast).
Proof.
  intros Ht.
  apply (preserves_deleteKeysAndVacuum _ eng
           (event_reads_with_literal table pattern)).
  - intros e He. now apply emits_only_log.
  - intros. apply emits_only_spawn.
  - exact I.
  - intros cmd sql Hsql. now apply prune_texts_read with (keepLast := keepLast).
Qed.

Lemma countCategories_reads filePath :
  preserves (emits_only event_reads_category) (countCategories eng filePath).
Proof.
  apply (preserves_countCategories _ eng event_reads_category).
  - intros e He. now apply emits_only_log.
  - intros. apply emits_only_spawn.
  - exact I.
  - intros cmd sql Hsql.
    apply category_texts_read in Hsql as (c & Hc & _ & Hr).
    exists c. now split.
Qed.

(** C2, as the code has it.  A [--table] value outside the allow-list is
    not an error: the flag is ignored and the table stays what it was
    ([ItemTable] unless an allowed [--table] came before).  So whatever the
    command line, the table of the delete is in the allow-list, and every
    SQL text that the delete builds with it (the count, the [DELETE],
    [VACUUM;]) reads as one statement on that table and no other: no text
    of the delete is built from a name that was not validated. *)
Theorem table_outside_allow_list_is_ignored (args : list string) :
  (forall v o, ~ In v Args.ALLOWED_TABLES ->
               Args.valued_flag "--table" v o = Some o)
  /\ In (Args.deleteTable (Args.parseArgs args)) Args.ALLOWED_TABLES
  /\ forall filePath pattern w, exists evs,
       trace (deleteKeysAndVacuum eng filePath pattern
                (Args.deleteTable (Args.parseArgs args))
                (Args.keepLast (Args.parseArgs args)) w).2 = trace w ++ evs
       /\ Forall (event_on_table (Args.deleteTable (Args.parseArgs args))) evs.
Proof.
  split; [intros v o; apply table_flag_rejected|].
  pose proof (parseArgs_deleteTable args) as Ht.
  split; [exact Ht|].
  intros filePath pattern w.
  destruct (preserves_at _ _ w
              (deleteKeysAndVacuum_reads filePath pattern _
                 (Args.keepLast (Args.parseArgs args)) (allowed_is_ident _ Ht)))
    as (evs & Hevs & Hall).
  exists evs. split; [assumption|].
  eapply Forall_impl; [exact Hall|].
  intros [| cmd fp sql | |]; simpl; auto.
  intros (st & Hp & Htab & _). now exists st.
Qed.

(** X24.  The SQL text as the script builds it, before it is written on the
    command line: the pattern goes into it as ['] + the pattern with every
    ['] doubled + [']; read as SQL, that is one string literal whose value
    is the pattern, and the reader is then right behind its closing quote.
    Every text that the delete builds, for any pattern, reads as one
    statement of the expected kind on the given table, with the pattern as
    its only literal (the count, the delete, or [VACUUM], which has none);
    the same holds for the two queries of each category in the count
    operation. *)
Theorem built_text_holds_the_pattern_as_one_literal
    (filePath pattern table : string) (keepLast : option Z) :
  In table Args.ALLOWED_TABLES ->
  likeLiteral pattern = "'" +:+ Js.escape_quotes pattern +:+ "'"
  /\ (forall a b, Js.escape_quotes (a +:+ String "'" b)
                  = Js.escape_quotes a +:+ "''" +:+ Js.escape_quotes b)
  /\ (forall rest, starts_with is_quote rest = false ->
                   read_literal (likeLiteral pattern +:+ rest) = Some (pattern, rest))
  /\ (forall w, exists evs,
        trace (deleteKeysAndVacuum eng filePath pattern table keepLast w).2
        = trace w ++ evs
        /\ Forall (event_reads_with_literal table pattern) evs)
  /\ (forall w, exists evs,
        trace (countCategories eng filePath w).2 = trace w ++ evs
        /\ Forall event_reads_category evs).
Proof.
  intros Ht. split; [reflexivity|]. split.
  { intros a b. induction a as [|c a IH]; [reflexivity|]. simpl.
    destruct (Ascii.eqb c "'"); simpl; now rewrite IH. }
  split; [intros rest; apply read_literal_likeLiteral|]. split.
  - intros w. apply (preserves_at (emits_only _)).
    apply deleteKeysAndVacuum_reads. now apply allowed_is_ident.
  - intros w. apply (preserves_at (emits_only _)). apply countCategories_reads.
Qed.

End TextClaims.

(** ** What a prune leaves alone *)

Section FrameClaims.
Import Script Sql.

Variable eng : Engine.
Variables filePath table pattern : string.
Variable keepLast : option Z.
Hypothesis table_ident : is_ident table = true.

Lemma db_frame_refl (f : DbFile) : db_frame table pattern f f.
Proof. now split. Qed.

Lemma db_frame_trans (f1 f2 f3 : DbFile) :
  db_frame table pattern f1 f2 -> db_frame table pattern f2 f3 -> db_frame table pattern f1 f3.
Proof.
  intros [H1 H1'] [H2 H2']. split.
  - intros t Ht. now rewrite H2, H1.
  - now rewrite H2', H1'.
Qed.

Variable e : Env.
Hypothesis pattern_short : short pattern = true.
Hypothesis texts_delivered :
  forall sql, In sql (prune_texts table pattern keepLast) ->
              received e (Js.JSON_stringify sql) = sql.

Lemma frame_refl (w : World) : frame filePath table pattern w w.
Proof.
  split; [reflexivity|]. unfold node_frame.
  destruct (fs w !! filePath) as [[f| |]|]; auto using db_frame_refl.
Qed.

Lemma frame_trans (w1 w2 w3 : World) :
  frame filePath table pattern w1 w2 -> frame filePath table pattern w2 w3 ->
  frame filePath table pattern w1 w3.
Proof.
  intros [H1 H1'] [H2 H2']. split.
  - intros p Hp. now rewrite H2, H1.
  - unfold node_frame in *.
    destruct (fs w1 !! filePath) as [[f1| |]|],
             (fs w2 !! filePath) as [[f2| |]|],
             (fs w3 !! filePath) as [[f3| |]|];
      try congruence; eauto using db_frame_trans.
Qed.

#[local] Instance frame_preorder : PreOrder (frame_in filePath table pattern e).
Proof.
  split.
  - intros w He. split; [exact He | apply frame_refl].
  - intros w1 w2 w3 H1 H2 He1.
    destruct (H1 He1) as [He2 F1]. destruct (H2 He2) as [He3 F2].
    split; [exact He3 | eapply frame_trans; eassumption].
Qed.







End FrameClaims.

Section FrameTheorem.
Import Script Sql.

Variable eng : Engine.


End FrameTheorem.

(** ** A vacuum run *)

Section VacuumRunClaims.
Import Script Sql.

Variable eng : Engine.

#[local] Instance quiet_preorder : PreOrder quiet.
Proof.
  split.
  - intros w. now repeat split.
  - intros w1 w2 w3 (E1 & X1 & T1) (E2 & X2 & T2). repeat split.
    + now rewrite E2.
    + intros p. now rewrite X2.
    + now rewrite T2.
Qed.

Lemma prune_events_app (tr1 tr2 : list Event) :
  prune_events (tr1 ++ tr2) = prune_events tr1 ++ prune_events tr2.
Proof. apply flat_map_app. Qed.

Lemma quiet_log (e : Event) : not_prune e -> preserves quiet (log e).
Proof.
  intros He. constructor. intros w. repeat split. simpl.
  rewrite prune_events_app. destruct e; try contradiction; simpl; apply app_nil_r.
Qed.

Lemma existsSync_write_db (w : World) (fp : string) (f f' : DbFile) (p : string) :
  fs w !! fp = Some (NDb f) ->
  existsSync (write_db fp f' w) p = existsSync w p.
Proof.
  intros Hf. unfold existsSync. simpl.
  destruct (decide (fp = p)) as [<-|Hne].
  - now rewrite lookup_insert_eq, Hf.
  - now rewrite lookup_insert_ne.
Qed.

Lemma quiet_spawn stdio cmd fp sql :
  not_prune (EvExec cmd fp sql) ->
  preserves quiet (spawn eng stdio cmd fp (Js.JSON_stringify sql)).
Proof.
  intros _. constructor. intros w. unfold spawn.
  destruct (command_runs w cmd); [|reflexivity].
  destruct (fs w !! fp) as [[f| |]|] eqn:Hf; try reflexivity.
  assert (Hw : forall f', quiet w (write_db fp f' w)).
  { intros f'. repeat split. intros p. now apply existsSync_write_db with (f := f). }
  destruct (exec eng _ f) as [[text|msg] f']; apply Hw.
Qed.

Lemma getFileSizeMb_exists (w : World) (fp : string) :
  existsSync w fp = true ->
  exists sizeMb, getFileSizeMb fp w = (Ok sizeMb, w).
Proof.
  unfold existsSync, getFileSizeMb.
  destruct (fs w !! fp); [eauto | discriminate].
Qed.

(** On a path that exists, [pruneDatabase] returns, and is recorded once. *)
Lemma pruneDatabase_step (w : World) (fp label : string) (thresholdMb : option Z) :
  existsSync w fp = true ->
  exists b w',
    pruneDatabase eng fp label thresholdMb w = (Ok b, w')
    /\ env w' = env w
    /\ (forall p, existsSync w' p = existsSync w p)
    /\ prune_events (trace w') = prune_events (trace w) ++ [(fp, label)].
Proof.
  intros Hx. unfold pruneDatabase.
  rewrite (run_bind _ _ w (log_event (EvPrune fp label) w) tt) by reflexivity.
  set (w1 := log_event (EvPrune fp label) w).
  assert (Hw1 : prune_events (trace w1) = prune_events (trace w) ++ [(fp, label)])
    by (simpl; now rewrite prune_events_app).
  destruct (getFileSizeMb_exists w1 fp Hx) as (sizeMb & Hsz).
  rewrite (run_bind _ _ _ _ _ Hsz).
  destruct (lt_num sizeMb thresholdMb).
  { exists false, w1. now repeat split. }
  pose proof (preserves_at _ _ w1
                (preserves_vacuumDatabase quiet eng not_prune quiet_log quiet_spawn
                   fp None (fun _ => I) (fun _ => I))) as (E & X & T).
  destruct (vacuumDatabase eng fp None w1) as [[sizes|e] w2] eqn:Hv; simpl in *.
  - exists true, w2. split.
    { apply run_try_ok. now rewrite (run_bind _ _ _ _ _ Hv). }
    repeat split; [assumption | intros p; now rewrite X | now rewrite T].
  - exists false, w2. split.
    { rewrite (run_try_throw _ _ w1 w2 e); [reflexivity|].
      now apply run_bind_throw. }
    repeat split; [assumption | intros p; now rewrite X | now rewrite T].
Qed.

Lemma prune_all_run (thresholdMb : option Z) (all : list (string * string)) :
  forall w,
    Forall (fun entry => existsSync w entry.1 = true) all ->
    exists w',
      for_each all (prune_one eng thresholdMb) w = (Ok tt, w')
      /\ env w' = env w
      /\ (forall p, existsSync w' p = existsSync w p)
      /\ prune_events (trace w') = prune_events (trace w) ++ all.
Proof.
  induction all as [|[fp label] all IH]; intros w Hall.
  - exists w. simpl. rewrite app_nil_r. now repeat split.
  - apply Forall_cons in Hall as [Hx Hall]. simpl in Hx.
    destruct (getFileSizeMb_exists w fp Hx) as (sizeMb & Hsz).
    destruct (pruneDatabase_step w fp label thresholdMb Hx)
      as (b & w1 & Hp & E1 & X1 & T1).
    assert (Hbody : prune_one eng thresholdMb (fp, label) w = (Ok tt, w1)).
    { unfold prune_one. rewrite (run_bind _ _ _ _ _ Hsz), (run_bind _ _ _ _ _ Hp).
      destruct b; [|reflexivity].
      destruct (getFileSizeMb_exists w1 fp) as (s1 & Hs1); [now rewrite X1|].
      now rewrite (run_bind _ _ _ _ _ Hs1). }
    destruct (IH w1) as (w' & Hrun & E & X & T).
    { eapply Forall_impl; [exact Hall|]. intros entry He. now rewrite X1. }
    exists w'. split.
    { simpl. now rewrite (run_bind _ _ _ _ _ Hbody). }
    repeat split.
    + now rewrite E.
    + intros p. now rewrite X.
    + rewrite T, T1. now rewrite <- app_assoc.
Qed.

(** Every path that the discovery returns exists. *)
Lemma add_exists (w : World) (fp label : string)
    (acc : gset string * list (string * string)) :
  Forall (fun entry => existsSync w entry.1 = true) acc.2 ->
  Forall (fun entry => existsSync w entry.1 = true) (add w fp label acc).2.
Proof.
  intros Hacc. unfold add. destruct acc as [seen out].
  destruct (negb (existsSync w fp) || bool_decide (fp ∈ seen)) eqn:E; [assumption|].
  simpl in *. apply Forall_app. split; [assumption|].
  apply orb_false_iff in E as [E _]. apply negb_false_iff in E.
  now repeat constructor.
Qed.

Lemma fold_left_invariant {A B} (P : A -> Prop) (f : A -> B -> A) (l : list B) :
  (forall a b, P a -> P (f a b)) -> forall a, P a -> P (fold_left f l a).
Proof. intros Hf. induction l as [|b l IH]; simpl; auto. Qed.

Lemma getAllStateVscdbPaths_exist (w : World) :
  Forall (fun entry => existsSync w entry.1 = true) (getAllStateVscdbPaths w).
Proof.
  unfold getAllStateVscdbPaths. cbv zeta.
  set (P := fun acc : gset string * list (string * string) =>
              Forall (fun entry => existsSync w entry.1 = true) acc.2).
  assert (H0 : P (∅, [])) by constructor.
  assert (H1 : P match getWorkspaceStatePath w with
                 | Some workspacePath =>
                     add w workspacePath "Workspace (project) state.vscdb" (∅, [])
                 | None => (∅, [])
                 end).
  { destruct (getWorkspaceStatePath w); [now apply add_exists | assumption]. }
  revert H1. generalize (match getWorkspaceStatePath w with
                 | Some workspacePath =>
                     add w workspacePath "Workspace (project) state.vscdb" (∅, [])
                 | None => (∅, [])
                 end). intros acc1 H1.
  assert (Hdir : forall acc wsDir, P acc -> P (add_workspace_dir w wsDir acc)).
  { intros acc wsDir Hacc. unfold add_workspace_dir.
    destruct (negb (existsSync w wsDir)); [assumption|].
    destruct (readdirSync w wsDir) as [entries|]; [|assumption].
    apply fold_left_invariant; [|assumption].
    intros a id Ha. destruct (existsSync w _); [now apply add_exists | assumption]. }
  match goal with
  | |- Forall _ (match ?g with Some _ => add _ _ _ ?acc2 | None => _ end).2 =>
      assert (H2 : P acc2) by (apply fold_left_invariant; assumption);
      destruct g; [now apply add_exists | exact H2]
  end.
Qed.

(** C9.  Whatever the command line, [parseArgs] gives [workspace = true],
    so the test [options.global && !options.workspace] of [main] is false and
    its branch is never taken.  A vacuum run (no [--count-categories],
    [--check-integrity] or [--analyze]), with [--global] or without, returns
    and enters [pruneDatabase] for every database the discovery found, in the
    order of the discovery, and for nothing else. *)
Theorem vacuum_run_covers_every_database (args : list string) (w : World) :
  let options := Args.parseArgs args in
  Args.workspace options = true
  /\ Args.global options && negb (Args.workspace options) = false
  /\ (Args.countCategories options = false ->
      Args.checkIntegrity options = false ->
      Args.analyze options = false ->
      exists w',
        main eng args w = (Ok tt, w')
        /\ prune_events (trace w')
           = prune_events (trace w) ++ getAllStateVscdbPaths w).
Proof.
  intros options. pose proof (parseArgs_workspace args) as Hws. fold options in Hws.
  split; [exact Hws|]. split; [rewrite Hws; apply andb_false_r|].
  intros Hcc Hci Han. unfold main. fold options. rewrite Hcc, Hci, Han, Hws.
  cbn [negb]. rewrite andb_false_r.
  destruct (prune_all_run (Args.thresholdMb options) (getAllStateVscdbPaths w) w
              (getAllStateVscdbPaths_exist w)) as (w' & Hrun & _ & _ & T).
  exists w'. split; [|exact T].
  erewrite run_bind; [reflexivity|].
  erewrite run_bind by reflexivity. exact Hrun.
Qed.

End VacuumRunClaims.

(** ** An invalid retention count *)

Section KeepLastClaims.
Import Script Sql.

Variable eng : Engine.


End KeepLastClaims.

Section DemoClaims.
Import Script Sql.


(** The scenario of the specification: ten bubbles with rowids 1 to 10 and a
    retention count of 3 leave the bubbles 8, 9 and 10 (and the row that is
    no bubble); the [VACUUM] of the sample engine then numbers the four rows
    from 1. *)
Example keep_last_three_of_ten :
  match deleteKeysAndVacuum Demo.engine Demo.global_path "bubbleId:%"
          "cursorDiskKV" (Some 3%Z) Demo.world with
  | (Ok tt, w') =>
      match fs w' !! Demo.global_path with
      | Some (NDb f') =>
          map (fun r => (rowid r, key r)) <$> (tables f' !! "cursorDiskKV")
          = Some [ (4, "composerData:a"); (1, "bubbleId:8");
                   (2, "bubbleId:9"); (3, "bubbleId:10") ]%Z
      | _ => False
      end
  | _ => False
  end.
Proof. vm_compute. reflexivity. Qed.


(** C2 as stated fails: a table outside the allow-list does not make the
    run fail; the delete goes ahead on [ItemTable]. *)
Lemma table_outside_allow_list_is_not_refused :
  let args := ["--analyze"; "--table"; "sqlite_master";
               "--delete-keys"; "cursor.composer%"] in
  let res := main Demo.engine args Demo.world in
  ~ In "sqlite_master" Args.ALLOWED_TABLES
  /\ res.1 = Ok tt
  /\ In (EvExec "sqlite3" Demo.global_path
           "DELETE FROM ItemTable WHERE key LIKE 'cursor.composer%';")
        (trace res.2).
Proof.
  split; [intros [H|[H|[]]]; discriminate|].
  split; [vm_compute; reflexivity|].
  vm_compute. do 4 right. left. reflexivity.
Qed.

Lemma vacuum_returns_both_sizes_unchecked_witness :
  exists w',
    vacuumDatabase Demo.growing_engine Demo.global_path None Demo.world
    = (Ok (mb_of_bytes (size Demo.global_db),
           mb_of_bytes (size_after Demo.growing_engine SVacuum Demo.global_db)), w')
    /\ fs w' !! Demo.global_path
       = Some (NDb (vacuumed Demo.growing_engine Demo.global_db)).
Proof.
  apply (vacuum_returns_both_sizes_unchecked Demo.growing_engine Demo.world
           "sqlite3" Demo.global_path Demo.global_db None).
  - right. split; reflexivity.
  - split; vm_compute; reflexivity.
  - reflexivity.
Defined.

(** C3 as stated fails: the file is larger after [VACUUM] than before, and
    the operation returns the two sizes like any others. *)
Lemma vacuum_growth_goes_unreported :
  match vacuumDatabase Demo.growing_engine Demo.global_path None Demo.world with
  | (Ok (beforeMb, afterMb), _) => (beforeMb < afterMb)%Q
  | (Throw _, _) => False
  end.
Proof. vm_compute. reflexivity. Qed.

Lemma quick_check_gates_integrity_check_witness :
  quick_verdict Demo.alarmed_engine Demo.world Demo.global_path <> Some "ok"
  /\ exists evs,
       trace (checkIntegrity Demo.alarmed_engine Demo.global_path
                "Global state.vscdb" Demo.world).2 = trace Demo.world ++ evs
       /\ (checkIntegrity Demo.alarmed_engine Demo.global_path
             "Global state.vscdb" Demo.world).1 <> Ok true
       /\ forall cmd fp, ~ In (EvExec cmd fp integrity_check_sql) evs.
Proof.
  assert (Hv : quick_verdict Demo.alarmed_engine Demo.world Demo.global_path
               <> Some "ok") by (vm_compute; discriminate).
  split; [exact Hv|].
  destruct (quick_check_gates_integrity_check Demo.alarmed_engine Demo.world
              Demo.global_path "Global state.vscdb") as (evs & Ht & Hfail & _).
  exists evs. split; [exact Ht|]. exact (Hfail Hv).
Defined.


(** C7 as stated fails: one run that checks two databases runs the discovery
    of the engine twice. *)
Lemma discovery_is_repeated_within_one_run :
  let res := main Demo.engine ["--check-integrity"] Demo.world in
  res.1 = Ok tt
  /\ length (List.filter Demo.is_probe (trace res.2)) = 2%nat.
Proof. split; vm_compute; reflexivity. Qed.



Lemma vacuum_run_covers_every_database_witness :
  exists w',
    main Demo.engine ["--global"; "--threshold"; "0"] Demo.world = (Ok tt, w')
    /\ prune_events (trace w')
       = prune_events (trace Demo.world) ++ getAllStateVscdbPaths Demo.world.
Proof.
  destruct (vacuum_run_covers_every_database Demo.engine
              ["--global"; "--threshold"; "0"] Demo.world) as (_ & _ & Hrun).
  apply Hrun; reflexivity.
Defined.

(** With [--global] the run vacuums the project database too. *)
Example global_flag_vacuums_every_database :
  prune_events (trace (main Demo.engine ["--global"; "--threshold"; "0"]
                         Demo.world).2)
  = [ (Demo.project_path, "Workspace (project) state.vscdb");
      (Demo.global_path, "Global state.vscdb") ].
Proof. vm_compute. reflexivity. Qed.

Lemma built_text_holds_the_pattern_as_one_literal_witness :
  let pattern := "x' OR '1'='1" in
  likeLiteral pattern = "'" +:+ Js.escape_quotes pattern +:+ "'"
  /\ (forall a b, Js.escape_quotes (a +:+ String "'" b)
                  = Js.escape_quotes a +:+ "''" +:+ Js.escape_quotes b)
  /\ (forall rest, starts_with is_quote rest = false ->
                   read_literal (likeLiteral pattern +:+ rest) = Some (pattern, rest))
  /\ (forall w, exists evs,
        trace (deleteKeysAndVacuum Demo.engine Demo.global_path pattern
                 "ItemTable" None w).2 = trace w ++ evs
        /\ Forall (event_reads_with_literal "ItemTable" pattern) evs)
  /\ (forall w, exists evs,
        trace (countCategories Demo.engine Demo.global_path w).2 = trace w ++ evs
        /\ Forall event_reads_category evs).
Proof.
  apply (built_text_holds_the_pattern_as_one_literal Demo.engine Demo.global_path
           "x' OR '1'='1" "ItemTable" None).
  simpl. auto.
Defined.

(** A pattern that tries to close the literal is still one literal. *)
Example hostile_pattern_stays_a_literal :
  parse (delete_sql "ItemTable" (likeLiteral "x' OR '1'='1"))
  = Some (SDelete "ItemTable" "x' OR '1'='1").
Proof. reflexivity. Qed.

(** C1, on the code.  The pattern [a$x%] with a retention count of 1, on
    the machine whose table holds the keys [a$x1], [a$x2] and [a$x] (rowids
    1 to 3, the three matches) and [a9] (rowid 4).  The statement is written
    on the command line between double quotes, where the shell takes [$x]
    for a variable; none is set, so the engine is asked about [LIKE 'a%'].
    It counts four rows, keeps the one with the largest rowid, [a9], and
    deletes the three matches; the claim has one match left, [a$x], and two
    rows deleted. *)
Theorem dollar_pattern_keeps_no_match :
  let pattern := "a$x%" in
  let res := deleteKeysAndVacuum Demo.engine Demo.global_path pattern
               "cursorDiskKV" (Some 1%Z) Cases.dollar_world in
  map key (matching pattern Cases.dollar_rows) = ["a$x1"; "a$x2"; "a$x"]
  /\ received (env Cases.dollar_world)
       (Js.JSON_stringify (count_sql "cursorDiskKV" (likeLiteral pattern)))
     = "SELECT COUNT(*) FROM cursorDiskKV WHERE key LIKE 'a%';"
  /\ received (env Cases.dollar_world)
       (Js.JSON_stringify (delete_keep_sql "cursorDiskKV" (likeLiteral pattern) 1))
     = "DELETE FROM cursorDiskKV WHERE key LIKE 'a%' AND rowid NOT IN (SELECT rowid FROM cursorDiskKV WHERE key LIKE 'a%' ORDER BY rowid DESC LIMIT 1);"
  /\ res.1 = Ok tt
  /\ exists f', fs res.2 !! Demo.global_path = Some (NDb f')
                /\ map key <$> (tables f' !! "cursorDiskKV") = Some ["a9"].
Proof.
  repeat split; try (vm_compute; reflexivity).
  eexists. split; vm_compute; reflexivity.
Qed.

(** C5, on the code.  The pattern [a$x] without retention count, on the
    same machine, where one key is [a$x].  The shell takes [$x] away, the
    engine is asked about [LIKE 'a'] and counts no row, and the delete
    returns without a [DELETE]: the row that matches the pattern is still
    there. *)
Theorem dollar_pattern_deletes_nothing :
  let pattern := "a$x" in
  let res := deleteKeysAndVacuum Demo.engine Demo.global_path pattern
               "cursorDiskKV" None Cases.dollar_world in
  map key (matching pattern Cases.dollar_rows) = ["a$x"]
  /\ received (env Cases.dollar_world)
       (Js.JSON_stringify (count_sql "cursorDiskKV" (likeLiteral pattern)))
     = "SELECT COUNT(*) FROM cursorDiskKV WHERE key LIKE 'a';"
  /\ res.1 = Ok tt
  /\ fs res.2 = fs Cases.dollar_world
  /\ trace res.2
     = [EvProbe;
        EvExec "sqlite3" Demo.global_path
          "SELECT COUNT(*) FROM cursorDiskKV WHERE key LIKE 'a$x';"].
Proof.
  repeat split; vm_compute; reflexivity.
Qed.

(** C6, on the code.  The pattern [$x%] without retention count, on the
    same machine, where no key matches it.  The shell takes [$x] away, the
    engine is asked about [LIKE '%'], which every key matches, and all four
    rows are deleted: rows that do not match the pattern are gone. *)
Theorem dollar_pattern_deletes_rows_that_do_not_match :
  let pattern := "$x%" in
  let res := deleteKeysAndVacuum Demo.engine Demo.global_path pattern
               "cursorDiskKV" None Cases.dollar_world in
  matching pattern Cases.dollar_rows = []
  /\ received (env Cases.dollar_world)
       (Js.JSON_stringify (delete_sql "cursorDiskKV" (likeLiteral pattern)))
     = "DELETE FROM cursorDiskKV WHERE key LIKE '%';"
  /\ res.1 = Ok tt
  /\ exists f', fs res.2 !! Demo.global_path = Some (NDb f')
                /\ tables f' !! "cursorDiskKV" = Some [].
Proof.
  repeat split; try (vm_compute; reflexivity).
  eexists. split; vm_compute; reflexivity.
Qed.

(** C10, on the code.  The pattern [zzz$(printf \047) OR 1=1 --].  As the
    script builds it, the [DELETE] holds the pattern as one literal.  On
    the command line the shell runs the command between [$(] and [)] and
    puts what it prints, a single quote, in its place: in the text that
    the engine receives the literal is ['zzz'], closed by that quote, and
    [ OR 1=1 --] follows it as SQL. *)
Theorem command_in_pattern_closes_the_literal :
  let sql := delete_sql "ItemTable" (likeLiteral Cases.command_pattern) in
  let text := received (env Demo.world) (Js.JSON_stringify sql) in
  parse sql = Some (SDelete "ItemTable" Cases.command_pattern)
  /\ text = "DELETE FROM ItemTable WHERE key LIKE 'zzz' OR 1=1 --';"
  /\ (rest ← strip_prefix "DELETE FROM ItemTable WHERE key LIKE " text;
      read_literal rest) = Some ("zzz", " OR 1=1 --';")
  /\ parse text = None.
Proof. repeat split; vm_compute; reflexivity. Qed.

(** [_] stands for one character, of one byte or more: [e] with an acute
    accent is the two bytes [C3 A9]. *)
Example underscore_matches_one_character :
  let e_acute := String (ascii_of_nat 195) (String (ascii_of_nat 169) "") in
  like "caf_" ("caf" +:+ e_acute) = true
  /\ like "caf__" ("caf" +:+ e_acute) = false.
Proof. split; vm_compute; reflexivity. Qed.

(** A database that another process only reads can still be checked. *)
Example checkIntegrity_under_a_reader :
  (checkIntegrity Demo.engine Demo.global_path "Global state.vscdb"
     Cases.read_world).1 = Ok true.
Proof. vm_compute. reflexivity. Qed.

(** [--keep-last] with a no-break space before the number: [parseInt]
    skips it, as it skips a space. *)
Example keep_last_after_a_no_break_space :
  Args.keepLast
    (Args.parseArgs ["--keep-last";
                     String (ascii_of_nat 194) (String (ascii_of_nat 160) "7")])
  = Some 7%Z.
Proof. reflexivity. Qed.

End DemoClaims.

(* ===================================================================== *)
(** * Further properties of the script *)
(* ===================================================================== *)

(** ** The search for databases *)

Section Discovery.
Import Script.

Variable w : World.

Lemma getAllStateVscdbPaths_steps :
  getAllStateVscdbPaths w
  = (add_global w (scan_workspaces w (add_project w (∅, [])))).2.
Proof. reflexivity. Qed.

(** A property of [seen] and [out] kept by [add] is kept by each part of
    the search. *)
Lemma add_workspace_dir_invariant
    (P : gset string * list (string * string) -> Prop) (wsDir : string) :
  (forall fp label acc, P acc -> P (add w fp label acc)) ->
  forall acc, P acc -> P (add_workspace_dir w wsDir acc).
Proof.
  intros Hadd acc Hacc. unfold add_workspace_dir.
  destruct (negb (existsSync w wsDir)); [assumption|].
  destruct (readdirSync w wsDir) as [entries|]; [|assumption].
  apply fold_left_invariant; [|assumption].
  intros a id Ha. destruct (existsSync w _); [now apply Hadd | assumption].
Qed.

Lemma search_invariant (P : gset string * list (string * string) -> Prop) :
  (forall fp label acc, P acc -> P (add w fp label acc)) ->
  (forall acc, P acc -> P (add_project w acc))
  /\ (forall acc, P acc -> P (scan_workspaces w acc))
  /\ (forall acc, P acc -> P (add_global w acc)).
Proof.
  intros Hadd. repeat split; intros acc Hacc.
  - unfold add_project. destruct (getWorkspaceStatePath w); auto.
  - unfold scan_workspaces. apply fold_left_invariant; [|assumption].
    intros a wsDir Ha. now apply add_workspace_dir_invariant.
  - unfold add_global. destruct (getGlobalStatePath w); auto.
Qed.

Lemma add_new (fp label : string) (acc : gset string * list (string * string)) :
  existsSync w fp = true -> fp ∉ acc.1 ->
  add w fp label acc = ({[fp]} ∪ acc.1, acc.2 ++ [(fp, label)]).
Proof.
  intros Hx Hn. unfold add. destruct acc as [seen out]. simpl in *.
  rewrite Hx. now rewrite bool_decide_eq_false_2.
Qed.

Lemma add_old (fp label : string) (acc : gset string * list (string * string)) :
  existsSync w fp = false \/ fp ∈ acc.1 -> add w fp label acc = acc.
Proof.
  intros H. unfold add. destruct acc as [seen out]. simpl in *.
  destruct H as [-> | H]; [reflexivity|].
  rewrite (bool_decide_eq_true_2 _ H). now rewrite orb_true_r.
Qed.

Lemma add_cases (fp label : string) (acc : gset string * list (string * string)) :
  add w fp label acc = acc
  \/ (existsSync w fp = true /\ (fp ∉ fst acc)
      /\ add w fp label acc = ({[fp]} ∪ fst acc, snd acc ++ [(fp, label)])).
Proof.
  destruct (existsSync w fp) eqn:Hx; [|left; apply add_old; now left].
  destruct (decide (fp ∈ acc.1)) as [Hin|Hn]; [left; apply add_old; now right|].
  right. repeat split; try assumption. now apply add_new.
Qed.

Lemma add_seen_listed (fp label : string) acc :
  seen_listed acc -> seen_listed (add w fp label acc).
Proof.
  intros [Hnd Hs].
  destruct (add_cases fp label acc) as [-> | (_ & Hn & ->)]; [now split|].
  unfold seen_listed, listed in *. simpl. rewrite map_app. simpl. split.
  - apply NoDup_app. split; [assumption|]. split; [|apply NoDup_singleton].
    intros x Hx Hfp. apply list_elem_of_singleton in Hfp as ->.
    apply Hn, Hs. now apply list_elem_of_In.
  - intros p. rewrite elem_of_union, elem_of_singleton, in_app_iff, Hs.
    simpl. intuition.
Qed.

Lemma add_keeps (p fp label : string) acc :
  In p (listed acc) -> In p (listed (add w fp label acc)).
Proof.
  intros Hp. destruct (add_cases fp label acc) as [-> | (_ & _ & ->)]; [assumption|].
  unfold listed in *. simpl. rewrite map_app. apply in_or_app. now left.
Qed.

Lemma add_lists (fp label : string) acc :
  seen_listed acc -> existsSync w fp = true ->
  In fp (listed (add w fp label acc)).
Proof.
  intros [_ Hs] Hx.
  destruct (add_cases fp label acc) as [E | (_ & _ & ->)].
  - rewrite E. apply Hs. destruct (decide (fp ∈ acc.1)) as [|Hn]; [assumption|].
    rewrite (add_new fp label acc Hx Hn) in E.
    apply (f_equal (fun a => length (snd a))) in E. simpl in E.
    rewrite length_app in E. simpl in E. lia.
  - unfold listed. simpl. rewrite map_app. apply in_or_app. right. now left.
Qed.

Lemma add_head (x : string * string) (fp label : string) acc :
  head acc.2 = Some x -> head (add w fp label acc).2 = Some x.
Proof.
  intros Hh. destruct (add_cases fp label acc) as [-> | (_ & _ & ->)]; [assumption|].
  simpl. destruct acc.2; [discriminate | exact Hh].
Qed.

Lemma fold_left_reaches {A B} (S H : A -> Prop) (f : A -> B -> A)
    (l : list B) (b : B) :
  (forall a b', S a -> S (f a b')) ->
  (forall a b', H a -> H (f a b')) ->
  (forall a, S a -> H (f a b)) ->
  In b l -> forall a, S a -> H (fold_left f l a).
Proof.
  intros HS HH Hb. induction l as [|x l IH]; intros Hin a Ha; [contradiction|].
  simpl. destruct Hin as [-> | Hin].
  - apply fold_left_invariant; [exact HH | now apply Hb].
  - apply IH; [assumption | now apply HS].
Qed.

Lemma seen_listed_start : seen_listed (∅, []).
Proof.
  split; [constructor|]. intros p. unfold listed. simpl. split; [|contradiction].
  intros H. now apply not_elem_of_empty in H.
Qed.

Lemma getGlobalStatePath_exists (g : string) :
  getGlobalStatePath w = Some g -> existsSync w g = true.
Proof. unfold getGlobalStatePath. intros H. now apply find_some in H. Qed.

Lemma getWorkspaceStatePath_exists (p : string) :
  getWorkspaceStatePath w = Some p -> existsSync w p = true.
Proof. unfold getWorkspaceStatePath. intros H. now apply find_some in H. Qed.

Lemma getAllStateVscdbPaths_lists_global (g : string) :
  getGlobalStatePath w = Some g -> In g (map fst (getAllStateVscdbPaths w)).
Proof.
  intros Hg. rewrite getAllStateVscdbPaths_steps.
  destruct (search_invariant seen_listed) as (Sp & Ss & _);
    [intros; now apply add_seen_listed|].
  unfold add_global. rewrite Hg.
  apply add_lists; [|now apply getGlobalStatePath_exists].
  apply Ss, Sp, seen_listed_start.
Qed.

Lemma add_all_app (l1 l2 : list (string * string)) acc :
  add_all w (l1 ++ l2) acc = add_all w l2 (add_all w l1 acc).
Proof. apply fold_left_app. Qed.

Lemma add_all_first_found (l : list (string * string)) :
  forall seen out, (add_all w l (seen, out)).2 = out ++ first_found w seen l.
Proof.
  induction l as [|[fp label] l IH]; intros seen out; simpl.
  - now rewrite app_nil_r.
  - unfold add_all in *. simpl.
    destruct (negb (existsSync w fp) || bool_decide (fp ∈ seen)); [apply IH|].
    rewrite IH. now rewrite <- app_assoc.
Qed.

Lemma add_if_exists (fp label : string) acc :
  (if existsSync w fp then add w fp label acc else acc) = add w fp label acc.
Proof.
  destruct (existsSync w fp) eqn:Hx; [reflexivity|].
  symmetry. apply add_old. now left.
Qed.

Lemma add_workspace_dir_add_all (wsDir : string) acc :
  add_workspace_dir w wsDir acc = add_all w (workspace_candidates w wsDir) acc.
Proof.
  unfold add_workspace_dir, workspace_candidates.
  destruct (negb (existsSync w wsDir)); [reflexivity|].
  destruct (readdirSync w wsDir) as [entries|]; [|reflexivity].
  unfold add_all. generalize (List.filter snd entries). intros ids. revert acc.
  induction ids as [|id ids IH]; intros acc; [reflexivity|].
  simpl. rewrite add_if_exists. apply IH.
Qed.

Lemma scan_workspaces_add_all acc :
  scan_workspaces w acc = add_all w (flat_map (workspace_candidates w) (wsDirs w)) acc.
Proof.
  unfold scan_workspaces. generalize (wsDirs w). intros dirs. revert acc.
  induction dirs as [|d dirs IH]; intros acc; [reflexivity|].
  simpl. rewrite add_all_app, <- add_workspace_dir_add_all. apply IH.
Qed.

Lemma getAllStateVscdbPaths_first_found :
  getAllStateVscdbPaths w = first_found w ∅ (candidates w).
Proof.
  rewrite getAllStateVscdbPaths_steps.
  rewrite <- (app_nil_l (first_found w ∅ (candidates w))).
  rewrite <- add_all_first_found.
  unfold candidates. rewrite !add_all_app, <- scan_workspaces_add_all.
  unfold add_global, add_project.
  destruct (getWorkspaceStatePath w), (getGlobalStatePath w); reflexivity.
Qed.

(** X1.  [getAllStateVscdbPaths] lists no path twice, every path that it
    lists exists, and a database that is reached twice (as the project's
    and through [workspaceStorage], say) is listed under the label it was
    first found with: the list is the list of the candidates in the order
    of the search (the project database, the databases of the workspaces,
    the global database), each with its label, without those whose path
    does not exist and without a path that came before. *)
Theorem discovery_lists_each_database_once :
  NoDup (map fst (getAllStateVscdbPaths w))
  /\ Forall (fun entry => existsSync w entry.1 = true) (getAllStateVscdbPaths w)
  /\ getAllStateVscdbPaths w = first_found w ∅ (candidates w).
Proof.
  split; [|split; [apply getAllStateVscdbPaths_exist
                  | apply getAllStateVscdbPaths_first_found]].
  rewrite getAllStateVscdbPaths_steps.
  destruct (search_invariant seen_listed) as (Hp & Hs & Hg);
    [intros; now apply add_seen_listed|].
  apply Hg, Hs, Hp, seen_listed_start.
Qed.

(** X2.  The search leaves no source out: the project database, when there
    is one, comes first; the database of every directory of a readable
    [workspaceStorage] directory is listed; and so is the global database,
    when there is one. *)
Theorem discovery_covers_project_workspaces_and_global :
  (forall p, getWorkspaceStatePath w = Some p ->
     head (getAllStateVscdbPaths w) = Some (p, "Workspace (project) state.vscdb"))
  /\ (forall wsDir entries name,
        In wsDir (wsDirs w) ->
        readdirSync w wsDir = Some entries ->
        In (name, true) entries ->
        existsSync w (join w [wsDir; name; "state.vscdb"]) = true ->
        In (join w [wsDir; name; "state.vscdb"])
           (map fst (getAllStateVscdbPaths w)))
  /\ (forall g, getGlobalStatePath w = Some g ->
        In g (map fst (getAllStateVscdbPaths w))).
Proof.
  rewrite getAllStateVscdbPaths_steps.
  destruct (search_invariant seen_listed) as (Sp & Ss & Sg);
    [intros; now apply add_seen_listed|].
  pose proof seen_listed_start as S0.
  split; [|split].
  - intros p Hp.
    destruct (search_invariant (fun acc =>
                head acc.2 = Some (p, "Workspace (project) state.vscdb")))
      as (_ & Hs & Hg); [intros; now apply add_head|].
    apply Hg, Hs. unfold add_project. rewrite Hp.
    rewrite add_new; [reflexivity | now apply getWorkspaceStatePath_exists|].
    apply not_elem_of_empty.
  - intros wsDir entries name Hdir Hread Hent Hx.
    destruct (search_invariant (fun acc =>
                In (join w [wsDir; name; "state.vscdb"]) (listed acc)))
      as (_ & _ & Hg); [intros; now apply add_keeps|].
    apply Hg. unfold scan_workspaces.
    apply (fold_left_reaches seen_listed
             (fun acc => In (join w [wsDir; name; "state.vscdb"]) (listed acc))
             _ _ wsDir); try assumption.
    + intros a d Ha. now apply add_workspace_dir_invariant;
        [intros; apply add_seen_listed|].
    + intros a d Ha. now apply add_workspace_dir_invariant;
        [intros; apply add_keeps|].
    + intros a Ha. unfold add_workspace_dir.
      assert (Hd : existsSync w wsDir = true).
      { unfold existsSync. unfold readdirSync in Hread.
        now destruct (fs w !! wsDir). }
      rewrite Hd, Hread. cbn [negb].
      apply (fold_left_reaches seen_listed
               (fun acc => In (join w [wsDir; name; "state.vscdb"]) (listed acc))
               _ _ (name, true)); try assumption.
      * intros a' id Ha'.
        destruct (existsSync w (join w [wsDir; fst id; "state.vscdb"]));
          [now apply add_seen_listed | assumption].
      * intros a' id Ha'.
        destruct (existsSync w (join w [wsDir; fst id; "state.vscdb"]));
          [now apply add_keeps | assumption].
      * intros a' Ha'. cbn [fst]. rewrite Hx. now apply add_lists.
      * apply filter_In. now split.
    + now apply Sp.
  - intros g Hg. rewrite <- getAllStateVscdbPaths_steps.
    now apply getAllStateVscdbPaths_lists_global.
Qed.

End Discovery.

(** ** Arguments that are no flags *)

Section UnknownArguments.
Import Args.

Lemma not_a_flag (arg : string) :
  Js.includes FLAGS arg = false ->
  (forall o, plain_flag arg o = None) /\ (forall v o, valued_flag arg v o = None).
Proof.
  unfold Js.includes, FLAGS. cbn [existsb]. intros H.
  repeat (apply orb_false_iff in H as [? H]).
  rewrite !(String.eqb_sym arg) in *.
  split; intros; unfold plain_flag, valued_flag;
    repeat match goal with
           | E : String.eqb ?a ?b = false |- context [String.eqb ?b ?a] =>
               rewrite (String.eqb_sym b a), E
           end; reflexivity.
Qed.

(** X3.  Arguments that are none of the ten flags are passed over without
    an error and without effect: a command line that starts with such
    arguments is read as if they were not there.  (A misspelt flag and the
    value after it are both passed over.) *)
Theorem unknown_arguments_are_ignored (junk args : list string) :
  Forall (fun a => Js.includes FLAGS a = false) junk ->
  parseArgs (junk ++ args) = parseArgs args.
Proof.
  unfold parseArgs. generalize default_options.
  induction junk as [|a junk IH]; intros o Hj; [reflexivity|].
  apply Forall_cons in Hj as [Ha Hj]. destruct (not_a_flag a Ha) as [Hp Hv].
  specialize (IH o Hj). simpl. rewrite Hp.
  destruct (junk ++ args) as [|v rest]; [exact IH|].
  now rewrite Hv.
Qed.

End UnknownArguments.

(** ** The four kinds of run *)

Section RunsPreserve.
Import Script.

Context (R : relation World) `{!PreOrder R}.
Variable eng : Sql.Engine.
Variable ok : Event -> Prop.
Hypothesis R_log : forall e, ok e -> preserves R (log e).
Hypothesis R_spawn :
  forall stdio cmd filePath sql,
    ok (EvExec cmd filePath sql) ->
    preserves R (spawn eng stdio cmd filePath (Js.JSON_stringify sql)).

Lemma main_runs (args : list string) :
  main eng args
  = let options := Args.parseArgs args in
    if Args.countCategories options then count_run eng
    else if Args.checkIntegrity options
         then check_run eng (Args.globalOnlyIntegrity options)
    else if Args.analyze options then analyze_run eng options
    else vacuum_run eng options.
Proof. reflexivity. Qed.




End RunsPreserve.

(** ** What the runs write *)

Section Writes.
Import Script Sql.

Variable eng : Engine.

#[export] Instance unchanged_preorder : PreOrder unchanged.
Proof.
  split.
  - intros w. now split.
  - intros w1 w2 w3 [E1 F1] [E2 F2]. split; congruence.
Qed.






#[export] Instance same_data_preorder : PreOrder same_data.
Proof.
  split.
  - intros w. split; [reflexivity|]. intros p. unfold same_node.
    destruct (fs w !! p) as [[f| |]|]; try reflexivity. now split.
  - intros w1 w2 w3 [E1 H1] [E2 H2]. split; [congruence|]. intros p.
    specialize (H1 p). specialize (H2 p). unfold same_node in *.
    destruct (fs w1 !! p) as [[f1| |]|];
      destruct (fs w2 !! p) as [[f2| |]|]; try discriminate;
      destruct (fs w3 !! p) as [[f3| |]|]; try discriminate; try assumption;
      try (inversion H1; subst; assumption).
    destruct H1 as [L1 T1], H2 as [L2 T2]. split; [congruence|].
    intros t. now rewrite T2.
Qed.






End Writes.

(** ** The edges of a prune *)

Section PruneEdges.
Import Script Sql.

Variable eng : Engine.

Lemma find_ext {A} (P Q : A -> bool) (l : list A) :
  (forall x, P x = Q x) -> find P l = find Q l.
Proof.
  intros H. induction l as [|x l IH]; simpl; [reflexivity|].
  now rewrite H, IH.
Qed.

(** Where the engine is found depends on the environment and on which
    paths exist, and on nothing else. *)
Lemma located_same (w w' : World) :
  env w' = env w -> (forall p, existsSync w' p = existsSync w p) ->
  located w' = located w.
Proof.
  intros He Hx. unfold located, winPaths, join. rewrite He.
  destruct (sqlite3_on_path (env w)); [reflexivity|].
  now apply find_ext.
Qed.

Lemma deleteKeysAndVacuum_located w cmd filePath pattern table keepLast :
  located w = Some cmd ->
  deleteKeysAndVacuum eng filePath pattern table keepLast w
  = delete_with eng filePath pattern table keepLast cmd (log_event EvProbe w).
Proof.
  intros Hloc. rewrite deleteKeysAndVacuum_unfold.
  apply run_bind. rewrite getSqlite3Command_run. now rewrite Hloc.
Qed.

Lemma counted_world (w : World) (cmd filePath sql : string) (f : DbFile) :
  fs w !! filePath = Some (NDb f) ->
  let w' := write_db filePath f
              (log_event (EvExec cmd filePath sql) (log_event EvProbe w)) in
  fs w' = fs w /\ trace w' = trace w ++ [EvProbe; EvExec cmd filePath sql].
Proof.
  intros Hf. simpl. split; [now apply insert_id|]. now rewrite <- app_assoc.
Qed.






Lemma exec_count_fails (f : DbFile) (table pattern : string) :
  is_ident table = true ->
  short pattern = true ->
  (locked f = true /\ exclusive f = true) \/ tables f !! table = None ->
  exists msg,
    exec eng (count_sql table (likeLiteral pattern)) f = (Fail msg, f).
Proof.
  intros Ht Hs H. unfold exec. rewrite parse_count_sql by assumption.
  cbn [patterns forallb]. rewrite Hs. cbn [andb].
  unfold exec_stmt, refused. cbn [writing orb].
  destruct (locked f && exclusive f) eqn:Hl; [eauto|].
  destruct H as [[H1 H2]|H]; [rewrite H1, H2 in Hl; discriminate|].
  rewrite H. unfold no_such_table. eauto.
Qed.

(** X10.  When the count of the matches reaches the engine as the script
    built it (with a pattern of a length that the engine takes) and fails,
    because another process holds the database for itself alone or because
    the table is not in it, the delete stops there: [execSync] throws, with
    [Command failed: ], the command line and what the engine wrote on its
    standard error as the message; nothing is deleted, no [VACUUM] is run,
    and every file is what it was. *)
Theorem failed_count_deletes_nothing
    (w : World) (cmd filePath : string) (f : DbFile)
    (pattern table : string) (keepLast : option Z) :
  located w = Some cmd ->
  ready w cmd filePath f ->
  In table Args.ALLOWED_TABLES ->
  short pattern = true ->
  delivered w (count_sql table (likeLiteral pattern)) ->
  (locked f = true /\ exclusive f = true) \/ tables f !! table = None ->
  exists stderr w',
    deleteKeysAndVacuum eng filePath pattern table keepLast w
    = (Throw (ExecError
                (command_failed Pipe
                   (query_line cmd filePath (count_sql table (likeLiteral pattern)))
                   stderr)), w')
    /\ fs w' = fs w
    /\ trace w' = trace w
         ++ [EvProbe; EvExec cmd filePath (count_sql table (likeLiteral pattern))].
Proof.
  intros Hloc Hr Ht Hshort Hdel Hfail.
  rewrite (deleteKeysAndVacuum_located _ _ _ _ _ _ Hloc).
  apply (ready_log _ _ _ _ EvProbe) in Hr as Hr1.
  unfold delete_with.
  pose proof (runSqliteQuery_run eng _ cmd filePath f
                (count_sql table (likeLiteral pattern)) Hr1 Hdel) as Hc.
  destruct (exec_count_fails f table pattern (allowed_is_ident _ Ht) Hshort Hfail)
    as (msg & Hexec).
  rewrite Hexec in Hc. cbn [fst snd result_of] in Hc.
  rewrite (run_bind_throw _ _ _ _ _ Hc).
  destruct Hr as [_ Hf].
  destruct (counted_world w cmd filePath (count_sql table (likeLiteral pattern)) f Hf)
    as [Hfs Htr].
  exists msg. eexists. split; [reflexivity|]. now split.
Qed.

End PruneEdges.

(** ** Vacuuming one database *)

Section PruneDatabase.
Import Script Sql.

Variable eng : Engine.

Lemma lt_num_below (f : DbFile) (thresholdMb : option Z) :
  lt_num (mb_of_bytes (size f)) thresholdMb = below_threshold f thresholdMb.
Proof.
  unfold lt_num, below_threshold. destruct thresholdMb as [t|]; [|reflexivity].
  unfold mb_of_bytes.
  destruct (Qle_bool (inject_Z t) (Z.of_N (size f) # 2 ^ 20)) eqn:E; simpl.
  - symmetry. apply Z.ltb_ge. apply Qle_bool_iff in E.
    unfold Qle in E. simpl in E. lia.
  - symmetry. apply Z.ltb_lt.
    destruct (Z_lt_le_dec (Z.of_N (size f)) (t * 1048576)) as [|Hle]; [assumption|].
    assert (H : Qle_bool (inject_Z t) (Z.of_N (size f) # 2 ^ 20) = true).
    { apply Qle_bool_iff. unfold Qle. simpl. lia. }
    congruence.
Qed.

Lemma vacuumDatabase_located w cmd filePath :
  located w = Some cmd ->
  vacuumDatabase eng filePath None w
  = vacuumDatabase eng filePath (Some cmd) (log_event EvProbe w).
Proof.
  intros Hloc. unfold vacuumDatabase.
  rewrite (run_bind _ _ w (log_event EvProbe w) cmd)
    by (rewrite getSqlite3Command_run; now rewrite Hloc).
  now rewrite (run_bind (ret cmd) _ (log_event EvProbe w) (log_event EvProbe w) cmd).
Qed.

Lemma vacuumDatabase_not_located w filePath :
  located w = None ->
  vacuumDatabase eng filePath None w = (Throw EngineNotFound, log_event EvProbe w).
Proof.
  intros Hloc. unfold vacuumDatabase. apply run_bind_throw.
  rewrite getSqlite3Command_run. now rewrite Hloc.
Qed.



Lemma pruneDatabase_without_engine w filePath label thresholdMb :
  located w = None ->
  existsSync w filePath = true ->
  exists w',
    pruneDatabase eng filePath label thresholdMb w = (Ok false, w')
    /\ unchanged w w'
    /\ emits_only no_command w w'.
Proof.
  intros Hloc Hx. unfold pruneDatabase.
  rewrite (run_bind _ _ w (log_event (EvPrune filePath label) w) tt) by reflexivity.
  destruct (getFileSizeMb_exists (log_event (EvPrune filePath label) w) filePath Hx)
    as (sizeMb & Hsz).
  rewrite (run_bind _ _ _ _ _ Hsz).
  destruct (lt_num sizeMb thresholdMb).
  - eexists. split; [reflexivity|]. split; [now split|].
    exists [EvPrune filePath label]. split; [reflexivity | now repeat constructor].
  - eexists. split.
    { rewrite (run_try_throw _ _ _
                 (log_event EvProbe (log_event (EvPrune filePath label) w))
                 EngineNotFound); [reflexivity|].
      apply run_bind_throw. now apply vacuumDatabase_not_located. }
    split; [now split|].
    exists [EvPrune filePath label; EvProbe].
    split; [simpl; now rewrite <- app_assoc | now repeat constructor].
Qed.

Lemma located_unchanged (w w' : World) :
  unchanged w w' -> located w' = located w.
Proof.
  intros [He Hf]. apply located_same; [assumption|].
  intros p. unfold existsSync. now rewrite Hf.
Qed.

Lemma prune_all_without_engine (thresholdMb : option Z) (all : list (string * string)) :
  forall w,
    located w = None ->
    Forall (fun entry => existsSync w entry.1 = true) all ->
    exists w',
      for_each all (prune_one eng thresholdMb) w = (Ok tt, w')
      /\ unchanged w w'
      /\ emits_only no_command w w'.
Proof.
  induction all as [|[fp label] all IH]; intros w Hloc Hall.
  - exists w. split; [reflexivity|]. split; reflexivity.
  - apply Forall_cons in Hall as [Hx Hall]. simpl in Hx.
    destruct (getFileSizeMb_exists w fp Hx) as (sizeMb & Hsz).
    destruct (pruneDatabase_without_engine w fp label thresholdMb Hloc Hx)
      as (w1 & Hp & U1 & T1).
    assert (Hbody : prune_one eng thresholdMb (fp, label) w = (Ok tt, w1)).
    { unfold prune_one. now rewrite (run_bind _ _ _ _ _ Hsz), (run_bind _ _ _ _ _ Hp). }
    destruct (IH w1) as (w' & Hrun & U & T).
    { rewrite <- Hloc. now apply located_unchanged. }
    { eapply Forall_impl; [exact Hall|]. intros entry He.
      unfold existsSync in *. destruct U1 as [_ ->]. exact He. }
    exists w'. split.
    { simpl. now rewrite (run_bind _ _ _ _ _ Hbody). }
    split; etransitivity; eassumption.
Qed.

(** X12.  Without the engine (no [sqlite3] for the shell, none of the known
    installation paths), a run that vacuums still returns normally: for
    every database found it enters [pruneDatabase], which passes the file
    over or fails to locate the engine and reports the file as not pruned.
    No command but the search for the engine is run, and no file is
    changed. *)
Theorem vacuum_run_without_the_engine_returns_normally
    (args : list string) (w : World) :
  located w = None ->
  Args.countCategories (Args.parseArgs args) = false ->
  Args.checkIntegrity (Args.parseArgs args) = false ->
  Args.analyze (Args.parseArgs args) = false ->
  exists w',
    main eng args w = (Ok tt, w')
    /\ fs w' = fs w
    /\ prune_events (trace w') = prune_events (trace w) ++ getAllStateVscdbPaths w
    /\ exists evs, trace w' = trace w ++ evs /\ Forall no_command evs.
Proof.
  intros Hloc Hcc Hci Han.
  rewrite main_runs. cbv zeta. rewrite Hcc, Hci, Han.
  unfold vacuum_run. rewrite (parseArgs_workspace args).
  cbn [negb]. rewrite andb_false_r.
  destruct (prune_all_without_engine (Args.thresholdMb (Args.parseArgs args))
              (getAllStateVscdbPaths w) w Hloc (getAllStateVscdbPaths_exist w))
    as (w' & Hrun & [_ Hfs] & Htr).
  destruct (prune_all_run eng (Args.thresholdMb (Args.parseArgs args))
              (getAllStateVscdbPaths w) w (getAllStateVscdbPaths_exist w))
    as (w'' & Hrun' & _ & _ & Hev).
  assert (w'' = w') by congruence. subst w''.
  exists w'. split; [|now repeat split].
  erewrite run_bind; [reflexivity|].
  erewrite run_bind by reflexivity. exact Hrun.
Qed.

End PruneDatabase.

(** ** Checking a database *)

Section CheckIntegrity.
Import Script Sql.

Variable eng : Engine.





End CheckIntegrity.

(** ** Runs over several databases or categories *)

Section Batches.
Import Script Sql.

Variable eng : Engine.









(** X16.  Without the engine, every run but the one that vacuums fails as
    soon as it has a database to work on: a run with [--count-categories],
    [--check-integrity] or [--analyze], on a machine with a global
    database, ends with the error that [sqlite3] was not found, after the
    one search for it and without touching a file. *)
Theorem other_runs_fail_without_the_engine
    (args : list string) (w : World) (g : string) :
  located w = None ->
  getGlobalStatePath w = Some g ->
  Args.countCategories (Args.parseArgs args) = true
  \/ Args.checkIntegrity (Args.parseArgs args) = true
  \/ Args.analyze (Args.parseArgs args) = true ->
  main eng args w = (Throw EngineNotFound, log_event EvProbe w).
Proof.
  intros Hloc Hg Hmode.
  assert (Hgs : forall B (k : string -> M B),
            bind getSqlite3Command k w = (Throw EngineNotFound, log_event EvProbe w)).
  { intros. apply run_bind_throw. rewrite getSqlite3Command_run.
    now rewrite Hloc. }
  rewrite main_runs. cbv zeta.
  destruct (Args.countCategories (Args.parseArgs args)).
  { unfold count_run. rewrite (run_bind _ _ w w (Some g)) by (now rewrite <- Hg).
    rewrite countCategories_unfold. apply Hgs. }
  destruct (Args.checkIntegrity (Args.parseArgs args)).
  { unfold check_run. destruct (Args.globalOnlyIntegrity (Args.parseArgs args)).
    - rewrite (run_bind _ _ w w (Some g)) by (now rewrite <- Hg).
      apply run_bind_throw. rewrite checkIntegrity_unfold. apply Hgs.
    - rewrite (run_bind _ _ w w (getAllStateVscdbPaths w)) by reflexivity.
      pose proof (getAllStateVscdbPaths_lists_global w g Hg) as Hin.
      destruct (getAllStateVscdbPaths w) as [|[fp label] all]; [contradiction|].
      simpl. apply run_bind_throw. apply run_bind_throw.
      rewrite checkIntegrity_unfold. apply Hgs. }
  destruct Hmode as [H | [H | ->]]; try discriminate.
  unfold analyze_run. rewrite (run_bind _ _ w w (Some g)) by (now rewrite <- Hg).
  apply run_bind_throw. unfold analyzeGlobalStateVscdb. apply Hgs.
Qed.

End Batches.

(** ** The menu and the script *)

Section MenuRuns.
Import Script Sql Menu.

Variable eng : Engine.

Lemma argList_options (Workspace Global : bool) :
  let options := Args.parseArgs (argList Workspace Global) in
  Args.countCategories options = false
  /\ Args.checkIntegrity options = false
  /\ Args.analyze options = false
  /\ Args.workspace options = true
  /\ Args.thresholdMb options = Some 0%Z.
Proof. destruct Workspace, Global; vm_compute; auto. Qed.

Lemma vacuum_run_all (options : Args.PruneOptions) (w : World) :
  Args.workspace options = true ->
  vacuum_run eng options w
  = for_each (getAllStateVscdbPaths w)
      (prune_one eng (Args.thresholdMb options)) w.
Proof.
  intros Hws. unfold vacuum_run. rewrite Hws. cbn [negb]. rewrite andb_false_r.
  unfold bind at 1.
  rewrite (run_bind _ _ w w (getAllStateVscdbPaths w)) by reflexivity.
  change (for_each (getAllStateVscdbPaths w) _ w)
    with (for_each (getAllStateVscdbPaths w)
            (prune_one eng (Args.thresholdMb options)) w).
  now destruct (for_each _ _ w) as [[[]|e] w'].
Qed.

(** X17.  The two switches of [Invoke-PruneStateVscdb] make no difference:
    choice 2 of the menu (the workspace database) and choice 3 (the global
    database) run the script to the same effect, which is that of
    [--threshold 0] alone: every database found is vacuumed. *)
Theorem menu_choices_2_and_3_do_the_same (Workspace Global : bool) (w : World) :
  Invoke_PruneStateVscdb eng Workspace Global w
  = main eng ["--threshold"; "0"] w
  /\ Invoke_PruneStateVscdb eng true false w
     = Invoke_PruneStateVscdb eng false true w.
Proof.
  assert (H : forall ws gl,
            Invoke_PruneStateVscdb eng ws gl w
            = for_each (getAllStateVscdbPaths w) (prune_one eng (Some 0%Z)) w).
  { intros ws gl. unfold Invoke_PruneStateVscdb. rewrite main_runs. cbv zeta.
    destruct (argList_options ws gl) as (-> & -> & -> & Hws & Hthr).
    rewrite (vacuum_run_all _ _ Hws). now rewrite Hthr. }
  split; [|now rewrite !H].
  rewrite H. symmetry. apply (H false false).
Qed.

Lemma lt_num_zero (bytes : N) : lt_num (mb_of_bytes bytes) (Some 0%Z) = false.
Proof.
  unfold lt_num, mb_of_bytes. apply negb_false_iff. apply Qle_bool_iff.
  unfold Qle. simpl. lia.
Qed.

Lemma try_catch_world {A B} (m : M A) (a b : B) (w : World) :
  (try_catch (run m in ret a) (fun _ => ret b) w).2 = (m w).2.
Proof. unfold try_catch, bind, ret. now destruct (m w) as [[x|e] w']. Qed.

Lemma vacuumDatabase_world (w : World) (cmd filePath : string) :
  existsSync w filePath = true ->
  (vacuumDatabase eng filePath (Some cmd) w).2
  = (execSync eng Inherit cmd filePath vacuum_sql
       (Js.JSON_stringify vacuum_sql) w).2.
Proof.
  intros Hx. unfold vacuumDatabase.
  rewrite (run_bind (ret cmd) _ w w cmd) by reflexivity.
  destruct (getFileSizeMb_exists w filePath Hx) as (sz & Hsz).
  rewrite (run_bind _ _ _ _ _ Hsz).
  rewrite vacuum_word.
  unfold bind, try_catch, throw, ret.
  destruct (execSync eng Inherit cmd filePath vacuum_sql
              (Js.JSON_stringify vacuum_sql) w) as [[text|e] w'];
    [|reflexivity].
  unfold getFileSizeMb. now destruct (fs w' !! filePath).
Qed.

(** With the threshold at 0, [pruneDatabase] hands every file to the
    engine, whatever its size. *)
Lemma pruneDatabase_at_zero (w : World) (cmd filePath label : string) :
  located w = Some cmd ->
  existsSync w filePath = true ->
  exists b w',
    pruneDatabase eng filePath label (Some 0%Z) w = (Ok b, w')
    /\ env w' = env w
    /\ (forall p, existsSync w' p = existsSync w p)
    /\ trace w' = trace w
         ++ [EvPrune filePath label; EvProbe; EvExec cmd filePath vacuum_sql].
Proof.
  intros Hloc Hx.
  destruct (pruneDatabase_step eng w filePath label (Some 0%Z) Hx)
    as (b & w' & Hrun & He & Hex & _).
  exists b, w'. repeat split; try assumption.
  change w' with (Ok b, w').2. rewrite <- Hrun. clear Hrun He Hex.
  unfold pruneDatabase.
  rewrite (run_bind _ _ w (log_event (EvPrune filePath label) w) tt) by reflexivity.
  set (w1 := log_event (EvPrune filePath label) w).
  assert (Hsz : exists bytes, getFileSizeMb filePath w1 = (Ok (mb_of_bytes bytes), w1)).
  { unfold getFileSizeMb, existsSync in *. change (fs w1) with (fs w).
    destruct (fs w !! filePath) as [n|]; [eauto | discriminate]. }
  destruct Hsz as (bytes & Hsz). rewrite (run_bind _ _ _ _ _ Hsz).
  rewrite lt_num_zero, try_catch_world.
  rewrite (vacuumDatabase_located eng w1 cmd filePath Hloc).
  rewrite vacuumDatabase_world by exact Hx.
  rewrite execSync_trace. simpl. now rewrite <- !app_assoc.
Qed.

Lemma prune_all_at_zero (cmd : string) (all : list (string * string)) :
  forall w,
    located w = Some cmd ->
    Forall (fun entry => existsSync w entry.1 = true) all ->
    exists w',
      for_each all (prune_one eng (Some 0%Z)) w = (Ok tt, w')
      /\ trace w' = trace w ++ vacuum_commands cmd all.
Proof.
  induction all as [|[fp label] all IH]; intros w Hloc Hall.
  - exists w. simpl. now rewrite app_nil_r.
  - apply Forall_cons in Hall as [Hx Hall]. simpl in Hx.
    destruct (getFileSizeMb_exists w fp Hx) as (sizeMb & Hsz).
    destruct (pruneDatabase_at_zero w cmd fp label Hloc Hx)
      as (b & w1 & Hp & E1 & X1 & T1).
    assert (Hbody : prune_one eng (Some 0%Z) (fp, label) w = (Ok tt, w1)).
    { unfold prune_one. rewrite (run_bind _ _ _ _ _ Hsz), (run_bind _ _ _ _ _ Hp).
      destruct b; [|reflexivity].
      destruct (getFileSizeMb_exists w1 fp) as (s1 & Hs1); [now rewrite X1|].
      now rewrite (run_bind _ _ _ _ _ Hs1). }
    destruct (IH w1) as (w' & Hrun & T).
    { rewrite <- Hloc. now apply located_same. }
    { eapply Forall_impl; [exact Hall|]. intros entry He. now rewrite X1. }
    exists w'. split.
    { simpl. now rewrite (run_bind _ _ _ _ _ Hbody). }
    rewrite T, T1. simpl. now rewrite <- !app_assoc.
Qed.

(** X18.  Choices 2 and 3 of the menu, with the engine at hand: the run
    returns, and for every database of the search, in its order and
    whatever the size of the file, it has entered [pruneDatabase], located
    the engine and handed it [VACUUM;] for that file; it has done nothing
    else. *)
Theorem menu_vacuums_every_database_whatever_its_size
    (Workspace Global : bool) (w : World) (cmd : string) :
  located w = Some cmd ->
  exists w',
    Invoke_PruneStateVscdb eng Workspace Global w = (Ok tt, w')
    /\ trace w' = trace w ++ vacuum_commands cmd (getAllStateVscdbPaths w).
Proof.
  intros Hloc. unfold Invoke_PruneStateVscdb. rewrite main_runs. cbv zeta.
  destruct (argList_options Workspace Global) as (-> & -> & -> & Hws & Hthr).
  rewrite (vacuum_run_all _ _ Hws), Hthr.
  apply prune_all_at_zero; [assumption | apply getAllStateVscdbPaths_exist].
Qed.

Lemma parseInt_show_int (n : nat) :
  Js.parseInt (Js.show_int (Z.of_nat n)) = Some (Z.of_nat n).
Proof.
  rewrite show_int_of_nat.
  pose proof (N_to_uint_not_nil (N.of_nat n)) as Hnil.
  assert (HZ : Z.of_uint (N.to_uint (N.of_nat n)) = Z.of_nat n).
  { unfold Z.of_uint. rewrite <- nat_N_Z. f_equal.
    apply DecimalN.Unsigned.of_to. }
  revert Hnil HZ. generalize (N.to_uint (N.of_nat n)). intros u Hnil HZ.
  unfold Js.parseInt.
  pose proof (trimStart_digits u "" Hnil) as Hts.
  rewrite append_nil_r in Hts. rewrite Hts.
  pose proof (read_digits_string_of_uint u "" eq_refl) as Hrd.
  rewrite append_nil_r in Hrd.
  destruct u; try contradiction; simpl NilEmpty.string_of_uint in *;
    cbv iota beta; rewrite Hrd; simpl fst; now rewrite <- HZ.
Qed.

Lemma parseArgs_delete_argList (table pattern : string) (keepLast : option Z) :
  In table Args.ALLOWED_TABLES ->
  (forall k, keepLast = Some k -> (0 < k)%Z) ->
  Args.parseArgs (delete_argList table pattern keepLast)
  = Args.set_keepLast keepLast
      (Args.set_deleteKeysPattern (Some pattern)
         (Args.set_deleteTable table
            (Args.set_analyze true Args.default_options))).
Proof.
  intros Ht Hk. unfold Args.parseArgs, delete_argList.
  set (o1 := Args.set_analyze true Args.default_options).
  set (o2 := Args.set_deleteTable table o1).
  set (o3 := Args.set_deleteKeysPattern (Some pattern) o2).
  assert (H2 : Args.valued_flag "--table" table o1 = Some o2).
  { change (Args.valued_flag "--table" table o1)
      with (Some (if Js.includes Args.ALLOWED_TABLES table
                  then Args.set_deleteTable table o1 else o1)).
    apply includes_In in Ht. now rewrite Ht. }
  assert (Hstart : forall rest,
            Args.parse_loop
              ("--analyze" :: "--table" :: table :: "--delete-keys" :: pattern :: rest)
              Args.default_options
            = Args.parse_loop rest o3).
  { intros rest.
    change (Args.parse_loop
              ("--analyze" :: "--table" :: table :: "--delete-keys" :: pattern :: rest)
              Args.default_options)
      with (match Args.valued_flag "--table" table o1 with
            | Some o' => Args.parse_loop ("--delete-keys" :: pattern :: rest) o'
            | None => Args.parse_loop (table :: "--delete-keys" :: pattern :: rest) o1
            end).
    rewrite H2. reflexivity. }
  cbn [app]. rewrite Hstart.
  destruct keepLast as [k|]; [|reflexivity].
  specialize (Hk k eq_refl).
  assert (Hp : Js.parseInt (Js.show_int k) = Some k).
  { rewrite <- (Z2Nat.id k) by lia. apply parseInt_show_int. }
  change (Args.parse_loop ["--keep-last"; Js.show_int k] o3)
    with (if Js.gt_zero (Js.parseInt (Js.show_int k))
          then Args.set_keepLast (Js.parseInt (Js.show_int k)) o3 else o3).
  rewrite Hp. simpl. apply Z.ltb_lt in Hk. now rewrite Hk.
Qed.

(** X19.  The delete of the menu reaches the script as it was chosen: for
    each of the five sub-options, the argument list makes [parseArgs] select
    the analysis with the delete, on the table and with the pattern of the
    sub-option, which are those of one of the script's five categories; and
    the retention count is the positive number that was typed, or none. *)
Theorem menu_delete_reaches_the_script_as_chosen
    (sub pattern : string) (keep : bool) (parsed : option Z) :
  sub_pattern sub = Some pattern ->
  let keepLast := keepLast_choice keep parsed in
  let options :=
    Args.parseArgs (delete_argList (sub_table sub) pattern keepLast) in
  Args.countCategories options = false
  /\ Args.checkIntegrity options = false
  /\ Args.analyze options = true
  /\ Args.deleteTable options = sub_table sub
  /\ truthy (Args.deleteKeysPattern options) = Some pattern
  /\ Args.keepLast options = keepLast
  /\ exists c, In c CATEGORIES
               /\ cat_table c = sub_table sub /\ cat_pattern c = pattern.
Proof.
  intros Hsub keepLast options.
  assert (Hkeep : forall k, keepLast = Some k -> (0 < k)%Z).
  { unfold keepLast, keepLast_choice. intros k. destruct keep; [|discriminate].
    destruct parsed as [z|]; [|discriminate].
    destruct (0 <? z)%Z eqn:Hz; [|discriminate].
    apply Z.ltb_lt in Hz. intros H. inversion H. now subst. }
  assert (Hcases : (sub = "1" /\ pattern = "bubbleId:%")
                   \/ (sub = "2" /\ pattern = "checkpointId:%")
                   \/ (sub = "3" /\ pattern = "composerData:%")
                   \/ (sub = "4" /\ pattern = "agentKv:blob:%")
                   \/ (sub = "5" /\ pattern = "cursor.composer%")).
  { unfold sub_pattern in Hsub.
    repeat match type of Hsub with
           | (if String.eqb ?a ?b then _ else _) = _ =>
               destruct (String.eqb_spec a b)
           end; try discriminate; inversion Hsub; subst; tauto. }
  assert (Ht : In (sub_table sub) Args.ALLOWED_TABLES).
  { unfold sub_table. destruct (String.eqb sub "5"); simpl; auto. }
  unfold options. rewrite (parseArgs_delete_argList _ _ _ Ht Hkeep).
  clear options Hkeep Ht. generalize keepLast. clear keepLast. intros keepLast.
  decompose [or and] Hcases; subst; repeat split; unfold CATEGORIES;
    first [ eexists; split; [left; reflexivity | split; reflexivity]
          | eexists; split; [right; left; reflexivity | split; reflexivity]
          | eexists; split; [do 2 right; left; reflexivity | split; reflexivity]
          | eexists; split; [do 3 right; left; reflexivity | split; reflexivity]
          | eexists; split; [do 4 right; left; reflexivity | split; reflexivity] ].
Qed.

End MenuRuns.

(** ** A vacuum that fails *)

Section VacuumFailure.
Import Script Sql.

Variable eng : Engine.

Lemma exec_vacuum_held (f : DbFile) :
  locked f = true -> exec eng vacuum_sql f = (Fail "database is locked", f).
Proof.
  intros Hl. unfold exec. change (parse vacuum_sql) with (Some SVacuum).
  unfold exec_stmt, refused. cbn [patterns forallb writing orb].
  now rewrite Hl.
Qed.

Lemma vacuumDatabase_held w cmd filePath f :
  ready w cmd filePath f ->
  locked f = true ->
  vacuumDatabase eng filePath (Some cmd) w
  = (Throw (VacuumError (vacuum_failure cmd filePath)),
     write_db filePath f (log_event (EvExec cmd filePath vacuum_sql) w)).
Proof.
  intros Hr Hl. unfold vacuumDatabase.
  rewrite (run_bind (ret cmd) _ w w cmd) by reflexivity.
  rewrite (run_bind _ _ _ _ _ (getFileSizeMb_run _ _ _ _ Hr)).
  pose proof (execSync_vacuum_run eng w cmd filePath f Hr) as He.
  rewrite exec_vacuum_held in He by assumption. cbn [fst snd result_of] in He.
  apply run_bind_throw.
  rewrite (run_try_throw _ _ _ _ _ (run_bind_throw _ _ _ _ _ He)).
  unfold throw, vacuum_failure, error_message, command_failed, query_line.
  rewrite <- vacuum_word. now rewrite !append_assoc.
Qed.

(** X20.  A [VACUUM] that the engine refuses, because another process
    holds the database: [execSync] throws, with [Command failed: ] and the
    command line as its message (the engine's own words went to the
    terminal); [vacuumDatabase] throws an error whose message is
    [Failed to run VACUUM: ], that message, and on a second line the advice
    to close Cursor / VS Code; [pruneDatabase] takes that as [false], the
    database not pruned, and the run goes on.  The file is what it was. *)
Theorem refused_vacuum_is_reported_as_not_pruned
    (w : World) (cmd filePath label : string) (f : DbFile) (thresholdMb : option Z) :
  located w = Some cmd ->
  ready w cmd filePath f ->
  locked f = true ->
  below_threshold f thresholdMb = false ->
  (exists w1,
     vacuumDatabase eng filePath (Some cmd) w
     = (Throw (VacuumError
                 ("Failed to run VACUUM: " +:+ "Command failed: "
                  +:+ command_line cmd filePath
                        (Js.dquote +:+ "VACUUM;" +:+ Js.dquote)
                  +:+ Js.newline
                  +:+ "Make sure Cursor/VS Code is closed before running this script.")),
        w1)
     /\ fs w1 = fs w)
  /\ exists w',
       pruneDatabase eng filePath label thresholdMb w = (Ok false, w')
       /\ fs w' = fs w
       /\ trace w' = trace w
            ++ [EvPrune filePath label; EvProbe; EvExec cmd filePath vacuum_sql].
Proof.
  intros Hloc Hr Hl Hthr. split.
  - rewrite (vacuumDatabase_held w cmd filePath f Hr Hl).
    eexists. split; [reflexivity|].
    simpl. apply insert_id. apply Hr.
  - unfold pruneDatabase.
    rewrite (run_bind _ _ w (log_event (EvPrune filePath label) w) tt) by reflexivity.
    apply (ready_log _ _ _ _ (EvPrune filePath label)) in Hr as Hr1.
    rewrite (run_bind _ _ _ _ _ (getFileSizeMb_run _ _ _ _ Hr1)).
    rewrite lt_num_below, Hthr.
    apply (ready_log _ _ _ _ EvProbe) in Hr1 as Hr2.
    pose proof (eq_trans
                  (vacuumDatabase_located eng
                     (log_event (EvPrune filePath label) w) cmd filePath Hloc)
                  (vacuumDatabase_held _ cmd filePath f Hr2 Hl)) as Hv.
    rewrite (run_try_throw _ _ _ _ _ (run_bind_throw _ _ _ _ _ Hv)).
    eexists. split; [reflexivity|]. split.
    + simpl. apply insert_id. apply Hr.
    + simpl. now rewrite <- !app_assoc.
Qed.

End VacuumFailure.

(** ** The properties on the sample installations *)

Section FurtherCases.
Import Script Sql Menu.

Lemma discovery_covers_project_workspaces_and_global_witness :
  head (getAllStateVscdbPaths Cases.windows_world)
  = Some (Cases.windows_project_path, "Workspace (project) state.vscdb")
  /\ In Cases.windows_workspace_path
        (map fst (getAllStateVscdbPaths Cases.windows_world))
  /\ In Cases.windows_global_path
        (map fst (getAllStateVscdbPaths Cases.windows_world)).
Proof.
  destruct (discovery_covers_project_workspaces_and_global Cases.windows_world)
    as (Hp & Hw & Hg).
  split; [apply Hp; reflexivity|]. split.
  - apply (Hw Cases.storage Cases.storage_entries "1a2b").
    + left. reflexivity.
    + reflexivity.
    + left. reflexivity.
    + reflexivity.
  - apply Hg. reflexivity.
Defined.

(** The search on the Windows machine: the project, the one workspace that
    has a database, the global database. *)
Example discovery_on_windows :
  map fst (getAllStateVscdbPaths Cases.windows_world)
  = [ Cases.windows_project_path; Cases.windows_workspace_path;
      Cases.windows_global_path ].
Proof. vm_compute. reflexivity. Qed.

Lemma unknown_arguments_are_ignored_witness :
  Args.parseArgs (["--treshold"; "10"] ++ ["--global"; "--threshold"; "20"])
  = Args.parseArgs ["--global"; "--threshold"; "20"].
Proof.
  apply (unknown_arguments_are_ignored ["--treshold"; "10"]
           ["--global"; "--threshold"; "20"]).
  repeat constructor.
Defined.





Lemma failed_count_deletes_nothing_witness :
  exists stderr w',
    deleteKeysAndVacuum Demo.engine Demo.project_path "bubbleId:%" "cursorDiskKV"
      None Demo.world
    = (Throw (ExecError
                (command_failed Pipe
                   (query_line "sqlite3" Demo.project_path
                      (count_sql "cursorDiskKV" (likeLiteral "bubbleId:%")))
                   stderr)), w')
    /\ fs w' = fs Demo.world
    /\ trace w' = trace Demo.world
         ++ [EvProbe;
             EvExec "sqlite3" Demo.project_path
               (count_sql "cursorDiskKV" (likeLiteral "bubbleId:%"))].
Proof.
  apply (failed_count_deletes_nothing Demo.engine Demo.world "sqlite3"
           Demo.project_path Demo.project_db "bubbleId:%" "cursorDiskKV" None).
  - reflexivity.
  - split; vm_compute; reflexivity.
  - simpl. auto.
  - reflexivity.
  - vm_compute. reflexivity.
  - right. vm_compute. reflexivity.
Defined.


Lemma vacuum_run_without_the_engine_returns_normally_witness :
  exists w',
    main Demo.engine ["--threshold"; "0"] Cases.bare_world = (Ok tt, w')
    /\ fs w' = fs Cases.bare_world
    /\ prune_events (trace w')
       = prune_events (trace Cases.bare_world)
         ++ getAllStateVscdbPaths Cases.bare_world
    /\ exists evs, trace w' = trace Cases.bare_world ++ evs
                   /\ Forall no_command evs.
Proof.
  apply (vacuum_run_without_the_engine_returns_normally Demo.engine
           ["--threshold"; "0"] Cases.bare_world); reflexivity.
Defined.




(** On the project database, which has no table [cursorDiskKV], the four
    counts on that table fail and the fifth category is still counted. *)
Example countCategories_goes_on_after_a_failure :
  trace (countCategories Demo.engine Demo.project_path Demo.world).2
  = [ EvProbe;
      EvExec "sqlite3" Demo.project_path
        "SELECT COUNT(*) FROM cursorDiskKV WHERE key LIKE 'bubbleId:%';";
      EvExec "sqlite3" Demo.project_path
        "SELECT COUNT(*) FROM cursorDiskKV WHERE key LIKE 'checkpointId:%';";
      EvExec "sqlite3" Demo.project_path
        "SELECT COUNT(*) FROM cursorDiskKV WHERE key LIKE 'composerData:%';";
      EvExec "sqlite3" Demo.project_path
        "SELECT COUNT(*) FROM cursorDiskKV WHERE key LIKE 'agentKv:blob:%';";
      EvExec "sqlite3" Demo.project_path
        "SELECT COUNT(*) FROM ItemTable WHERE key LIKE 'cursor.composer%';";
      EvExec "sqlite3" Demo.project_path
        "SELECT COALESCE(SUM(LENGTH(value)), 0) FROM ItemTable WHERE key LIKE 'cursor.composer%';" ].
Proof. vm_compute. reflexivity. Qed.

Lemma other_runs_fail_without_the_engine_witness :
  main Demo.engine ["--analyze"; "--delete-keys"; "bubbleId:%"] Cases.bare_world
  = (Throw EngineNotFound, log_event EvProbe Cases.bare_world).
Proof.
  apply (other_runs_fail_without_the_engine Demo.engine
           ["--analyze"; "--delete-keys"; "bubbleId:%"] Cases.bare_world
           Demo.global_path).
  - reflexivity.
  - reflexivity.
  - right. right. reflexivity.
Defined.

Lemma menu_vacuums_every_database_whatever_its_size_witness :
  exists w',
    Invoke_PruneStateVscdb Demo.engine false true Cases.windows_world = (Ok tt, w')
    /\ trace w' = trace Cases.windows_world
         ++ vacuum_commands Cases.engine_path
              (getAllStateVscdbPaths Cases.windows_world).
Proof.
  apply (menu_vacuums_every_database_whatever_its_size Demo.engine false true
           Cases.windows_world Cases.engine_path).
  reflexivity.
Defined.

(** Choice 3 of the menu, "prune global state.vscdb only", on the Windows
    machine: the project database and the workspace database are vacuumed
    as well, small as they are. *)
Example menu_choice_3_vacuums_all_three :
  prune_events
    (trace (Invoke_PruneStateVscdb Demo.engine false true Cases.windows_world).2)
  = [ (Cases.windows_project_path, "Workspace (project) state.vscdb");
      (Cases.windows_workspace_path, "WorkspaceStorage/1a2b state.vscdb");
      (Cases.windows_global_path, "Global state.vscdb") ].
Proof. vm_compute. reflexivity. Qed.

Lemma menu_delete_reaches_the_script_as_chosen_witness :
  let options :=
    Args.parseArgs (delete_argList "cursorDiskKV" "bubbleId:%" (Some 100%Z)) in
  Args.countCategories options = false
  /\ Args.checkIntegrity options = false
  /\ Args.analyze options = true
  /\ Args.deleteTable options = "cursorDiskKV"
  /\ truthy (Args.deleteKeysPattern options) = Some "bubbleId:%"
  /\ Args.keepLast options = Some 100%Z
  /\ exists c, In c CATEGORIES
               /\ cat_table c = "cursorDiskKV" /\ cat_pattern c = "bubbleId:%".
Proof.
  exact (menu_delete_reaches_the_script_as_chosen "1" "bubbleId:%" true
           (Some 100%Z) eq_refl).
Defined.

Lemma refused_vacuum_is_reported_as_not_pruned_witness :
  (exists w1,
     vacuumDatabase Demo.engine Demo.global_path (Some "sqlite3") Cases.held_world
     = (Throw (VacuumError
                 ("Failed to run VACUUM: " +:+ "Command failed: "
                  +:+ command_line "sqlite3" Demo.global_path
                        (Js.dquote +:+ "VACUUM;" +:+ Js.dquote)
                  +:+ Js.newline
                  +:+ "Make sure Cursor/VS Code is closed before running this script.")),
        w1)
     /\ fs w1 = fs Cases.held_world)
  /\ exists w',
       pruneDatabase Demo.engine Demo.global_path "Global state.vscdb"
         (Some 50%Z) Cases.held_world = (Ok false, w')
       /\ fs w' = fs Cases.held_world
       /\ trace w' = trace Cases.held_world
            ++ [EvPrune Demo.global_path "Global state.vscdb"; EvProbe;
                EvExec "sqlite3" Demo.global_path vacuum_sql].
Proof.
  apply (refused_vacuum_is_reported_as_not_pruned Demo.engine Cases.held_world
           "sqlite3" Demo.global_path "Global state.vscdb" Cases.held_db
           (Some 50%Z)).
  - reflexivity.
  - split; vm_compute; reflexivity.
  - reflexivity.
  - reflexivity.
Defined.

(** [--delete-keys] without [--analyze]: the run vacuums, and the bubbles
    are all there afterwards. *)
Example delete_keys_without_analyze_deletes_nothing :
  let args := ["--table"; "cursorDiskKV"; "--delete-keys"; "bubbleId:%";
               "--threshold"; "0"] in
  match fs (main Demo.engine args Demo.world).2 !! Demo.global_path with
  | Some (NDb f') =>
      map content <$> (tables f' !! "cursorDiskKV")
      = Some (map content Demo.disk_rows)
  | _ => False
  end.
Proof. vm_compute. reflexivity. Qed.

End FurtherCases.
